(** * FRET optical-imaging conversion (jaeger_lab_to_nwb.fretconverter)

    A shallow embedding of [fretdatainterface.py]: the trial header parser
    [read_trial_meta], the binary frame decoder [data_gen], the
    trial/channel orchestrator [run_conversion] and [get_metadata], with the
    Python, NumPy and PyNWB primitives they call.

    Conventions.  Sample values are [Z]; counts and indices are [nat]; a file
    is a [list byte]; text is [string] (a list of 8-bit characters); Python
    [float] is IEEE-754 binary64, the kernel's [PrimFloat.float].  A Python
    exception is a value of [exn]; code that may raise returns [result].

    What is taken as given.  [struct.unpack('h', ...)] reads little-endian
    words, the native order of the acquisition machines.  Header files are
    8-bit text with line-feed line ends.  Assertions are enabled (no
    [python -O]).  PyNWB constructors store their arguments; a
    [DataChunkIterator] holds its generator, which the writer drains later, so
    what [run_conversion] itself can raise comes from the headers, the
    assertions and the [add_*] calls.  The progress lines [data_gen] prints
    are left out. *)

From Stdlib Require Import ZArith String Ascii Bool Lia Arith List.
From Stdlib Require Import Uint63 PrimFloat FloatOps.
From Stdlib Require FloatAxioms SpecFloat.
From Stdlib.Strings Require Byte.
Import ListNotations.

Set Implicit Arguments.

(* ================================================================== *)
(** * Python primitives *)
(* ================================================================== *)

Module Py.

(** ** Exceptions and results *)

(** The exceptions the modelled code can raise, by class and by the call that
    raises them. *)
Inductive exn : Type :=
| struct_error                    (* struct.unpack: buffer of the wrong size *)
| ValueError_reshape              (* ndarray.reshape: size does not fit the shape *)
| ValueError_float                (* float(s): s is not a number *)
| ValueError_int                  (* int(s): s is not an integer literal *)
| ValueError_strptime             (* datetime.strptime: s does not match the format *)
| ValueError_exists (name : string) (* PyNWB: an object of that name is already there *)
| OverflowError                   (* int too large to convert to float *)
| ZeroDivisionError
| IndexError
| UnboundLocalError (var : string)
| FileNotFoundError (path : string)
| OSError (msg : string)
| AssertionError (msg : string).

Inductive result (A : Type) : Type :=
| Ok (a : A)
| Raise (e : exn).
Arguments Ok {A} a.
Arguments Raise {A} e.

Definition bind {A B} (m : result A) (k : A -> result B) : result B :=
  match m with
  | Ok a => k a
  | Raise e => Raise e
  end.

Declare Scope py_scope.
Delimit Scope py_scope with py.
Notation "x <- m ;; k" := (bind m (fun x => k))
  (at level 61, m at next level, right associativity) : py_scope.
Notation "' p <- m ;; k" := (bind m (fun x => match x with p => k end))
  (at level 61, p pattern, m at next level, right associativity) : py_scope.

(** A generator, run to its end: the elements it yields, in order, and how it
    stops ([None]: it returns; [Some e]: it raises [e] after those yields). *)
Definition gen (A : Type) : Type := (list A * option exn)%type.

Definition gen_return {A} : gen A := ([], None).
Definition gen_raise {A} (e : exn) : gen A := ([], Some e).
Definition gen_yield {A} (a : A) (rest : gen A) : gen A := (a :: fst rest, snd rest).

(** [g ;; k]: the statements [k] run after [g] unless [g] raised. *)
Definition gen_seq {A} (g k : gen A) : gen A :=
  match snd g with
  | Some e => g
  | None => (fst g ++ fst k, snd k)
  end.

(** ** 16-bit integers *)

Local Open Scope Z_scope.

(** The value of an integer stored as int16 (two's complement, wrapping). *)
Definition wrap16 (z : Z) : Z := (z + 32768) mod 65536 - 32768.

Definition in_int16 (z : Z) : Prop := -32768 <= z <= 32767.

(** ** [struct.unpack('h' * count, buffer)] *)

(** One ['h'] item: two bytes, least significant first (the byte order of the
    acquisition machines), read as a signed 16-bit integer. *)
Definition unpack_h (lo hi : Byte.byte) : Z :=
  let u := Z.of_N (Byte.to_N lo) + 256 * Z.of_N (Byte.to_N hi) in
  if u <? 32768 then u else u - 65536.

(** [struct.unpack] wants exactly [calcsize(fmt)] bytes, here [2 * count]. *)
Fixpoint struct_unpack_h (count : nat) (buffer : list Byte.byte) : result (list Z) :=
  match count, buffer with
  | O, [] => Ok []
  | S n, lo :: hi :: rest =>
      match struct_unpack_h n rest with
      | Ok ws => Ok (unpack_h lo hi :: ws)
      | Raise e => Raise e
      end
  | _, _ => Raise struct_error
  end.

(** ** NumPy: two-dimensional arrays in Fortran order *)

Local Close Scope Z_scope.

(** A 2-D array whose elements lie in memory column after column: element
    [(i, j)] is [buf] at [i + j * nrows]. *)
Record ndarray2 : Type := mk_ndarray2 {
  nrows : nat;
  ncols : nat;
  buf : list Z
}.

(** [v.reshape(r, c, order='F')] of a 1-D array [v]. *)
Definition reshape_F (v : list Z) (r c : nat) : result ndarray2 :=
  if length v =? r * c then Ok (mk_ndarray2 r c v) else Raise ValueError_reshape.

(** [a[i, j]] *)
Definition item (a : ndarray2) (i j : nat) : Z := nth (i + j * nrows a) (buf a) 0%Z.

(** [a[:, j]]: column [j] as a 1-D array. *)
Definition column (a : ndarray2) (j : nat) : list Z :=
  firstn (nrows a) (skipn (j * nrows a) (buf a)).

(** [a[lo:hi, :]] as the list of its rows; a slice stops at the array's end. *)
Definition rows (a : ndarray2) (lo hi : nat) : list (list Z) :=
  map (fun i => map (fun j => item a i j) (seq 0 (ncols a)))
      (seq lo (Nat.min hi (nrows a) - lo)).

(** [a.astype('int16')] *)
Definition astype_int16 (a : ndarray2) : ndarray2 :=
  mk_ndarray2 (nrows a) (ncols a) (map wrap16 (buf a)).

(** [-a] on an int16 array: the negation wraps. *)
Definition neg_int16 (a : ndarray2) : ndarray2 :=
  mk_ndarray2 (nrows a) (ncols a) (map (fun z => wrap16 (- z)) (buf a)).

(** ** Strings *)

Local Open Scope string_scope.

(** [needle in hay] *)
Fixpoint contains (needle hay : string) : bool :=
  String.prefix needle hay ||
  match hay with
  | EmptyString => false
  | String _ rest => contains needle rest
  end.

(** [s.endswith(suffix)] *)
Fixpoint endswith (suffix s : string) : bool :=
  String.eqb s suffix ||
  match s with
  | EmptyString => false
  | String _ rest => endswith suffix rest
  end.

(** [s.replace(old, new)] for a non-empty [old] (every call site passes a
    non-empty literal): occurrences are taken left to right without overlap.
    [skip] counts the characters of a matched occurrence still to drop. *)
Fixpoint replace_from (old new : string) (skip : nat) (s : string) : string :=
  match s with
  | EmptyString => EmptyString
  | String c rest =>
      match skip with
      | S k => replace_from old new k rest
      | O =>
          if String.prefix old s
          then new ++ replace_from old new (String.length old - 1) rest
          else String c (replace_from old new 0 rest)
      end
  end.

Definition replace (old new s : string) : string := replace_from old new 0 s.

(** The whitespace [str.strip()] removes, among 7-bit characters: tab, line
    feed, vertical tab, form feed, carriage return, the separators 28-31, and
    the space. *)
Definition isspace (c : ascii) : bool :=
  let n := nat_of_ascii c in
  (Nat.leb 9 n && Nat.leb n 13) || (Nat.leb 28 n && Nat.leb n 32).

Fixpoint lstrip (s : string) : string :=
  match s with
  | EmptyString => EmptyString
  | String c rest => if isspace c then lstrip rest else s
  end.

Fixpoint rstrip (s : string) : string :=
  match s with
  | EmptyString => EmptyString
  | String c rest =>
      match rstrip rest with
      | EmptyString => if isspace c then EmptyString else String c EmptyString
      | r => String c r
      end
  end.

(** [s.strip()] *)
Definition strip (s : string) : string := rstrip (lstrip s).

(** [s.split(sep)] for a one-character separator: never empty. *)
Fixpoint split (sep : ascii) (s : string) : list string :=
  match s with
  | EmptyString => [EmptyString]
  | String c rest =>
      if Ascii.eqb c sep then EmptyString :: split sep rest
      else match split sep rest with
           | piece :: pieces => String c piece :: pieces
           | [] => [String c EmptyString]
           end
  end.

Definition newline : ascii := ascii_of_nat 10.

(** The lines [f.readline()] returns until it returns the empty string: each
    keeps its line feed; the last one may lack it. *)
Fixpoint readlines (s : string) : list string :=
  match s with
  | EmptyString => []
  | String c rest =>
      if Ascii.eqb c newline then String c EmptyString :: readlines rest
      else match readlines rest with
           | line :: lines => String c line :: lines
           | [] => [String c EmptyString]
           end
  end.

(** [list.sort()] on strings: insertion sort by code-point order (stable). *)
Fixpoint insert_sorted (x : string) (l : list string) : list string :=
  match l with
  | [] => [x]
  | y :: rest => if String.leb x y then x :: l else y :: insert_sorted x rest
  end.

Definition sorted (l : list string) : list string :=
  fold_right insert_sorted [] l.

(** [l[i]] *)
Definition getitem {A} (l : list A) (i : nat) : result A :=
  match nth_error l i with
  | Some a => Ok a
  | None => Raise IndexError
  end.

(** ** Floats *)

Local Open Scope Z_scope.

(** The integer nearest to [a / b], ties to even ([0 <= a], [0 < b]). *)
Definition round_div_even (a b : Z) : Z :=
  let q := a / b in
  match 2 * (a mod b) ?= b with
  | Lt => q
  | Gt => q + 1
  | Eq => if Z.even q then q else q + 1
  end.

(** The binary64 number nearest to [p / q], ties to even ([0 < p], [0 < q]);
    infinity past the largest finite one.  The significand [m] is rounded at
    the exponent of the result's last place, so loading [m * 2^e] is exact. *)
Definition binary64_of_ratio (p q : Z) : float :=
  let e0 := Z.log2 p - Z.log2 q in
  let above := if 0 <=? e0 then q * 2 ^ e0 <=? p else q <=? p * 2 ^ (- e0) in
  let floor_log2 := if above then e0 else e0 - 1 in
  let e := Z.max (-1074) (floor_log2 - 52) in
  let m := if 0 <=? e then round_div_even p (q * 2 ^ e)
           else round_div_even (p * 2 ^ (- e)) q in
  Z.ldexp (PrimFloat.of_uint63 (Uint63.of_Z m)) e.

(** [float(n)] for a Python int: correctly rounded, OverflowError when the
    int is too large. *)
Definition float_of_int (n : Z) : result float :=
  let x := if n =? 0 then PrimFloat.zero
           else if n <? 0 then PrimFloat.opp (binary64_of_ratio (- n) 1)
           else binary64_of_ratio n 1 in
  if PrimFloat.is_infinity x then Raise OverflowError else Ok x.

(** [a / b] on floats: Python raises where IEEE returns an infinity or NaN. *)
Definition float_div (a b : float) : result float :=
  if PrimFloat.eqb b PrimFloat.zero then Raise ZeroDivisionError
  else Ok (PrimFloat.div a b).

(** ** Dates *)

(** A naive [datetime] is its wall-clock time in microseconds since
    0001-01-01 00:00:00; an aware one carries its offset from UTC as well. *)
Record aware : Type := mk_aware {
  wall : Z;
  utcoffset : Z
}.

(** [a == b] on aware datetimes compares the instants. *)
Definition aware_eqb (a b : aware) : bool :=
  wall a - utcoffset a =? wall b - utcoffset b.

(** [pytz.timezone('EST').localize(t)]: five hours behind UTC, all year. *)
Definition localize_EST (t : Z) : aware := mk_aware t (-5 * 3600 * 1000000).

(** [delta.seconds] of a [timedelta] of [delta] microseconds: a timedelta is
    kept as days, seconds in [0, 86400) and microseconds in [0, 10^6). *)
Definition timedelta_seconds (delta : Z) : Z := (delta / 1000000) mod 86400.

Local Close Scope Z_scope.

End Py.

(* ================================================================== *)
(** * Numbers and dates as the standard library reads them *)
(* ================================================================== *)

(** Executable models of [float(s)], [int(s)],
    [datetime.strptime(s, '%Y/%m/%d %H:%M:%S')] and [datetime.isoformat()] on
    the plain literals the instrument writes.  The conversion code below is
    parametric in these library calls; the models here instantiate it on
    concrete headers. *)

Module PyLib.
Import Py.
Local Open Scope Z_scope.

Definition digit_of (c : ascii) : option Z :=
  let n := nat_of_ascii c in
  if (Nat.leb 48 n && Nat.leb n 57)%bool then Some (Z.of_nat (n - 48)) else None.

Fixpoint digits_value (acc : Z) (s : string) : option Z :=
  match s with
  | EmptyString => Some acc
  | String c rest =>
      match digit_of c with
      | Some d => digits_value (10 * acc + d) rest
      | None => None
      end
  end.

(** A non-empty string of decimal digits. *)
Definition parse_digits (s : string) : option Z :=
  match s with
  | EmptyString => None
  | _ => digits_value 0 s
  end.

Definition split_sign (s : string) : bool * string :=
  match s with
  | String "-"%char rest => (true, rest)
  | String "+"%char rest => (false, rest)
  | _ => (false, s)
  end.

(** [int(s)] on an optionally signed decimal literal; [None] is ValueError. *)
Definition int_of_string (s : string) : option Z :=
  let (neg, digits) := split_sign s in
  match parse_digits digits with
  | Some n => Some (if neg then - n else n)
  | None => None
  end.

Definition binary64_of_decimal (neg : bool) (m e10 : Z) : float :=
  let x := if m =? 0 then PrimFloat.zero
           else if 0 <=? e10 then binary64_of_ratio (m * 10 ^ e10) 1
           else binary64_of_ratio m (10 ^ (- e10)) in
  if neg then PrimFloat.opp x else x.

(** The text before and after the first character satisfying [p]. *)
Fixpoint break_at (p : ascii -> bool) (s : string) : string * option string :=
  match s with
  | EmptyString => (EmptyString, None)
  | String c rest =>
      if p c then (EmptyString, Some rest)
      else let (a, b) := break_at p rest in (String c a, b)
  end.

Definition is_dot (c : ascii) : bool := Ascii.eqb c "."%char.
Definition is_exp (c : ascii) : bool := (Ascii.eqb c "e" || Ascii.eqb c "E")%char%bool.

(** [float(s)] on a decimal literal
    [[sign] digits [. digits] [(e|E) [sign] digits]] (one of the two digit
    groups may be empty), correctly rounded; [None] is ValueError. *)
Definition float_of_string (s : string) : option float :=
  let (neg, body) := split_sign s in
  let (mant, expo) := break_at is_exp body in
  let (ipart, fpart) := break_at is_dot mant in
  let fdigits := match fpart with Some f => f | None => EmptyString end in
  let e_given :=
    match expo with
    | None => Some 0
    | Some e => int_of_string e
    end in
  match String.append ipart fdigits, digits_value 0 ipart, digits_value 0 fdigits, e_given with
  | String _ _, Some _, Some _, Some e =>
      match digits_value 0 (String.append ipart fdigits) with
      | Some m => Some (binary64_of_decimal neg m (e - Z.of_nat (String.length fdigits)))
      | None => None
      end
  | _, _, _, _ => None
  end.

(** *** Dates *)

Definition is_leap (y : Z) : bool :=
  ((y mod 4 =? 0) && negb (y mod 100 =? 0)) || (y mod 400 =? 0).

Definition days_in_month (y m : Z) : Z :=
  if m =? 2 then (if is_leap y then 29 else 28)
  else if (m =? 4) || (m =? 6) || (m =? 9) || (m =? 11) then 30 else 31.

Definition days_before_year (y : Z) : Z :=
  let y' := y - 1 in y' * 365 + y' / 4 - y' / 100 + y' / 400.

Definition days_before_month (y m : Z) : Z :=
  fold_right Z.add 0 (map (fun k => days_in_month y (Z.of_nat k)) (seq 1 (Z.to_nat (m - 1)))).

(** Microseconds from 0001-01-01 00:00:00 to the given wall-clock time. *)
Definition naive_of_fields (y mo d h mi s : Z) : Z :=
  ((days_before_year y + days_before_month y mo + (d - 1)) * 86400
   + h * 3600 + mi * 60 + s) * 1000000.

(** [datetime.strptime(s, '%Y/%m/%d %H:%M:%S')] on the zero-padded form
    [YYYY/MM/DD HH:MM:SS]; [None] is ValueError. *)
Definition strptime (s : string) : option Z :=
  let field i n := parse_digits (String.substring i n s) in
  let sep i c := match String.get i s with Some x => Ascii.eqb x c | None => false end in
  if negb (Nat.eqb (String.length s) 19 && sep 4%nat "/"%char && sep 7%nat "/"%char
           && sep 10%nat " "%char && sep 13%nat ":"%char && sep 16%nat ":"%char)
  then None
  else
    match field 0%nat 4%nat, field 5%nat 2%nat, field 8%nat 2%nat,
          field 11%nat 2%nat, field 14%nat 2%nat, field 17%nat 2%nat with
    | Some y, Some mo, Some d, Some h, Some mi, Some sec =>
        if (1 <=? y) && (1 <=? mo) && (mo <=? 12) && (1 <=? d) && (d <=? days_in_month y mo)
           && (h <? 24) && (mi <? 60) && (sec <? 60)
        then Some (naive_of_fields y mo d h mi sec)
        else None
    | _, _, _, _, _, _ => None
    end.

(** *** [datetime.isoformat()] *)

(** Year, month and day of the day number [n], counted from 0001-01-01,
    by the 400-, 100-, 4- and 1-year cycles of the calendar. *)
Definition ymd_of_days (n : Z) : Z * Z * Z :=
  let n400 := n / 146097 in
  let n := n mod 146097 in
  let n100 := n / 36524 in
  let n := n mod 36524 in
  let n4 := n / 1461 in
  let n := n mod 1461 in
  let n1 := n / 365 in
  let n := n mod 365 in
  let year := n400 * 400 + 1 + n100 * 100 + n4 * 4 + n1 in
  if (n1 =? 4) || (n100 =? 4) then (year - 1, 12, 31)
  else
    let month := Z.shiftr (n + 50) 5 in
    let month := if n <? days_before_month year month then month - 1 else month in
    (year, month, n - days_before_month year month + 1).

(** [n] in decimal on [width] digits, zero-padded. *)
Fixpoint zero_padded (width : nat) (n : Z) : string :=
  match width with
  | O => EmptyString
  | S k =>
      String.append (zero_padded k (n / 10))
                    (String (ascii_of_nat (48 + Z.to_nat (n mod 10))) EmptyString)
  end.

(** [HH:MM:SS] of a count of microseconds, and [.ffffff] when it has a
    fraction of a second; [seconds_shown] is false where whole minutes are
    printed without their [:00]. *)
Definition clock (seconds_shown : bool) (us : Z) : string :=
  let s := us / 1000000 in
  let f := us mod 1000000 in
  let hm := String.append (zero_padded 2 (s / 3600))
                          (String.append ":"%string (zero_padded 2 (s / 60 mod 60))) in
  let sec := if seconds_shown || negb (s mod 60 =? 0) || negb (f =? 0)
             then String.append ":"%string (zero_padded 2 (s mod 60)) else EmptyString in
  let frac := if f =? 0 then EmptyString else String.append "."%string (zero_padded 6 f) in
  String.append hm (String.append sec frac).

(** [t.isoformat()] of an aware datetime:
    [YYYY-MM-DDTHH:MM:SS[.ffffff]+HH:MM[:SS[.ffffff]]]. *)
Definition isoformat (t : aware) : string :=
  let day := 86400 * 1000000 in
  let '(y, m, d) := ymd_of_days (wall t / day) in
  let date := String.append (zero_padded 4 y)
                (String.append "-"%string (String.append (zero_padded 2 m)
                   (String.append "-"%string (zero_padded 2 d)))) in
  let sign := if utcoffset t <? 0 then "-"%string else "+"%string in
  String.append date
    (String.append "T"%string
       (String.append (clock true (wall t mod day))
          (String.append sign (clock false (Z.abs (utcoffset t)))))).

End PyLib.

(* ================================================================== *)
(** * fretdatainterface.py *)
(* ================================================================== *)

Module FRET.
Import Py.
Local Open Scope string_scope.

(** ** The source directory *)

(** [dir_cortical_imaging]: the files of the directory, by name, in the order
    the operating system lists them. *)
Definition directory : Type := list (string * list Byte.byte).

(** [os.listdir(dir)] *)
Definition listdir (d : directory) : list string := map fst d.

Fixpoint lookup (d : directory) (name : string) : option (list Byte.byte) :=
  match d with
  | [] => None
  | (n, content) :: rest => if String.eqb n name then Some content else lookup rest name
  end.

(** [open(os.path.join(dir, name), "rb")] followed by the whole content. *)
Definition open_rb (d : directory) (name : string) : result (list Byte.byte) :=
  match lookup d name with
  | Some content => Ok content
  | None => Raise (FileNotFoundError name)
  end.

(** [open(os.path.join(dir, name), "r")]: the content as 8-bit text. *)
Definition open_r (d : directory) (name : string) : result string :=
  match open_rb d name with
  | Ok content => Ok (string_of_list_byte content)
  | Raise e => Raise e
  end.

(** ** PyNWB objects *)

(** A decoded image: 100 rows of 100 int16 samples. *)
Definition frame : Type := list (list Z).

Record Device : Type := mk_Device { device_name : string }.

Record OpticalChannel : Type := mk_OpticalChannel {
  oc_name : string;
  oc_description : string;
  oc_emission_lambda : float
}.

(** [data] is the [DataChunkIterator] built on a [data_gen] generator: what
    the generator yields when the writer drains it. *)
Record FRETSeries : Type := mk_FRETSeries {
  fs_name : string;
  fs_fluorophore : string;
  fs_optical_channel : OpticalChannel;
  fs_device : Device;
  fs_description : string;
  fs_data : gen frame;
  fs_starting_time : float;
  fs_rate : float;
  fs_unit : string
}.

Record FRETGroup : Type := mk_FRET {
  fret_name : string;
  fret_excitation_lambda : float;
  fret_donor : FRETSeries;
  fret_acceptor : FRETSeries
}.

(** What [nwbfile.acquisition] holds: FRET groups, and whatever other
    interfaces stored there before, of which only the name matters here. *)
Inductive acquired : Type :=
| acq_FRET (g : FRETGroup)
| acq_other (name : string).

Definition acquired_name (a : acquired) : string :=
  match a with
  | acq_FRET g => fret_name g
  | acq_other n => n
  end.

Record NWBFile : Type := mk_NWBFile {
  session_start_time : aware;
  devices : list Device;
  acquisition : list acquired;
  trials : option (list (float * float))      (* start_time, stop_time *)
}.

(** [metadata['Ophys']]: the entries the conversion reads.  The metadata
    schema requires them, so the lookups are taken to succeed. *)
Record series_meta : Type := mk_series_meta {
  m_fluorophore : string;
  m_description : string;
  m_unit : string;
  m_oc_name : string;
  m_oc_description : string;
  m_oc_emission_lambda : float
}.

Record Metadata : Type := mk_Metadata {
  md_device_name : string;
  md_fret_name : string;
  md_excitation_lambda : float;
  md_donor : series_meta;
  md_acceptor : series_meta
}.

(** ** The conversion's effects: the [nwbfile] it mutates and what it prints *)

Record world : Type := mk_world {
  nwbfile : NWBFile;
  stdout : list string
}.

Definition st (A : Type) : Type := world -> result A * world.

Definition ret {A} (a : A) : st A := fun w => (Ok a, w).
Definition raise {A} (e : exn) : st A := fun w => (Raise e, w).
Definition lift {A} (r : result A) : st A := fun w => (r, w).
Definition lift_option {A} (o : option A) (e : exn) : st A :=
  fun w => (match o with Some a => Ok a | None => Raise e end, w).

Definition st_bind {A B} (m : st A) (k : A -> st B) : st B :=
  fun w =>
    match m w with
    | (Ok a, w') => k a w'
    | (Raise e, w') => (Raise e, w')
    end.

Declare Scope st_scope.
Delimit Scope st_scope with st.
Notation "x <~ m ;; k" := (st_bind m (fun x => k))
  (at level 61, m at next level, right associativity) : st_scope.
Notation "m ;;; k" := (st_bind m (fun _ => k))
  (at level 61, right associativity) : st_scope.

Definition print (s : string) : st unit :=
  fun w => (Ok tt, mk_world (nwbfile w) (stdout w ++ [s])).

Definition get_nwbfile : st NWBFile := fun w => (Ok (nwbfile w), w).

Definition assert_ (cond : bool) (msg : string) : st unit :=
  if cond then ret tt else raise (AssertionError msg).

(** [nwbfile.add_device(device)]: names are unique within the file. *)
Definition add_device (dev : Device) : st unit :=
  fun w =>
    let f := nwbfile w in
    if existsb (fun x => String.eqb (device_name x) (device_name dev)) (devices f)
    then (Raise (ValueError_exists (device_name dev)), w)
    else (Ok tt, mk_world (mk_NWBFile (session_start_time f) (devices f ++ [dev])
                                      (acquisition f) (trials f)) (stdout w)).

(** [nwbfile.add_acquisition(fret)] *)
Definition add_acquisition (g : FRETGroup) : st unit :=
  fun w =>
    let f := nwbfile w in
    if existsb (fun x => String.eqb (acquired_name x) (fret_name g)) (acquisition f)
    then (Raise (ValueError_exists (fret_name g)), w)
    else (Ok tt, mk_world (mk_NWBFile (session_start_time f) (devices f)
                                      (acquisition f ++ [acq_FRET g]) (trials f)) (stdout w)).

(** [nwbfile.add_trial(start_time=..., stop_time=...)]: the first call makes
    the table. *)
Definition add_trial (start_time stop_time : float) : st unit :=
  fun w =>
    let f := nwbfile w in
    let table := match trials f with Some rows => rows | None => [] end in
    (Ok tt, mk_world (mk_NWBFile (session_start_time f) (devices f) (acquisition f)
                                 (Some (table ++ [(start_time, stop_time)])%list)) (stdout w)).

Fixpoint for_each {A} (l : list A) (body : A -> st unit) : st unit :=
  match l with
  | [] => ret tt
  | a :: rest => st_bind (body a) (fun _ => for_each rest body)
  end.

(** [[f x for x in l]] where [f] may raise. *)
Fixpoint map_result {A B} (f : A -> result B) (l : list A) : result (list B) :=
  match l with
  | [] => Ok []
  | a :: rest =>
      match f a with
      | Raise e => Raise e
      | Ok b => match map_result f rest with
                | Raise e => Raise e
                | Ok bs => Ok (b :: bs)
                end
      end
  end.

Section Conversion.

(** The library calls whose reading of text is taken as given: [float(s)],
    [int(s)] and [datetime.strptime(s, '%Y/%m/%d %H:%M:%S')] (a naive
    datetime), each [None] where Python raises ValueError. *)
Variable py_float : string -> option float.
Variable py_int : string -> option Z.
Variable strptime : string -> option Z.

(** ** [read_trial_meta] *)

(** The local variables of [read_trial_meta] that outlive a loop turn; the
    last three are unbound until a line assigns them. *)
Record locals : Type := mk_locals {
  files_raw : list string;
  addftolist : bool;
  acquisition_date : option string;
  sample_rate : option float;
  n_frames : option Z
}.

Definition initial_locals : locals := mk_locals [] false None None None.

(** The text of a numeric field of [line]: the label, the [=] and the unit
    removed, then stripped. *)
Definition sample_time_text (line : string) : string :=
  strip (replace "msec" "" (replace "=" "" (replace "sample_time" "" line))).

Definition page_frames_text (line : string) : string :=
  strip (replace "=" "" (replace "page_frames" "" line)).

Definition acquisition_date_text (line : string) : string :=
  strip (replace "=" "" (replace "acquisition_date" "" line)).

(** One turn of the [while line:] loop. *)
Definition scan_line (v : locals) (line : string) : result locals :=
  let v1 :=
    if contains "acquisition_date" line
    then mk_locals (files_raw v) (addftolist v) (Some (acquisition_date_text line))
                   (sample_rate v) (n_frames v)
    else v in
  (v2 <- (if contains "sample_time" line
          then match py_float (sample_time_text line) with
               | None => Raise ValueError_float
               | Some x =>
                   let sample_time := PrimFloat.div x 1000 in
                   (rate <- float_div 1 sample_time ;;
                    Ok (mk_locals (files_raw v1) (addftolist v1) (acquisition_date v1)
                                  (Some rate) (n_frames v1)))%py
               end
          else Ok v1) ;;
   v3 <- (if contains "page_frames" line
          then match py_int (page_frames_text line) with
               | None => Raise ValueError_int
               | Some n => Ok (mk_locals (files_raw v2) (addftolist v2) (acquisition_date v2)
                                         (sample_rate v2) (Some n))
               end
          else Ok v2) ;;
   let v4 :=
     if addftolist v3
     then mk_locals (files_raw v3 ++ [strip line]) (addftolist v3) (acquisition_date v3)
                    (sample_rate v3) (n_frames v3)
     else v3 in
   Ok (if contains "Data-File-List" line
       then mk_locals (files_raw v4) true (acquisition_date v4) (sample_rate v4) (n_frames v4)
       else v4))%py.

Fixpoint scan (v : locals) (lines : list string) : result locals :=
  match lines with
  | [] => Ok v
  | line :: rest =>
      match scan_line v line with
      | Ok v' => scan v' rest
      | Raise e => Raise e
      end
  end.

(** [file_rsm, files_raw, acquisition_date, sample_rate, n_frames] *)
Definition meta_tuple : Type := (string * list string * string * float * Z)%type.

(** What follows the loop: the bitmap file is split off, then the names of
    the returned tuple are read from left to right. *)
Definition finish (v : locals) : result meta_tuple :=
  match files_raw v with
  | [] => Raise IndexError
  | file_rsm :: files =>
      match acquisition_date v, sample_rate v, n_frames v with
      | None, _, _ => Raise (UnboundLocalError "acquisition_date")
      | Some _, None, _ => Raise (UnboundLocalError "sample_rate")
      | Some _, Some _, None => Raise (UnboundLocalError "n_frames")
      | Some date, Some rate, Some n => Ok (file_rsm, files, date, rate, n)
      end
  end.

(** The body of [read_trial_meta] on the text of the header file. *)
Definition read_trial_meta_text (text : string) : result meta_tuple :=
  (v <- scan initial_locals (readlines text) ;; finish v)%py.

Definition read_trial_meta (d : directory) (trial_meta : string) : result meta_tuple :=
  (text <- open_r d trial_meta ;; read_trial_meta_text text)%py.

(** ** [data_gen] *)

(** The size [f.read] is asked for. *)
Definition READ_MAX : Z := 1000000000.

(** [f.read(size)]: the bytes from the start of the file, [size] at most. *)
Fixpoint f_read (size : Z) (content : list Byte.byte) : list Byte.byte :=
  match content with
  | [] => []
  | b :: rest => if (0 <? size)%Z then b :: f_read (size - 1) rest else []
  end.

(** The body of [for ifr in range(n_frames)]: the 128x100 block of frame
    [ifr], its sign inverted; rows 20-119 are stored in [frames] and yielded,
    rows 0-19 are stored in [excess_frames]. *)
Definition decode_frame (words_reshaped : ndarray2) (ifr : nat)
  : result (frame * list (list Z)) :=
  (a <- reshape_F (column words_reshaped ifr) 128 100 ;;
   let iframe := neg_int16 (astype_int16 a) in
   Ok (rows iframe 20 120, rows iframe 0 20))%py.

Fixpoint frames_loop (words_reshaped : ndarray2) (ifrs : list nat) : gen frame :=
  match ifrs with
  | [] => gen_return
  | ifr :: rest =>
      match decode_frame words_reshaped ifr with
      | Raise e => gen_raise e
      | Ok (fr, _) => gen_yield fr (frames_loop words_reshaped rest)
      end
  end.

(** Lines 131-143 on the buffer [byte] of one file: what is yielded, and the
    value of the variable [n_frames] afterwards.  [int(len(words) / 12800)]
    goes through a float quotient, exact for every length a buffer can have;
    the 12800 rows of [words_reshaped] are written [128 * 100]. *)
Definition decode_buffer (n_frames : Z) (byte : list Byte.byte) : gen frame * Z :=
  match struct_unpack_h (length byte / 2) byte with
  | Raise e => (gen_raise e, n_frames)
  | Ok words =>
      let n_frames := (Z.of_nat (length words) / 12800)%Z in
      match reshape_F words (128 * 100) (Z.to_nat n_frames) with
      | Raise e => (gen_raise e, n_frames)
      | Ok words_reshaped =>
          (frames_loop words_reshaped (seq 0 (Z.to_nat n_frames)), n_frames)
      end
  end.

(** One turn of [for fn, fraw in enumerate(files_raw)] once the file is open. *)
Definition decode_file (n_frames : Z) (content : list Byte.byte) : gen frame * Z :=
  decode_buffer n_frames (f_read READ_MAX content).

Fixpoint files_loop (d : directory) (n_frames : Z) (files : list string) : gen frame :=
  match files with
  | [] => gen_return
  | fraw :: rest =>
      match open_rb d fraw with
      | Raise e => gen_raise e
      | Ok content =>
          let (frames, n_frames') := decode_file n_frames content in
          gen_seq frames (files_loop d n_frames' rest)
      end
  end.

(** [data_gen(channel, trial)], closed over the directory and the prefix. *)
Definition data_gen (d : directory) (fname_prefix channel trial : string) : gen frame :=
  let trial_meta := fname_prefix ++ "-" ++ trial ++ "_" ++ channel ++ ".rsh" in
  match read_trial_meta d trial_meta with
  | Raise e => gen_raise e
  | Ok (_, files, _, _, n_frames) => files_loop d n_frames files
  end.

(** ** [run_conversion] *)

Definition is_session_header (f : string) : bool :=
  contains ".rsh" f && negb (contains "_A" f) && negb (contains "_B" f).

(** The body of [for tr in trials_numbers]. *)
Definition convert_trial (d : directory) (metadata : Metadata) (fname_prefix : string)
    (device : Device) (opt_ch_donor opt_ch_acceptor : OpticalChannel)
    (add_trials : bool) (tr : string) : st unit :=
  let meta_donor := md_donor metadata in
  let meta_acceptor := md_acceptor metadata in
  let trial_meta_A := fname_prefix ++ "-" ++ tr ++ "_A.rsh" in
  let trial_meta_B := fname_prefix ++ "-" ++ tr ++ "_B.rsh" in
  (A <~ lift (read_trial_meta d trial_meta_A) ;;
   B <~ lift (read_trial_meta d trial_meta_B) ;;
   let '(_, _, acquisition_date_A, sample_rate_A, n_frames_A) := A in
   let '(_, _, acquisition_date_B, sample_rate_B, n_frames_B) := B in
   absolute_start_time <~ lift_option (strptime acquisition_date_A) ValueError_strptime ;;
   nwb <~ get_nwbfile ;;
   relative_start_time <~
     lift (float_of_int
             (timedelta_seconds (absolute_start_time - wall (session_start_time nwb)))) ;;
   assert_ (String.eqb acquisition_date_A acquisition_date_B)
           ("Acquisition date of channels do not match. Trial=" ++ tr) ;;;
   assert_ (PrimFloat.eqb sample_rate_A sample_rate_B)
           ("Sample rate of channels do not match. Trial=" ++ tr) ;;;
   assert_ (Z.eqb n_frames_A n_frames_B)
           ("Number of frames of channels do not match. Trial=" ++ tr) ;;;
   assert_ (PrimFloat.leb 0 relative_start_time)
           ("Starting time is negative. Trial=" ++ tr) ;;;
   let data_donor := data_gen d fname_prefix "A" tr in
   let data_acceptor := data_gen d fname_prefix "B" tr in
   let frets_donor :=
     mk_FRETSeries "donor" (m_fluorophore meta_donor) opt_ch_donor device
                   (m_description meta_donor) data_donor relative_start_time
                   sample_rate_A (m_unit meta_donor) in
   let frets_acceptor :=
     mk_FRETSeries "acceptor" (m_fluorophore meta_acceptor) opt_ch_acceptor device
                   (m_description meta_acceptor) data_acceptor relative_start_time
                   sample_rate_B (m_unit meta_acceptor) in
   let fret :=
     mk_FRET (md_fret_name metadata ++ "_" ++ tr) (md_excitation_lambda metadata)
             frets_donor frets_acceptor in
   add_acquisition fret ;;;
   if add_trials
   then (frames <~ lift (float_of_int n_frames_A) ;;
         duration <~ lift (float_div frames sample_rate_A) ;;
         add_trial relative_start_time (PrimFloat.add relative_start_time duration))
   else ret tt)%st.

Definition trial_number (f : string) : result string :=
  (piece <- getitem (split "-" f) 1 ;; Ok (replace ".rsh" "" piece))%py.

Definition run_conversion (d : directory) (metadata : Metadata) : st unit :=
  let ophys_list := filter (endswith ".rsh") (listdir d) in
  (fname_prefix <~
     match ophys_list with
     | first :: _ => lift (getitem (split "-" first) 0)
     | [] => raise (OSError "No .rsd file found in directory")
     end ;;
   let all_files := listdir d in
   let all_headers := sorted (filter is_session_header all_files) in
   header <~ lift (getitem all_headers 0) ;;
   meta <~ lift (read_trial_meta d header) ;;
   let '(_, _, acquisition_date, _, _) := meta in
   session_start_time <~ lift_option (strptime acquisition_date) ValueError_strptime ;;
   let session_start_time_tzaware := localize_EST session_start_time in
   nwb <~ get_nwbfile ;;
   if negb (aware_eqb session_start_time_tzaware (FRET.session_start_time nwb))
   then
     print "Session start time in current nwbfile does not match the start time from rsd files." ;;;
     print "Ophys data conversion aborted."
   else
     let device := mk_Device (md_device_name metadata) in
     add_device device ;;;
     let meta_donor := md_donor metadata in
     let meta_acceptor := md_acceptor metadata in
     let opt_ch_donor :=
       mk_OpticalChannel (m_oc_name meta_donor) (m_oc_description meta_donor)
                         (m_oc_emission_lambda meta_donor) in
     let opt_ch_acceptor :=
       mk_OpticalChannel (m_oc_name meta_acceptor) (m_oc_description meta_acceptor)
                         (m_oc_emission_lambda meta_acceptor) in
     nwb <~ get_nwbfile ;;
     add_trials <~
       match trials nwb with
       | Some _ =>
           print "Trials already exist in current nwb file. Ophys trials intervals not added." ;;;
           ret false
       | None => ret true
       end ;;
     trials_numbers <~ lift (map_result trial_number all_headers) ;;
     for_each trials_numbers
       (convert_trial d metadata fname_prefix device opt_ch_donor opt_ch_acceptor add_trials))%st.

End Conversion.
End FRET.

(* ================================================================== *)
(** * fretdatainterface.py: [get_metadata] *)
(* ================================================================== *)

Module FRETMetadata.
Import Py FRET.

Section Metadata.

Variable py_float : string -> option float.
Variable py_int : string -> option Z.
Variable strptime : string -> option Z.

(** [t.isoformat()] of an aware datetime, taken as given. *)
Variable isoformat : aware -> string.

(** [get_metadata]: the [session_start_time] entry of the dictionary it
    returns, [metadata['NWBFile']['session_start_time']], its only entry. *)
Definition get_metadata (d : directory) : result string :=
  let all_files := listdir d in
  let all_headers := sorted (filter is_session_header all_files) in
  (header <- getitem all_headers 0 ;;
   meta <- read_trial_meta py_float py_int d header ;;
   let '(_, _, acquisition_date, _, _) := meta in
   match strptime acquisition_date with
   | None => Raise ValueError_strptime
   | Some session_start_time =>
       let session_start_time_tzaware := localize_EST session_start_time in
       Ok (isoformat session_start_time_tzaware)
   end)%py.

End Metadata.
End FRETMetadata.

(* ================================================================== *)
(** * The vocabulary of the properties *)
(* ================================================================== *)

Unset Implicit Arguments.

Module Props.
Import Py FRET.

(** The raw sample at index [i] of a buffer: its bytes [2i] and [2i+1]. *)
Definition raw_sample (byte : list Byte.byte) (i : nat) : Z :=
  unpack_h (nth (2 * i) byte Byte.x00) (nth (2 * i + 1) byte Byte.x00).

(** The frames of a generator that ran to its end without raising. *)
Definition yields {A} (g : gen A) (l : list A) : Prop := g = (l, None).

(** A frame is 100 rows of 100 samples. *)
Definition shape_100x100 (fr : frame) : Prop :=
  length fr = 100 /\ forall r, r < 100 -> length (nth r fr []) = 100.

(** The 128x100 block of frame [ifr], sign inverted, as [decode_frame] builds it. *)
Definition iframe_of (words_reshaped : ndarray2) (ifr : nat) : ndarray2 :=
  neg_int16 (astype_int16 (mk_ndarray2 128 100 (column words_reshaped ifr))).

(** The 128x100 block of raw samples of frame [ifr], before the sign inversion. *)
Definition block_of (words_reshaped : ndarray2) (ifr : nat) : ndarray2 :=
  mk_ndarray2 128 100 (column words_reshaped ifr).

(** Un-negating the rows of a decoded block, in int16 arithmetic. *)
Definition unnegate (block : list (list Z)) : list (list Z) :=
  map (map (fun z => wrap16 (- z))) block.

(** The error kinds of the specification's taxonomy. *)
Inductive error_kind : Type :=
| DirectoryNotFoundError
| FormatError
| ParseError
| CapacityError
| GeometryError
| ConsistencyError.

(** The kind under which the taxonomy files an exception of the code, by what
    the exception reports: no matching files; a header without its file list
    or a required field; a numeric field that is not a number; a sample count
    that does not fit the frame geometry; a failed consistency assertion.
    The code has no check of a file's size, so nothing it raises is a
    CapacityError; exceptions the taxonomy does not name have no kind. *)
Definition kind_of (e : exn) : option error_kind :=
  match e with
  | OSError _ => Some DirectoryNotFoundError
  | IndexError | UnboundLocalError _ => Some FormatError
  | ValueError_float | ValueError_int => Some ParseError
  | struct_error | ValueError_reshape => Some GeometryError
  | AssertionError _ => Some ConsistencyError
  | _ => None
  end.

(** No line mentions [key]. *)
Definition absent (key : string) (lines : list string) : Prop :=
  forall line, In line lines -> contains key line = false.

(** The number of binary digits of [m]. *)
Definition dig (m : positive) : Z := Z.pos (SpecFloat.digits2_pos m).

(** [x] is 1 to within 2^-53, half a unit in the last place of 1. *)
Definition within_tolerance (x : float) : bool :=
  PrimFloat.leb (PrimFloat.abs (PrimFloat.sub x 1)) 0x1p-53%float.

(** [f] holds at [start], [start + 1], ..., [count] values in all. *)
Fixpoint all_from (f : Z -> bool) (start : Z) (count : nat) : bool :=
  match count with
  | O => true
  | S k => if f start then all_from f (start + 1) k else false
  end.

(** A name of a file of the directory itself: not empty, not a path, and
    neither of the two names every directory has. *)
Definition plain_name (s : string) : bool :=
  negb (String.eqb s "") && negb (contains "/" s)
  && negb (String.eqb s ".") && negb (String.eqb s "..").

(** ** What the stream and the conversion are said to do *)

(** The number of whole frames in the file called [f]. *)
Definition frames_in (d : directory) (f : string) : Z :=
  match lookup d f with
  | Some content => (Z.of_nat (length content) / 25600)%Z
  | None => 0%Z
  end.

(** A file of whole frames that one read takes in. *)
Definition whole_file (d : directory) (f : string) : Prop :=
  exists content,
    lookup d f = Some content /\
    (Z.of_nat (length content) mod 25600 = 0)%Z /\
    (Z.of_nat (length content) <= READ_MAX)%Z.

(** What the file holds, of which the conversion changes only the three
    lists; [keeps f f'] says that [f'] still starts with all that [f] held. *)
Definition keeps (f f' : NWBFile) : Prop :=
  session_start_time f' = session_start_time f /\
  (exists ds, devices f' = devices f ++ ds) /\
  (exists acs, acquisition f' = acquisition f ++ acs).

(** The rows of the trials table, none when the file has no table yet. *)
Definition trial_rows (nf : NWBFile) : list (float * float) :=
  match trials nf with Some rows => rows | None => [] end.

(** The FRET group [g] is what [run_conversion] builds for trial [tr]: its
    name carries the trial number, its two series hold the generators of
    channels A and B of that trial and the sample rates read from the two
    headers, which compare equal, and one starting time, not below zero. *)
Definition converted (py_float : string -> option float) (py_int : string -> option Z)
    (d : directory) (metadata : Metadata) (fname_prefix : string)
    (tr : string) (g : FRETGroup) : Prop :=
  fret_name g = (md_fret_name metadata ++ "_" ++ tr)%string /\
  fs_name (fret_donor g) = "donor"%string /\
  fs_name (fret_acceptor g) = "acceptor"%string /\
  fs_data (fret_donor g) = data_gen py_float py_int d fname_prefix "A" tr /\
  fs_data (fret_acceptor g) = data_gen py_float py_int d fname_prefix "B" tr /\
  (exists rsm files date n,
     read_trial_meta py_float py_int d (fname_prefix ++ "-" ++ tr ++ "_A.rsh")%string
     = Ok (rsm, files, date, fs_rate (fret_donor g), n)) /\
  (exists rsm files date n,
     read_trial_meta py_float py_int d (fname_prefix ++ "-" ++ tr ++ "_B.rsh")%string
     = Ok (rsm, files, date, fs_rate (fret_acceptor g), n)) /\
  PrimFloat.eqb (fs_rate (fret_donor g)) (fs_rate (fret_acceptor g)) = true /\
  fs_starting_time (fret_acceptor g) = fs_starting_time (fret_donor g) /\
  PrimFloat.leb 0 (fs_starting_time (fret_donor g)) = true /\
  fs_device (fret_donor g) = mk_Device (md_device_name metadata) /\
  fs_device (fret_acceptor g) = mk_Device (md_device_name metadata).

(** The two lines of the warning are printed and the file is what it was. *)
Definition aborted (w w' : world) : Prop :=
  nwbfile w' = nwbfile w /\
  stdout w' = stdout w ++
    ["Session start time in current nwbfile does not match the start time from rsd files.";
     "Ophys data conversion aborted."]%string.

(** What [run_conversion] has done when it returns, with the session headers
    [all_headers] in sorted order and the prefix taken from the first [*.rsh]
    file of the listing. *)
Definition completed (py_float : string -> option float) (py_int : string -> option Z)
    (d : directory) (metadata : Metadata) (w w' : world) : Prop :=
  exists first others prefix numbers groups,
    filter (endswith ".rsh") (listdir d) = first :: others /\
    getitem (split "-" first) 0 = Ok prefix /\
    map_result trial_number (sorted (filter is_session_header (listdir d))) = Ok numbers /\
    Forall2 (converted py_float py_int d metadata prefix) numbers groups /\
    session_start_time (nwbfile w') = session_start_time (nwbfile w) /\
    devices (nwbfile w') = devices (nwbfile w) ++ [mk_Device (md_device_name metadata)] /\
    acquisition (nwbfile w') = acquisition (nwbfile w) ++ map acq_FRET groups /\
    match trials (nwbfile w) with
    | Some rows => trials (nwbfile w') = Some rows
    | None =>
        map fst (trial_rows (nwbfile w'))
        = map (fun g => fs_starting_time (fret_donor g)) groups
    end.

End Props.

(* ================================================================== *)
(** * Sample inputs *)
(* ================================================================== *)

Module Samples.
Import Py PyLib FRET Props.
Local Open Scope string_scope.

Definition byte_of (n : N) : Byte.byte :=
  match Byte.of_N n with
  | Some b => b
  | None => Byte.x00
  end.

(** The samples [start], [start + 1], ... as [count] pairs of bytes. *)
Fixpoint ramp_bytes (start : N) (count : nat) : list Byte.byte :=
  match count with
  | O => []
  | S k => byte_of (start mod 256) :: byte_of (start / 256) :: ramp_bytes (start + 1) k
  end.

(** One 128x100 block holding the samples 0, 1, ..., 12799 in file order. *)
Definition ramp_buffer : list Byte.byte := ramp_bytes 0 (128 * 100).

Fixpoint ramp (start : Z) (count : nat) : list Z :=
  match count with
  | O => []
  | S k => start :: ramp (start + 1) k
  end.

Definition ramp_words : list Z := ramp 0 (128 * 100).

(** One block in which every sample is -32768 (bytes 00 80). *)
Definition min_buffer : list Byte.byte :=
  flat_map (fun _ => [Byte.x00; Byte.x80]) (seq 0 (128 * 100)).

(** A file of 40,000 whole frames, 1,024,000,000 bytes: more than one read. *)
Definition oversized_file : list Byte.byte :=
  repeat Byte.x00 (Z.to_nat 1024000000).

(** The scenario's raw file: 128,000 samples, 256,000 bytes. *)
Definition scenario_file : list Byte.byte :=
  repeat Byte.x01 (2 * (128 * 100 * 10)).

Definition nl : string := String newline EmptyString.

(** A header file: the three fields, the sentinel, then the file names. *)
Definition header_text (date sample_time page_frames : string) (files : list string)
  : string :=
  String.concat nl
    (["acquisition_date = " ++ date;
      "sample_time = " ++ sample_time ++ " msec";
      "page_frames = " ++ page_frames;
      "Data-File-List"] ++ files) ++ nl.

Definition header (date sample_time page_frames : string) (files : list string)
  : list Byte.byte :=
  list_byte_of_string (header_text date sample_time page_frames files).

(** A trial of channel A recorded in one raw file, under two headers that
    differ in the frame count they declare. *)
Definition dir_declares (page_frames : string) : directory :=
  [("s-1_A.rsh", header "2019/07/10 12:30:00" "10" page_frames ["s-1_A.rsm"; "s-1_A(0).rsd"]);
   ("s-1_A(0).rsd", ramp_buffer)].

(** A well-formed header of channel A, with the given sample time. *)
Definition header_with_sample_time (sample_time : string) : string :=
  header_text "2019/07/10 12:30:00" sample_time "5" ["s-1_A.rsm"; "s-1_A(0).rsd"].

(** A header that stops before the sentinel line. *)
Definition header_without_sentinel (sample_time : string) : string :=
  String.concat nl
    ["acquisition_date = 2019/07/10 12:30:00";
     "sample_time = " ++ sample_time ++ " msec";
     "page_frames = 5"] ++ nl.

(** The end-to-end scenario: one trial header of channel A declaring 10 msec
    and 5 frames, its bitmap line, and one raw file with the given content. *)
Definition scenario_dir (raw : list Byte.byte) : directory :=
  [("s-1_A.rsh", list_byte_of_string (header_with_sample_time "10"));
   ("s-1_A(0).rsd", raw)].

(** A session of two trials: trial 2 recorded at 12:00:00 and trial 10 at
    12:08:00; each channel of each trial has one raw file of one frame.
    Sorted by name, the header of trial 10 comes first. *)
Definition trial_header (trial channel time : string) : list Byte.byte :=
  header ("2019/07/10 " ++ time) "10" "1"
         ["s-" ++ trial ++ channel ++ ".rsm"; "s-" ++ trial ++ channel ++ "(0).rsd"].

Definition two_trials_dir : directory :=
  [("s-2.rsh", trial_header "2" "" "12:00:00");
   ("s-2_A.rsh", trial_header "2" "_A" "12:00:00");
   ("s-2_B.rsh", trial_header "2" "_B" "12:00:00");
   ("s-10.rsh", trial_header "10" "" "12:08:00");
   ("s-10_A.rsh", trial_header "10" "_A" "12:08:00");
   ("s-10_B.rsh", trial_header "10" "_B" "12:08:00");
   ("s-2_A(0).rsd", ramp_buffer); ("s-2_B(0).rsd", ramp_buffer);
   ("s-10_A(0).rsd", ramp_buffer); ("s-10_B(0).rsd", ramp_buffer)].

Definition sample_metadata : Metadata :=
  mk_Metadata "camera" "FRET" 430%float
    (mk_series_meta "CFP" "donor series" "a.u." "donor channel" "donor emission" 480%float)
    (mk_series_meta "YFP" "acceptor series" "a.u." "acceptor channel" "acceptor emission"
                    530%float).

(** An output file whose session starts at the given local time, EST. *)
Definition nwbfile_starting (time : string) : NWBFile :=
  mk_NWBFile
    (localize_EST (match strptime ("2019/07/10 " ++ time) with Some t => t | None => 0%Z end))
    [] [] None.

(** The name and the starting time of each FRET group in the file. *)
Definition starting_times (f : NWBFile) : list (string * float) :=
  flat_map (fun a => match a with
                     | acq_FRET g => [(fret_name g, fs_starting_time (fret_donor g))]
                     | acq_other _ => []
                     end) (acquisition f).

(** The conversion of the two-trial session into a file whose session start
    is that of the first header in sorted order, the one of trial 10. *)
Definition sample_run : result unit * world :=
  run_conversion float_of_string int_of_string strptime two_trials_dir sample_metadata
                 (mk_world (nwbfile_starting "12:08:00") []).

(** The donor data of the FRET group called [name]. *)
Definition donor_data (name : string) (f : NWBFile) : option (gen frame) :=
  match find (fun a => String.eqb (acquired_name a) name) (acquisition f) with
  | Some (acq_FRET g) => Some (fs_data (fret_donor g))
  | _ => None
  end.

(** The two-trial session, the header of channel B of trial 2 declaring
    20 msec where that of channel A declares 10 msec. *)
Definition mismatched_dir : directory :=
  [("s-2.rsh", trial_header "2" "" "12:00:00");
   ("s-2_A.rsh", trial_header "2" "_A" "12:00:00");
   ("s-2_B.rsh", header "2019/07/10 12:00:00" "20" "1" ["s-2_B.rsm"; "s-2_B(0).rsd"]);
   ("s-10.rsh", trial_header "10" "" "12:08:00");
   ("s-10_A.rsh", trial_header "10" "_A" "12:08:00");
   ("s-10_B.rsh", trial_header "10" "_B" "12:08:00");
   ("s-2_A(0).rsd", ramp_buffer); ("s-2_B(0).rsd", ramp_buffer);
   ("s-10_A(0).rsd", ramp_buffer); ("s-10_B(0).rsd", ramp_buffer)].

(** The file once trial 10 of [mismatched_dir] is converted into a file that
    starts at 12:00:00. *)
Definition after_trial_10 : world :=
  snd (convert_trial float_of_string int_of_string strptime mismatched_dir sample_metadata
         "s" (mk_Device "camera")
         (mk_OpticalChannel "donor channel" "donor emission" 480)
         (mk_OpticalChannel "acceptor channel" "acceptor emission" 530) true "10"
         (mk_world (nwbfile_starting "12:00:00") [])).

(** A trial of channel A whose header lists three raw files of one frame
    each, all of them in the directory. *)
Definition three_files_header : list Byte.byte :=
  header "2019/07/10 12:30:00" "10" "3"
         ["s-1_A.rsm"; "s-1_A(0).rsd"; "s-1_A(1).rsd"; "s-1_A(2).rsd"].

Definition three_files_dir : directory :=
  [("s-1_A.rsh", three_files_header);
   ("s-1_A(0).rsd", ramp_buffer); ("s-1_A(1).rsd", ramp_buffer);
   ("s-1_A(2).rsd", ramp_buffer)].

(** The same trial, its second raw file lost. *)
Definition missing_file_dir : directory :=
  [("s-1_A.rsh", three_files_header);
   ("s-1_A(0).rsd", ramp_buffer); ("s-1_A(2).rsd", ramp_buffer)].

(** A header that gives the date and the frame count twice, the second time
    after the list of files has begun. *)
Definition header_with_repeats : string :=
  String.concat nl
    ["acquisition_date = 2019/07/10 12:30:00";
     "page_frames = 5";
     "sample_time = 10 msec";
     "Data-File-List";
     "s-1_A.rsm";
     "s-1_A(0).rsd";
     "page_frames = 7";
     "acquisition_date = 2019/07/11 08:00:00"] ++ nl.

(** An output file that starts at 12:08:00 and has a trials table of one
    row. *)
Definition nwbfile_with_trials : NWBFile :=
  mk_NWBFile (session_start_time (nwbfile_starting "12:08:00")) [] []
             (Some [(0%float, 1%float)]).

End Samples.

(* ================================================================== *)
(** * Properties of the binary frame decoder *)
(* ================================================================== *)

Module DecoderFacts.
Import Py PyLib FRET Props Samples.

(** ** int16 arithmetic *)

Local Open Scope Z_scope.

Lemma wrap16_range z : in_int16 (wrap16 z).
Proof.
  unfold in_int16, wrap16.
  pose proof (Z.mod_pos_bound (z + 32768) 65536 eq_refl). lia.
Qed.

Lemma wrap16_id z : in_int16 z -> wrap16 z = z.
Proof.
  unfold in_int16, wrap16. intros H.
  rewrite Z.mod_small by lia. lia.
Qed.

Lemma wrap16_neg_wrap16 z : wrap16 (- wrap16 z) = wrap16 (- z).
Proof.
  unfold wrap16.
  pose proof (Z.div_mod (z + 32768) 65536 ltac:(lia)) as D.
  replace (- ((z + 32768) mod 65536 - 32768) + 32768)
    with (- z + 32768 + ((z + 32768) / 65536) * 65536) by lia.
  now rewrite Z.mod_add by lia.
Qed.

Lemma wrap16_neg z : in_int16 z -> z <> (-32768)%Z -> wrap16 (- z) = (- z)%Z.
Proof.
  unfold in_int16. intros H N. apply wrap16_id. unfold in_int16. lia.
Qed.

Lemma wrap16_neg_min : wrap16 (- (-32768)) = (-32768)%Z.
Proof. reflexivity. Qed.

Lemma unpack_h_range lo hi : in_int16 (unpack_h lo hi).
Proof.
  unfold in_int16, unpack_h.
  pose proof (Byte.to_N_bounded lo). pose proof (Byte.to_N_bounded hi).
  cbv zeta. destruct (Z.ltb_spec (Z.of_N (Byte.to_N lo) + 256 * Z.of_N (Byte.to_N hi)) 32768); lia.
Qed.

Lemma raw_sample_range byte i : in_int16 (raw_sample byte i).
Proof. apply unpack_h_range. Qed.

Local Close Scope Z_scope.

(** ** [struct.unpack] *)

Lemma raw_sample_cons2 lo hi rest i :
  raw_sample (lo :: hi :: rest) (S i) = raw_sample rest i.
Proof.
  unfold raw_sample.
  replace (2 * S i) with (S (S (2 * i))) by lia.
  replace (S (S (2 * i)) + 1) with (S (S (2 * i + 1))) by lia.
  reflexivity.
Qed.

Lemma struct_unpack_h_ok : forall n buffer,
  length buffer = 2 * n ->
  exists ws, struct_unpack_h n buffer = Ok ws /\ length ws = n /\
             forall i, i < n -> nth i ws 0%Z = raw_sample buffer i.
Proof.
  induction n as [|n IH]; intros buffer L.
  - destruct buffer; [|discriminate]. exists []. repeat split. intros; lia.
  - destruct buffer as [|lo [|hi rest]]; simpl in L; try lia.
    destruct (IH rest) as (ws & E & Lw & Hn); [lia|].
    exists (unpack_h lo hi :: ws). simpl. rewrite E. repeat split.
    + simpl. now rewrite Lw.
    + intros [|i] Hi; [reflexivity|].
      rewrite raw_sample_cons2. apply Hn. lia.
Qed.

Lemma struct_unpack_h_wrong_size : forall n buffer,
  length buffer <> 2 * n -> struct_unpack_h n buffer = Raise struct_error.
Proof.
  induction n as [|n IH]; intros buffer L.
  - destruct buffer; [contradiction L; reflexivity | reflexivity].
  - destruct buffer as [|lo [|hi rest]]; try reflexivity.
    simpl. rewrite IH; [reflexivity|]. simpl in L. lia.
Qed.

(** ** Arrays *)

Lemma column_length v r c j :
  length v = r * c -> j < c -> length (column (mk_ndarray2 r c v) j) = r.
Proof.
  intros L Hj. unfold column. simpl.
  rewrite length_firstn, length_skipn, L. nia.
Qed.

Lemma column_nth v r c j i :
  i < r -> nth i (column (mk_ndarray2 r c v) j) 0%Z = nth (j * r + i) v 0%Z.
Proof.
  intros Hi. unfold column. simpl.
  rewrite nth_firstn. apply Nat.ltb_lt in Hi. rewrite Hi.
  apply nth_skipn.
Qed.

Lemma rows_length a lo hi :
  length (rows a lo hi) = Nat.min hi (nrows a) - lo.
Proof. unfold rows. now rewrite length_map, length_seq. Qed.

Lemma rows_nth a lo hi i :
  i < Nat.min hi (nrows a) - lo ->
  nth i (rows a lo hi) [] = map (fun j => item a (lo + i) j) (seq 0 (ncols a)).
Proof.
  intros Hi. unfold rows.
  rewrite (nth_indep _ [] (map (fun j => item a 0 j) (seq 0 (ncols a))))
    by now rewrite length_map, length_seq.
  rewrite (map_nth (fun i => map (fun j => item a i j) (seq 0 (ncols a)))).
  now rewrite seq_nth.
Qed.

Lemma rows_item a lo hi i j :
  i < Nat.min hi (nrows a) - lo -> j < ncols a ->
  nth j (nth i (rows a lo hi) []) 0%Z = item a (lo + i) j.
Proof.
  intros Hi Hj. rewrite rows_nth by assumption.
  rewrite (nth_indep _ 0%Z (item a (lo + i) 0)) by now rewrite length_map, length_seq.
  rewrite (map_nth (fun j => item a (lo + i) j)).
  now rewrite seq_nth.
Qed.

Lemma rows_row_length a lo hi i :
  i < Nat.min hi (nrows a) - lo -> length (nth i (rows a lo hi) []) = ncols a.
Proof.
  intros Hi. rewrite rows_nth by assumption. now rewrite length_map, length_seq.
Qed.

(** An element of the sign-inverted int16 copy of an array. *)
Lemma item_neg_astype a i j :
  item (neg_int16 (astype_int16 a)) i j = wrap16 (- item a i j).
Proof.
  unfold item, neg_int16, astype_int16. simpl.
  change 0%Z with ((fun z => wrap16 (- z)) 0%Z) at 1.
  rewrite map_nth.
  change 0%Z with (wrap16 0%Z) at 1.
  rewrite map_nth.
  apply wrap16_neg_wrap16.
Qed.

(** ** The frame loop *)

Lemma decode_frame_ok words n ifr :
  length words = 128 * 100 * n -> ifr < n ->
  decode_frame (mk_ndarray2 (128 * 100) n words) ifr
  = Ok (rows (iframe_of (mk_ndarray2 (128 * 100) n words) ifr) 20 120,
        rows (iframe_of (mk_ndarray2 (128 * 100) n words) ifr) 0 20).
Proof.
  intros L Hi. unfold decode_frame, reshape_F.
  rewrite (column_length words _ _ _ L Hi), Nat.eqb_refl. reflexivity.
Qed.

Lemma frames_loop_ok words n :
  length words = 128 * 100 * n ->
  forall ifrs, (forall i, In i ifrs -> i < n) ->
  frames_loop (mk_ndarray2 (128 * 100) n words) ifrs
  = (map (fun ifr => rows (iframe_of (mk_ndarray2 (128 * 100) n words) ifr) 20 120) ifrs,
     None).
Proof.
  intros L. induction ifrs as [|i rest IH]; intros Hin; [reflexivity|].
  cbn [frames_loop map].
  rewrite (decode_frame_ok words _ _ L) by (apply Hin; now left).
  rewrite IH by (intros; apply Hin; now right).
  reflexivity.
Qed.

(** A sample of a yielded frame, traced back to the flat word array. *)
Lemma frame_item words n ifr r c :
  length words = 128 * 100 * n -> ifr < n -> r < 100 -> c < 100 ->
  nth c (nth r (rows (iframe_of (mk_ndarray2 (128 * 100) n words) ifr) 20 120) []) 0%Z
  = wrap16 (- nth (ifr * (128 * 100) + c * 128 + (r + 20)) words 0%Z).
Proof.
  intros L Hi Hr Hc.
  rewrite rows_item; [| cbn; lia | cbn; lia].
  unfold iframe_of. rewrite item_neg_astype. unfold item. cbn [nrows buf].
  rewrite column_nth by lia.
  do 2 f_equal. f_equal. lia.
Qed.

Lemma frame_shape words n ifr :
  shape_100x100 (rows (iframe_of (mk_ndarray2 (128 * 100) n words) ifr) 20 120).
Proof.
  split.
  - rewrite rows_length. reflexivity.
  - intros r Hr. rewrite rows_row_length; [reflexivity | cbn; lia].
Qed.

(** ** One buffer *)

(** A buffer of [25600 * m] bytes decodes to [m] frames: the shape of the
    result, from which the claims about it follow. *)
Lemma decode_buffer_whole_frames n_frames byte m :
  length byte = 2 * (128 * 100 * m) ->
  exists words,
    struct_unpack_h (length byte / 2) byte = Ok words /\
    length words = 128 * 100 * m /\
    (forall i, i < 128 * 100 * m -> nth i words 0%Z = raw_sample byte i) /\
    decode_buffer n_frames byte
    = ((map (fun ifr => rows (iframe_of (mk_ndarray2 (128 * 100) m words) ifr) 20 120)
            (seq 0 m), None), Z.of_nat m).
Proof.
  intros L.
  assert (Hhalf : length byte / 2 = 128 * 100 * m).
  { rewrite L, Nat.mul_comm. apply Nat.div_mul. discriminate. }
  destruct (struct_unpack_h_ok (128 * 100 * m) byte L) as (words & E & Lw & Hw).
  exists words. rewrite Hhalf. repeat split; try assumption.
  unfold decode_buffer. rewrite Hhalf, E.
  assert (Hn : (Z.of_nat (length words) / 12800)%Z = Z.of_nat m).
  { rewrite Lw. replace (Z.of_nat (128 * 100 * m)) with (Z.of_nat m * 12800)%Z by lia.
    apply Z.div_mul. lia. }
  rewrite Hn, Nat2Z.id. unfold reshape_F.
  rewrite Lw, Nat.eqb_refl.
  rewrite (frames_loop_ok words _ Lw); [reflexivity|].
  intros i Hin. apply in_seq in Hin. lia.
Qed.

Lemma multiple_of_25600 (l : nat) :
  (Z.of_nat l mod 25600 = 0)%Z ->
  exists m, l = 2 * (128 * 100 * m) /\ Z.of_nat m = (Z.of_nat l / 2 / 12800)%Z.
Proof.
  intros H.
  exists (Z.to_nat (Z.of_nat l / 25600)).
  pose proof (Z.div_mod (Z.of_nat l) 25600 ltac:(lia)) as D.
  assert (0 <= Z.of_nat l / 25600)%Z by (apply Z.div_pos; lia).
  split; [lia|].
  rewrite Z2Nat.id by assumption.
  rewrite Z.div_div by lia. reflexivity.
Qed.

(** C1.  For every buffer whose length is a multiple of 25,600 bytes, the
    decoder yields exactly (length / 2) / 12,800 frames and stops without
    raising; each frame is 100x100; and the sample at row [r], column [c] of
    frame [k] is the int16 negation of the raw sample at flat index
    [k * 12800 + c * 128 + (r + 20)], the column-major place [(r + 20, c)] of
    the [k]-th 128x100 block. *)
Theorem decode_buffer_frames (n_frames : Z) (byte : list Byte.byte) :
  (Z.of_nat (length byte) mod 25600 = 0)%Z ->
  exists frames,
    yields (fst (decode_buffer n_frames byte)) frames /\
    Z.of_nat (length frames) = (Z.of_nat (length byte) / 2 / 12800)%Z /\
    (forall k, k < length frames -> shape_100x100 (nth k frames [])) /\
    (forall k r c, k < length frames -> r < 100 -> c < 100 ->
       nth c (nth r (nth k frames []) []) 0%Z
       = wrap16 (- raw_sample byte (k * (128 * 100) + c * 128 + (r + 20)))).
Proof.
  intros H.
  destruct (multiple_of_25600 _ H) as (m & L & Hm).
  destruct (decode_buffer_whole_frames n_frames byte m L) as (words & _ & Lw & Hw & E).
  eexists. rewrite E. split; [reflexivity|].
  rewrite length_map, length_seq.
  split; [assumption|]. split.
  - intros k Hk.
    rewrite (nth_indep _ [] (rows (iframe_of (mk_ndarray2 (128 * 100) m words) 0) 20 120))
      by now rewrite length_map, length_seq.
    rewrite (map_nth (fun ifr => rows (iframe_of (mk_ndarray2 (128 * 100) m words) ifr) 20 120)).
    apply frame_shape.
  - intros k r c Hk Hr Hc.
    rewrite (nth_indep _ [] (rows (iframe_of (mk_ndarray2 (128 * 100) m words) 0) 20 120))
      by now rewrite length_map, length_seq.
    rewrite (map_nth (fun ifr => rows (iframe_of (mk_ndarray2 (128 * 100) m words) ifr) 20 120)).
    rewrite seq_nth by assumption. cbn [Nat.add].
    rewrite frame_item by assumption.
    rewrite Hw; [reflexivity | nia].
Qed.

(** C10.  The sign inversion wraps modulo 2^16: a raw sample of -32768
    decodes to -32768, not to +32768, and every other raw sample [x] decodes
    to [-x]; so "decoded = - raw" fails for that one value and no other. *)
Theorem sign_inversion_wraps (n_frames : Z) (byte : list Byte.byte) :
  (Z.of_nat (length byte) mod 25600 = 0)%Z ->
  exists frames,
    yields (fst (decode_buffer n_frames byte)) frames /\
    forall k r c, k < length frames -> r < 100 -> c < 100 ->
      let x := raw_sample byte (k * (128 * 100) + c * 128 + (r + 20)) in
      let y := nth c (nth r (nth k frames []) []) 0%Z in
      in_int16 x /\
      (x = (-32768)%Z -> y = (-32768)%Z) /\
      (x <> (-32768)%Z -> y = (- x)%Z) /\
      (y = (- x)%Z <-> x <> (-32768)%Z).
Proof.
  intros H.
  destruct (multiple_of_25600 _ H) as (m & L & _).
  destruct (decode_buffer_whole_frames n_frames byte m L) as (words & _ & Lw & Hw & E).
  eexists. rewrite E. split; [reflexivity|].
  rewrite length_map, length_seq. intros k r c Hk Hr Hc x y.
  assert (Hy : y = wrap16 (- x)).
  { subst x y.
    rewrite (nth_indep _ [] (rows (iframe_of (mk_ndarray2 (128 * 100) m words) 0) 20 120))
      by now rewrite length_map, length_seq.
    rewrite (map_nth (fun ifr => rows (iframe_of (mk_ndarray2 (128 * 100) m words) ifr) 20 120)).
    rewrite seq_nth by assumption. cbn [Nat.add].
    rewrite frame_item by assumption.
    rewrite Hw; [reflexivity | nia]. }
  pose proof (raw_sample_range byte (k * (128 * 100) + c * 128 + (r + 20))) as Rx.
  fold x in Rx. clearbody x y. subst y.
  split; [assumption|]. split; [|split; [|split]].
  - intros ->. reflexivity.
  - intros N. now apply wrap16_neg.
  - intros Eq N. subst x. rewrite wrap16_neg_min in Eq. discriminate.
  - intros N. now apply wrap16_neg.
Qed.

(** ** The excess/frame split *)

Lemma rows_app a lo mid hi :
  lo <= mid -> mid <= hi -> hi <= nrows a ->
  rows a lo mid ++ rows a mid hi = rows a lo hi.
Proof.
  intros H1 H2 H3. unfold rows.
  rewrite <- map_app. f_equal.
  rewrite !Nat.min_l by lia.
  replace (hi - lo) with ((mid - lo) + (hi - mid)) by lia.
  rewrite seq_app. do 2 f_equal. lia.
Qed.

Lemma nth_in_int16 l i : Forall in_int16 l -> in_int16 (nth i l 0%Z).
Proof.
  intros F. destruct (nth_in_or_default i l 0%Z) as [I | ->].
  - rewrite Forall_forall in F. now apply F.
  - unfold in_int16. lia.
Qed.

Lemma wrap16_neg_neg z : in_int16 z -> wrap16 (- wrap16 (- z)) = z.
Proof.
  intros R. rewrite wrap16_neg_wrap16, Z.opp_involutive. now apply wrap16_id.
Qed.

(** What [decode_frame] returns, and the sizes of its two regions. *)
Lemma decode_frame_regions words n ifr :
  length words = 128 * 100 * n -> ifr < n ->
  exists fr ex,
    decode_frame (mk_ndarray2 (128 * 100) n words) ifr = Ok (fr, ex) /\
    length ex = 20 /\ length fr = 100 /\
    ex ++ fr = rows (iframe_of (mk_ndarray2 (128 * 100) n words) ifr) 0 120.
Proof.
  intros L Hi. do 2 eexists. split; [now apply decode_frame_ok|].
  split; [now rewrite rows_length|].
  split; [now rewrite rows_length|].
  apply rows_app; [lia | lia | cbn; lia].
Qed.

(** C4, as the code has it.  Stacking the excess region (rows 0-19) on the
    frame region (rows 20-119) and un-negating every sample in int16
    arithmetic gives back rows 0-119 of the 128x100 block of raw samples;
    rows 120-127 are in neither region. *)
Theorem excess_and_frame_restore_rows_0_to_119 (words : list Z) (n ifr : nat) :
  length words = 128 * 100 * n -> ifr < n -> Forall in_int16 words ->
  exists fr ex,
    decode_frame (mk_ndarray2 (128 * 100) n words) ifr = Ok (fr, ex) /\
    length ex = 20 /\ length fr = 100 /\
    unnegate (ex ++ fr) = rows (block_of (mk_ndarray2 (128 * 100) n words) ifr) 0 120.
Proof.
  intros L Hi F.
  destruct (decode_frame_regions words n ifr L Hi) as (fr & ex & E & Lex & Lfr & App).
  exists fr, ex. repeat split; try assumption.
  rewrite App. unfold unnegate, rows. rewrite map_map.
  apply map_ext_in. intros i Ii. rewrite map_map.
  apply map_ext_in. intros j Ij.
  apply in_seq in Ii. apply in_seq in Ij. cbn in Ii, Ij.
  unfold iframe_of. rewrite item_neg_astype.
  apply wrap16_neg_neg.
  unfold item, block_of. cbn [nrows buf].
  rewrite column_nth by lia.
  now apply nth_in_int16.
Qed.

(** ** Independence of the header's frame count *)

Lemma decode_buffer_frames_indep n1 n2 byte :
  fst (decode_buffer n1 byte) = fst (decode_buffer n2 byte) /\
  (snd (fst (decode_buffer n1 byte)) = None ->
   snd (decode_buffer n1 byte) = snd (decode_buffer n2 byte)).
Proof.
  unfold decode_buffer.
  destruct (struct_unpack_h (length byte / 2) byte) as [words|e].
  - generalize (reshape_F words (128 * 100) (Z.to_nat (Z.of_nat (length words) / 12800))).
    intros [words_reshaped|e]; (split; [reflexivity | intros _; reflexivity]).
  - split; [reflexivity | intros N; discriminate N].
Qed.

Lemma files_loop_frames_indep d files :
  forall n1 n2, files_loop d n1 files = files_loop d n2 files.
Proof.
  induction files as [|fraw rest IH]; intros n1 n2; [reflexivity|].
  cbn [files_loop]. destruct (open_rb d fraw) as [content|e]; [|reflexivity].
  unfold decode_file.
  destruct (decode_buffer_frames_indep n1 n2 (f_read READ_MAX content)) as [Ef En].
  destruct (decode_buffer n1 (f_read READ_MAX content)) as [g1 m1].
  destruct (decode_buffer n2 (f_read READ_MAX content)) as [g2 m2].
  cbn in Ef, En. subst g2. unfold gen_seq.
  destruct (snd g1) as [e|]; [reflexivity|].
  rewrite (IH m1 m2). reflexivity.
Qed.

Lemma files_loop_same_files d1 d2 files :
  (forall f, In f files -> lookup d1 f = lookup d2 f) ->
  forall n, files_loop d1 n files = files_loop d2 n files.
Proof.
  induction files as [|fraw rest IH]; intros Hl n; [reflexivity|].
  cbn [files_loop]. unfold open_rb. rewrite (Hl fraw) by now left.
  destruct (lookup d2 fraw) as [content|]; [|reflexivity].
  destruct (decode_file n content) as [g m].
  rewrite IH by (intros; apply Hl; now right). reflexivity.
Qed.

(** A buffer whose sample count is not a multiple of 12,800 is refused by the
    reshape, before any frame is yielded. *)
Lemma decode_buffer_indivisible n_frames byte k :
  length byte = 2 * k -> (Z.of_nat k mod 12800 <> 0)%Z ->
  decode_buffer n_frames byte
  = (gen_raise ValueError_reshape, (Z.of_nat k / 12800)%Z).
Proof.
  intros L Hk.
  assert (Hhalf : length byte / 2 = k).
  { rewrite L, Nat.mul_comm. apply Nat.div_mul. discriminate. }
  destruct (struct_unpack_h_ok k byte L) as (words & E & Lw & _).
  unfold decode_buffer. rewrite Hhalf, E, Lw. unfold reshape_F.
  destruct (Nat.eqb_spec (length words) (128 * 100 * Z.to_nat (Z.of_nat k / 12800)))
    as [Eq|_]; [|reflexivity].
  exfalso. apply Hk.
  pose proof (Z.div_mod (Z.of_nat k) 12800 ltac:(lia)) as D.
  assert (0 <= Z.of_nat k / 12800)%Z by (apply Z.div_pos; lia).
  lia.
Qed.

(** C3.  Two runs of the decoder on the same raw files yield the same
    sequence of frames (and stop the same way) whatever [page_frames] the two
    headers declare, and for every raw-data buffer, of [k] samples, the frame
    count is recomputed from the buffer alone: whatever count was declared,
    the variable [n_frames] is [k / 12800] afterwards, what the buffer yields
    is the same, and when [k] is a multiple of 12,800 exactly [k / 12800]
    frames are yielded. *)
Theorem data_gen_ignores_declared_frame_count
    (py_float : string -> option float) (py_int : string -> option Z)
    (d1 d2 : directory) (fname_prefix channel trial : string)
    (rsm1 rsm2 date1 date2 : string) (files : list string)
    (rate1 rate2 : float) (n1 n2 : Z) :
  read_trial_meta py_float py_int d1
    (fname_prefix ++ "-" ++ trial ++ "_" ++ channel ++ ".rsh")%string
  = Ok (rsm1, files, date1, rate1, n1) ->
  read_trial_meta py_float py_int d2
    (fname_prefix ++ "-" ++ trial ++ "_" ++ channel ++ ".rsh")%string
  = Ok (rsm2, files, date2, rate2, n2) ->
  (forall f, In f files -> lookup d1 f = lookup d2 f) ->
  data_gen py_float py_int d1 fname_prefix channel trial
  = data_gen py_float py_int d2 fname_prefix channel trial /\
  forall (byte : list Byte.byte) (k : nat),
    length byte = 2 * k ->
    snd (decode_buffer n1 byte) = (Z.of_nat k / 12800)%Z /\
    snd (decode_buffer n2 byte) = (Z.of_nat k / 12800)%Z /\
    fst (decode_buffer n1 byte) = fst (decode_buffer n2 byte) /\
    ((Z.of_nat k mod 12800 = 0)%Z ->
     exists frames,
       fst (decode_buffer n1 byte) = (frames, None) /\
       Z.of_nat (length frames) = (Z.of_nat k / 12800)%Z).
Proof.
  intros E1 E2 Hl. split.
  { unfold data_gen. rewrite E1, E2.
    rewrite (files_loop_frames_indep d1 files n1 n2).
    now apply files_loop_same_files. }
  intros byte k L.
  destruct (Z.eq_dec (Z.of_nat k mod 12800) 0) as [W|NW].
  - assert (M : (Z.of_nat (length byte) mod 25600 = 0)%Z).
    { rewrite L. replace (Z.of_nat (2 * k)) with (2 * Z.of_nat k)%Z by lia.
      pose proof (Z.div_mod (Z.of_nat k) 12800 ltac:(lia)) as D.
      rewrite W in D.
      replace (2 * Z.of_nat k)%Z with ((Z.of_nat k / 12800) * 25600)%Z by lia.
      apply Z.mod_mul. lia. }
    destruct (multiple_of_25600 _ M) as (m & Lm & Hm).
    assert (Hk : Z.of_nat m = (Z.of_nat k / 12800)%Z).
    { rewrite Hm, L. replace (Z.of_nat (2 * k)) with (Z.of_nat k * 2)%Z by lia.
      now rewrite Z.div_mul by lia. }
    destruct (decode_buffer_whole_frames n1 byte m Lm) as (w1 & _ & _ & _ & D1).
    destruct (decode_buffer_whole_frames n2 byte m Lm) as (w2 & _ & _ & _ & D2).
    pose proof (decode_buffer_frames_indep n1 n2 byte) as [F _].
    split; [rewrite D1; exact Hk|]. split; [rewrite D2; exact Hk|].
    split; [exact F|].
    intros _. rewrite D1. cbn [fst]. eexists. split; [reflexivity|].
    now rewrite length_map, length_seq.
  - rewrite (decode_buffer_indivisible n1 byte k L NW),
            (decode_buffer_indivisible n2 byte k L NW).
    cbn [fst snd]. split; [reflexivity|]. split; [reflexivity|].
    split; [reflexivity|]. intros W. contradiction.
Qed.

(** ** The bounded read *)

Lemma f_read_firstn : forall content size,
  f_read size content = firstn (Z.to_nat size) content.
Proof.
  induction content as [|b rest IH]; intros size.
  - now rewrite firstn_nil.
  - cbn [f_read]. destruct (Z.ltb_spec 0 size) as [P|N].
    + replace (Z.to_nat size) with (S (Z.to_nat (size - 1))) by lia.
      cbn [firstn]. now rewrite IH.
    + replace (Z.to_nat size) with 0 by lia. reflexivity.
Qed.

Lemma f_read_whole content size :
  (Z.of_nat (length content) <= size)%Z -> f_read size content = content.
Proof.
  intros H. rewrite f_read_firstn. apply firstn_all2. lia.
Qed.

Lemma f_read_length_capped content size :
  (0 <= size < Z.of_nat (length content))%Z ->
  length (f_read size content) = Z.to_nat size.
Proof.
  intros H. rewrite f_read_firstn, length_firstn. lia.
Qed.

(** A file larger than the read size: the buffer is its first 10^9 bytes, and
    500,000,000 samples are 39,062 frames and 6,400 samples more. *)
Lemma decode_oversized_file n_frames content :
  (READ_MAX < Z.of_nat (length content))%Z ->
  decode_file n_frames content = (gen_raise ValueError_reshape, 39062%Z).
Proof.
  intros H. unfold decode_file.
  assert (L : length (f_read READ_MAX content) = 2 * Z.to_nat 500000000).
  { rewrite f_read_length_capped by (unfold READ_MAX in *; lia).
    unfold READ_MAX. lia. }
  rewrite (decode_buffer_indivisible n_frames _ _ L).
  - rewrite Z2Nat.id by lia. reflexivity.
  - rewrite Z2Nat.id by lia. discriminate.
Qed.

(** C7, as the code has it.  A raw file is read in one [read] of at most
    1,000,000,000 bytes: a file within that size is decoded whole; of a larger
    one the read returns the first 1,000,000,000 bytes and raises nothing, and
    the decoder then fails in the reshape (the taxonomy's GeometryError,
    the error of any sample count that is no multiple of 12,800) before it
    yields a frame: it never decodes the truncated prefix. *)
Theorem oversized_file_fails_in_reshape (n_frames : Z) (content : list Byte.byte) :
  ((Z.of_nat (length content) <= READ_MAX)%Z ->
     decode_file n_frames content = decode_buffer n_frames content) /\
  ((READ_MAX < Z.of_nat (length content))%Z ->
     f_read READ_MAX content = firstn (Z.to_nat READ_MAX) content /\
     length (f_read READ_MAX content) = Z.to_nat READ_MAX /\
     fst (decode_file n_frames content) = gen_raise ValueError_reshape /\
     kind_of ValueError_reshape = Some GeometryError).
Proof.
  split.
  - intros H. unfold decode_file. now rewrite f_read_whole.
  - intros H. split; [apply f_read_firstn|]. split.
    + apply f_read_length_capped. unfold READ_MAX in *. lia.
    + rewrite decode_oversized_file by assumption. split; reflexivity.
Qed.

(** ** The claims at sample inputs *)

Lemma flat_map_pairs_length {A B} (f g : A -> B) (l : list A) :
  length (flat_map (fun x => [f x; g x]) l) = 2 * length l.
Proof. induction l as [|x l IH]; cbn [flat_map length app]; lia. Qed.

Lemma ramp_bytes_length count : forall start, length (ramp_bytes start count) = 2 * count.
Proof. induction count as [|k IH]; intros start; cbn [ramp_bytes length]; [|rewrite IH]; lia. Qed.

Lemma ramp_buffer_length : length ramp_buffer = 2 * (128 * 100 * 1).
Proof. unfold ramp_buffer. rewrite ramp_bytes_length. lia. Qed.

(** C1 at the ramp 0..12799: one frame, its first sample the negation of
    sample 20 and its last one the negation of sample 119 + 99 * 128. *)
Lemma decode_buffer_frames_at_ramp :
  (Z.of_nat (length ramp_buffer) mod 25600 = 0)%Z /\
  exists frames,
    yields (fst (decode_buffer 0 ramp_buffer)) frames /\
    length frames = 1 /\
    shape_100x100 (nth 0 frames []) /\
    nth 0 (nth 0 (nth 0 frames []) []) 0%Z = (-20)%Z /\
    nth 99 (nth 99 (nth 0 frames []) []) 0%Z = (-12791)%Z.
Proof.
  assert (L : Z.of_nat (length ramp_buffer) = 25600%Z)
    by (rewrite ramp_buffer_length; lia).
  assert (H : (Z.of_nat (length ramp_buffer) mod 25600 = 0)%Z)
    by (rewrite L; reflexivity).
  split; [exact H|].
  destruct (decode_buffer_frames 0 ramp_buffer H) as (frames & Y & Len & Sh & It).
  assert (L1 : length frames = 1).
  { rewrite L in Len. change (25600 / 2 / 12800)%Z with 1%Z in Len. lia. }
  exists frames. split; [exact Y|]. split; [exact L1|].
  split; [apply Sh; lia|]. split.
  - rewrite It by lia. vm_compute. reflexivity.
  - rewrite It by lia. vm_compute. reflexivity.
Defined.

Lemma min_buffer_length : length min_buffer = 2 * (128 * 100 * 1).
Proof. unfold min_buffer. rewrite flat_map_pairs_length, length_seq. lia. Qed.

(** C10 at a block of -32768: the first decoded sample is -32768. *)
Lemma sign_inversion_wraps_at_min :
  (Z.of_nat (length min_buffer) mod 25600 = 0)%Z /\
  exists frames,
    yields (fst (decode_buffer 0 min_buffer)) frames /\
    raw_sample min_buffer 20 = (-32768)%Z /\
    nth 0 (nth 0 (nth 0 frames []) []) 0%Z = (-32768)%Z.
Proof.
  assert (L : Z.of_nat (length min_buffer) = 25600%Z)
    by (rewrite min_buffer_length; lia).
  assert (H : (Z.of_nat (length min_buffer) mod 25600 = 0)%Z)
    by (rewrite L; reflexivity).
  split; [exact H|].
  destruct (sign_inversion_wraps 0 min_buffer H) as (frames & Y & It).
  exists frames. split; [exact Y|].
  assert (R : raw_sample min_buffer 20 = (-32768)%Z) by (vm_compute; reflexivity).
  split; [exact R|].
  assert (L1 : length frames = 1).
  { destruct (decode_buffer_whole_frames 0 min_buffer 1 min_buffer_length)
      as (words & _ & _ & _ & E).
    unfold yields in Y. rewrite E in Y. cbn [fst] in Y.
    injection Y as <-. reflexivity. }
  destruct (It 0 0 0) as (_ & Hmin & _); [lia | lia | lia |].
  apply Hmin. exact R.
Defined.

Lemma ramp_length count : forall start, length (ramp start count) = count.
Proof. induction count as [|k IH]; intros start; cbn [ramp length]; [|rewrite IH]; lia. Qed.

Lemma ramp_int16 count : forall start,
  (-32768 <= start)%Z -> (start + Z.of_nat count <= 32768)%Z ->
  Forall in_int16 (ramp start count).
Proof.
  induction count as [|k IH]; intros start Lo Hi; cbn [ramp]; constructor.
  - unfold in_int16. lia.
  - apply IH; lia.
Qed.

Lemma ramp_words_int16 : Forall in_int16 ramp_words.
Proof. apply ramp_int16; lia. Qed.

Lemma ramp_words_length : length ramp_words = 128 * 100 * 1.
Proof. unfold ramp_words. rewrite ramp_length. lia. Qed.

(** C4 as stated fails at the ramp: the two regions stacked are 120 rows, the
    block is 128 rows, so the stack is not the block. *)
Lemma excess_and_frame_lose_rows_120_to_127 :
  exists fr ex,
    decode_frame (mk_ndarray2 (128 * 100) 1 ramp_words) 0 = Ok (fr, ex) /\
    length (unnegate (ex ++ fr)) = 120 /\
    length (rows (block_of (mk_ndarray2 (128 * 100) 1 ramp_words) 0) 0 128) = 128 /\
    unnegate (ex ++ fr) <> rows (block_of (mk_ndarray2 (128 * 100) 1 ramp_words) 0) 0 128.
Proof.
  destruct (decode_frame_regions ramp_words 1 0 ramp_words_length) as (fr & ex & E & Lex & Lfr & _);
    [lia|].
  exists fr, ex. split; [exact E|].
  assert (L120 : length (unnegate (ex ++ fr)) = 120).
  { unfold unnegate. rewrite length_map, length_app, Lex, Lfr. reflexivity. }
  assert (L128 : length (rows (block_of (mk_ndarray2 (128 * 100) 1 ramp_words) 0) 0 128) = 128).
  { rewrite rows_length. reflexivity. }
  split; [exact L120|]. split; [exact L128|].
  intros Eq. rewrite Eq in L120. rewrite L120 in L128. discriminate.
Qed.

(** The amended C4 at the ramp. *)
Lemma excess_and_frame_restore_rows_at_ramp :
  exists fr ex,
    decode_frame (mk_ndarray2 (128 * 100) 1 ramp_words) 0 = Ok (fr, ex) /\
    length ex = 20 /\ length fr = 100 /\
    unnegate (ex ++ fr) = rows (block_of (mk_ndarray2 (128 * 100) 1 ramp_words) 0) 0 120.
Proof.
  apply (excess_and_frame_restore_rows_0_to_119 ramp_words 1 0).
  - exact ramp_words_length.
  - lia.
  - exact ramp_words_int16.
Defined.

(** C3 at two headers declaring 5 and 7 frames for the same one-frame file:
    the same frames, and the one block of 12,800 samples leaves 1 in
    [n_frames] and yields one frame under either count. *)
Lemma data_gen_same_frames_for_5_and_7 :
  data_gen float_of_string int_of_string (dir_declares "5") "s" "A" "1"
  = data_gen float_of_string int_of_string (dir_declares "7") "s" "A" "1" /\
  snd (decode_buffer 5 ramp_buffer) = (Z.of_nat (128 * 100 * 1) / 12800)%Z /\
  snd (decode_buffer 7 ramp_buffer) = (Z.of_nat (128 * 100 * 1) / 12800)%Z /\
  fst (decode_buffer 5 ramp_buffer) = fst (decode_buffer 7 ramp_buffer) /\
  exists frames,
    fst (decode_buffer 5 ramp_buffer) = (frames, None) /\
    Z.of_nat (length frames) = (Z.of_nat (128 * 100 * 1) / 12800)%Z.
Proof.
  destruct (data_gen_ignores_declared_frame_count float_of_string int_of_string
              (dir_declares "5") (dir_declares "7") "s" "A" "1"
              "s-1_A.rsm" "s-1_A.rsm" "2019/07/10 12:30:00" "2019/07/10 12:30:00"
              ["s-1_A(0).rsd"%string] 100%float 100%float 5%Z 7%Z)
    as [Same Recount].
  - vm_compute. reflexivity.
  - vm_compute. reflexivity.
  - intros f [<- | []]. reflexivity.
  - split; [exact Same|].
    destruct (Recount ramp_buffer (128 * 100 * 1) ramp_buffer_length)
      as (S5 & S7 & F & Whole).
    repeat (split; [assumption|]).
    apply Whole. replace (Z.of_nat (128 * 100 * 1)) with 12800%Z by lia. reflexivity.
Defined.

Lemma oversized_file_length : Z.of_nat (length oversized_file) = 1024000000%Z.
Proof. unfold oversized_file. rewrite repeat_length. apply Z2Nat.id. lia. Qed.

(** C7 as stated fails at a file of 40,000 frames: what the decoder raises is
    the reshape's error, a GeometryError; no CapacityError is raised. *)
Lemma oversized_file_raises_no_CapacityError :
  (READ_MAX < Z.of_nat (length oversized_file))%Z /\
  (Z.of_nat (length oversized_file) mod 25600 = 0)%Z /\
  fst (decode_file 0 oversized_file) = gen_raise ValueError_reshape /\
  ~ (exists e, snd (fst (decode_file 0 oversized_file)) = Some e /\
               kind_of e = Some CapacityError).
Proof.
  assert (H : (READ_MAX < Z.of_nat (length oversized_file))%Z)
    by (rewrite oversized_file_length; reflexivity).
  split; [exact H|].
  split; [rewrite oversized_file_length; reflexivity|].
  rewrite (decode_oversized_file 0 oversized_file H).
  split; [reflexivity|].
  intros (e & E & K). cbn in E. injection E as <-. discriminate K.
Qed.

(** The amended C7 at that file. *)
Lemma oversized_file_fails_in_reshape_at_40000_frames :
  (READ_MAX < Z.of_nat (length oversized_file))%Z /\
  length (f_read READ_MAX oversized_file) = Z.to_nat READ_MAX /\
  fst (decode_file 0 oversized_file) = gen_raise ValueError_reshape.
Proof.
  assert (H : (READ_MAX < Z.of_nat (length oversized_file))%Z)
    by (rewrite oversized_file_length; reflexivity).
  split; [exact H|].
  destruct (oversized_file_fails_in_reshape 0 oversized_file) as [_ Big].
  destruct (Big H) as (_ & Len & Err & _).
  split; [exact Len | exact Err].
Defined.

End DecoderFacts.

(* ================================================================== *)
(** * The sample rate times the sample duration, on binary64 *)
(* ================================================================== *)

(** [1 / x * x] in binary64, from the specification of the primitive
    operations: the quotient [1 / x] is rounded to nearest, so that the product
    is within half a unit in the last place of 1 and rounds to 1 or to the
    float just below it. *)

Module ReciprocalFacts.
Import FloatAxioms SpecFloat Props.
Local Open Scope Z_scope.

(** ** Digits *)

Lemma dig_pos m : 1 <= dig m.
Proof. unfold dig. lia. Qed.

Lemma dig_bounds m : 2 ^ (dig m - 1) <= Z.pos m < 2 ^ dig m.
Proof.
  unfold dig. induction m as [m IH|m IH|]; cbn [digits2_pos].
  - rewrite Pos2Z.inj_succ, (Pos2Z.inj_xI m).
    replace (Z.succ (Z.pos (digits2_pos m)) - 1) with (Z.succ (Z.pos (digits2_pos m) - 1)) by lia.
    rewrite !Z.pow_succ_r by lia.
    set (a := 2 ^ (Z.pos (digits2_pos m) - 1)) in *.
    set (b := 2 ^ Z.pos (digits2_pos m)) in *. clearbody a b. lia.
  - rewrite Pos2Z.inj_succ, (Pos2Z.inj_xO m).
    replace (Z.succ (Z.pos (digits2_pos m)) - 1) with (Z.succ (Z.pos (digits2_pos m) - 1)) by lia.
    rewrite !Z.pow_succ_r by lia.
    set (a := 2 ^ (Z.pos (digits2_pos m) - 1)) in *.
    set (b := 2 ^ Z.pos (digits2_pos m)) in *. clearbody a b. lia.
  - cbn. lia.
Qed.

Lemma pow2_pos k : 0 <= k -> 0 < 2 ^ k.
Proof. intros. apply Z.pow_pos_nonneg; lia. Qed.

(** [m < 2 ^ k] bounds the digits of [m]. *)
Lemma dig_le m k : 0 <= k -> Z.pos m < 2 ^ k -> dig m <= k.
Proof.
  intros Hk H. pose proof (dig_bounds m) as [L _]. pose proof (dig_pos m).
  destruct (Z_le_gt_dec (dig m) k) as [|G]; [assumption|exfalso].
  assert (2 ^ k <= 2 ^ (dig m - 1)) by (apply Z.pow_le_mono_r; lia). lia.
Qed.

Lemma dig_ge m k : 2 ^ k <= Z.pos m -> k < dig m.
Proof.
  intros H. pose proof (dig_bounds m) as [_ U]. pose proof (dig_pos m).
  destruct (Z_lt_le_dec k (dig m)) as [|G]; [assumption|exfalso].
  assert (2 ^ dig m <= 2 ^ k) by (apply Z.pow_le_mono_r; lia). lia.
Qed.

Lemma dig_eq m k : 2 ^ (k - 1) <= Z.pos m < 2 ^ k -> dig m = k.
Proof.
  intros [L U].
  assert (0 <= k).
  { destruct (Z_lt_le_dec k 0) as [N|]; [|assumption].
    rewrite (Z.pow_neg_r 2 k N) in U. lia. }
  pose proof (dig_le m k ltac:(lia) U). pose proof (dig_ge m (k - 1) L). lia.
Qed.

(** ** Shifts *)

Lemma iter_pos_nat {A} (f : A -> A) p : forall x,
  iter_pos f p x = Nat.iter (Pos.to_nat p) f x.
Proof.
  induction p as [p IH|p IH|]; intros x; cbn [iter_pos].
  - rewrite !IH, Pos2Nat.inj_xI, Nat.iter_succ, !Nat.iter_swap, <- Nat.iter_add.
    do 2 f_equal. lia.
  - rewrite !IH, Pos2Nat.inj_xO, <- Nat.iter_add. f_equal. lia.
  - reflexivity.
Qed.

Lemma shr_1_m mrs : 0 <= shr_m mrs -> shr_m (shr_1 mrs) = shr_m mrs / 2.
Proof.
  destruct mrs as [m r s]. cbn [shr_m]. intros H.
  rewrite <- Z.div2_div. destruct m as [|[p|p|]|p]; try reflexivity. lia.
Qed.

Lemma shr_1_r mrs : 0 <= shr_m mrs -> shr_r (shr_1 mrs) = Z.odd (shr_m mrs).
Proof.
  destruct mrs as [m r s]. cbn [shr_m]. intros H.
  destruct m as [|[p|p|]|p]; try reflexivity. lia.
Qed.

Lemma iter_shr_m n mrs :
  0 <= shr_m mrs -> shr_m (Nat.iter n shr_1 mrs) = shr_m mrs / 2 ^ Z.of_nat n.
Proof.
  intros H. induction n as [|n IH].
  - cbn. now rewrite Z.div_1_r.
  - rewrite Nat.iter_succ, shr_1_m.
    + rewrite IH, Nat2Z.inj_succ, Z.pow_succ_r by lia.
      rewrite Z.div_div by (try apply Z.pow_nonzero; try apply pow2_pos; lia).
      f_equal. lia.
    + rewrite IH. apply Z.div_pos; [assumption | apply pow2_pos; lia].
Qed.

Lemma iter_shr_r n mrs :
  0 <= shr_m mrs ->
  shr_r (Nat.iter (S n) shr_1 mrs) = Z.odd (shr_m mrs / 2 ^ Z.of_nat n).
Proof.
  intros H. rewrite Nat.iter_succ, shr_1_r; rewrite iter_shr_m by assumption.
  - reflexivity.
  - apply Z.div_pos; [assumption | apply pow2_pos; lia].
Qed.

(** [shr] by [n] places. *)
Lemma shr_m_spec mrs e n :
  0 <= shr_m mrs -> 0 <= n ->
  shr_m (fst (shr mrs e n)) = shr_m mrs / 2 ^ n /\ snd (shr mrs e n) = e + n.
Proof.
  intros H Hn. unfold shr. destruct n as [|p|p]; cbn [fst snd].
  - rewrite Z.div_1_r. split; [reflexivity | lia].
  - rewrite iter_pos_nat, iter_shr_m by assumption.
    rewrite positive_nat_Z. split; reflexivity.
  - lia.
Qed.

Lemma shr_r_spec mrs e n :
  0 <= shr_m mrs -> 0 < n ->
  shr_r (fst (shr mrs e n)) = Z.odd (shr_m mrs / 2 ^ (n - 1)).
Proof.
  intros H Hn. unfold shr. destruct n as [|p|p]; cbn [fst]; try lia.
  rewrite iter_pos_nat.
  pose proof (Pos2Nat.is_pos p) as Pp. pose proof (positive_nat_Z p) as Pz.
  destruct (Pos.to_nat p) as [|k]; [lia|].
  rewrite iter_shr_r by assumption. do 3 f_equal. lia.
Qed.

Lemma shr_nop mrs e n : n <= 0 -> shr mrs e n = (mrs, e).
Proof. unfold shr. destruct n; [reflexivity | lia | reflexivity]. Qed.

Lemma record_of_loc_m m l : shr_m (shr_record_of_loc m l) = m.
Proof. now destruct l as [|[]]. Qed.

Lemma loc_of_record_of_loc m l : loc_of_shr_record (shr_record_of_loc m l) = l.
Proof. now destruct l as [|[]]. Qed.

Lemma round_nearest_even_cases m l :
  round_nearest_even m l = m \/ round_nearest_even m l = m + 1.
Proof. destruct l as [|[]]; cbn; try destruct (Z.even m); auto. Qed.

Lemma round_nearest_even_low mrs :
  shr_r mrs = false -> round_nearest_even (shr_m mrs) (loc_of_shr_record mrs) = shr_m mrs.
Proof. destruct mrs as [m [] []]; cbn; congruence. Qed.


(** ** Rounding to 53 bits *)

Lemma fexp_spec k : fexp prec emax k = Z.max (k - 53) (-1074).
Proof. reflexivity. Qed.

Lemma Zdigits2_pos m : Zdigits2 (Z.pos m) = dig m.
Proof. reflexivity. Qed.

(** A product just above 1: it rounds to 1. *)
Lemma round_above_one (P : positive) (n : Z) :
  0 <= n ->
  4503599627370496 * 2 ^ n <= Z.pos P ->
  2 * (Z.pos P - 4503599627370496 * 2 ^ n) < 2 ^ n ->
  binary_round_aux prec emax false (Z.pos P) (-52 - n) loc_Exact
  = S754_finite false 4503599627370496 (-52).
Proof.
  intros Hn Lo Hi.
  pose proof (pow2_pos n Hn) as Tp.
  assert (D : dig P = 53 + n).
  { apply dig_eq. replace (53 + n - 1) with (52 + n) by lia.
    rewrite !Z.pow_add_r by lia. change (2 ^ 52) with 4503599627370496.
    change (2 ^ 53) with 9007199254740992. lia. }
  unfold binary_round_aux, shr_fexp. rewrite Zdigits2_pos, D, fexp_spec.
  replace (Z.max (53 + n + (-52 - n) - 53) (-1074) - (-52 - n)) with n by lia.
  destruct (shr (shr_record_of_loc (Z.pos P) loc_Exact) (-52 - n) n) as [mrs1 e1] eqn:S1.
  destruct (Z.eq_dec n 0) as [->|Nz].
  - rewrite shr_nop in S1 by lia. injection S1 as <- <-.
    change (2 ^ 0) with 1 in *.
    assert (E : Z.pos P = 4503599627370496) by lia.
    cbn [shr_record_of_loc loc_of_shr_record shr_m round_nearest_even].
    rewrite E. reflexivity.
  - pose proof (shr_m_spec (shr_record_of_loc (Z.pos P) loc_Exact) (-52 - n) n) as M.
    pose proof (shr_r_spec (shr_record_of_loc (Z.pos P) loc_Exact) (-52 - n) n) as R.
    rewrite S1, record_of_loc_m in M, R. cbn [fst snd] in M, R.
    destruct M as [M E1]; [lia | lia |]. specialize (R ltac:(lia) ltac:(lia)).
    assert (Q : Z.pos P / 2 ^ n = 4503599627370496).
    { symmetry. apply Z.div_unique with (Z.pos P - 4503599627370496 * 2 ^ n); lia. }
    assert (Q' : Z.pos P / 2 ^ (n - 1) = 9007199254740992).
    { assert (T : 2 ^ n = 2 * 2 ^ (n - 1)).
      { replace n with (Z.succ (n - 1)) at 1 by lia. apply Z.pow_succ_r. lia. }
      pose proof (pow2_pos (n - 1) ltac:(lia)).
      symmetry. apply Z.div_unique with (Z.pos P - 9007199254740992 * 2 ^ (n - 1)); lia. }
    rewrite Q in M. rewrite Q' in R. change (Z.odd 9007199254740992) with false in R.
    rewrite (round_nearest_even_low mrs1 R), M.
    replace e1 with (-52) by lia. reflexivity.
Qed.

(** A product just below 1: it rounds to 1 or to its predecessor. *)
Lemma round_below_one (P : positive) (n : Z) :
  0 <= n ->
  9007199254740992 * 2 ^ n - 2 ^ n < Z.pos P < 9007199254740992 * 2 ^ n ->
  binary_round_aux prec emax false (Z.pos P) (-53 - n) loc_Exact
  = S754_finite false 9007199254740991 (-53) \/
  binary_round_aux prec emax false (Z.pos P) (-53 - n) loc_Exact
  = S754_finite false 4503599627370496 (-52).
Proof.
  intros Hn [Lo Hi].
  pose proof (pow2_pos n Hn) as Tp.
  assert (D : dig P = 53 + n).
  { apply dig_eq. replace (53 + n - 1) with (52 + n) by lia.
    rewrite !Z.pow_add_r by lia. change (2 ^ 52) with 4503599627370496.
    change (2 ^ 53) with 9007199254740992. lia. }
  unfold binary_round_aux, shr_fexp. rewrite Zdigits2_pos, D, fexp_spec.
  replace (Z.max (53 + n + (-53 - n) - 53) (-1074) - (-53 - n)) with n by lia.
  destruct (shr (shr_record_of_loc (Z.pos P) loc_Exact) (-53 - n) n) as [mrs1 e1] eqn:S1.
  destruct (Z.eq_dec n 0) as [->|Nz].
  - change (2 ^ 0) with 1 in *. lia.
  - pose proof (shr_m_spec (shr_record_of_loc (Z.pos P) loc_Exact) (-53 - n) n) as M.
    rewrite S1, record_of_loc_m in M. cbn [fst snd] in M.
    destruct M as [M E1]; [lia | lia |].
    assert (Q : Z.pos P / 2 ^ n = 9007199254740991).
    { symmetry. apply Z.div_unique with (Z.pos P - 9007199254740991 * 2 ^ n); lia. }
    rewrite Q in M. replace e1 with (-53) by lia.
    destruct (round_nearest_even_cases (shr_m mrs1) (loc_of_shr_record mrs1)) as [C|C];
      rewrite C, M; [left | right]; reflexivity.
Qed.


(** A mantissa of 53 bits is not shifted; 2^53 is shifted by one place. *)
Lemma shr_fexp_53 (R : positive) (e1 : Z) (l : location) :
  4503599627370496 <= Z.pos R < 9007199254740992 -> -1074 <= e1 ->
  shr_fexp prec emax (Z.pos R) e1 l = (shr_record_of_loc (Z.pos R) l, e1).
Proof.
  intros HR He.
  assert (D : dig R = 53) by (apply dig_eq; change (2 ^ (53 - 1)) with 4503599627370496;
                              change (2 ^ 53) with 9007199254740992; lia).
  unfold shr_fexp. rewrite Zdigits2_pos, D, fexp_spec.
  apply shr_nop. lia.
Qed.

Lemma shr_fexp_54 (e1 : Z) :
  -1074 <= e1 ->
  shr_fexp prec emax 9007199254740992 e1 loc_Exact
  = ({| shr_m := 4503599627370496; shr_r := false; shr_s := false |}, e1 + 1).
Proof.
  intros He. unfold shr_fexp. change (Zdigits2 9007199254740992) with 54.
  rewrite fexp_spec.
  assert (N : Z.max (54 + e1 - 53) (-1074) - e1 = 1) by lia.
  rewrite N. reflexivity.
Qed.

(** [binary_round_aux] once the first shift and the rounding are known. *)
Lemma binary_round_aux_53 (s : bool) (M : Z) (e e1 : Z) (l : location) mrs (R : positive) :
  shr_fexp prec emax M e l = (mrs, e1) ->
  round_nearest_even (shr_m mrs) (loc_of_shr_record mrs) = Z.pos R ->
  4503599627370496 <= Z.pos R < 9007199254740992 -> -1074 <= e1 ->
  binary_round_aux prec emax s M e l
  = if Z.leb e1 971 then S754_finite s R e1 else S754_infinity s.
Proof.
  intros S1 Rn HR He. unfold binary_round_aux. rewrite S1, Rn.
  rewrite (shr_fexp_53 R e1 loc_Exact HR He). reflexivity.
Qed.

Lemma binary_round_aux_54 (s : bool) (M : Z) (e e1 : Z) (l : location) mrs :
  shr_fexp prec emax M e l = (mrs, e1) ->
  round_nearest_even (shr_m mrs) (loc_of_shr_record mrs) = 9007199254740992 ->
  -1074 <= e1 ->
  binary_round_aux prec emax s M e l
  = if Z.leb (e1 + 1) 971 then S754_finite s 4503599627370496 (e1 + 1)
    else S754_infinity s.
Proof.
  intros S1 Rn He. unfold binary_round_aux. rewrite S1, Rn.
  rewrite (shr_fexp_54 e1 He). reflexivity.
Qed.

(** Where the quotient's remainder puts the rounded mantissa. *)
Lemma round_new_location (q m r : Z) :
  0 < m -> 0 <= r < m ->
  (round_nearest_even q (new_location m r) = q /\ 2 * r <= m) \/
  (round_nearest_even q (new_location m r) = q + 1 /\ m <= 2 * r).
Proof.
  intros Hm Hr. unfold new_location, new_location_even, new_location_odd.
  destruct (Z.even m) eqn:Ev; destruct (Z.eqb_spec r 0) as [->|Nz];
    cbn [round_nearest_even]; try (left; split; [reflexivity | lia]).
  - destruct (Z.compare_spec (2 * r) m) as [C|C|C]; cbn [round_nearest_even].
    + destruct (Z.even q); [left | right]; split; (reflexivity || lia).
    + left. split; [reflexivity | lia].
    + right. split; [reflexivity | lia].
  - destruct (Z.compare_spec (2 * r + 1) m) as [C|C|C]; cbn [round_nearest_even].
    + left. split; [reflexivity | lia].
    + left. split; [reflexivity | lia].
    + right. split; [reflexivity | lia].
Qed.

(** The quotient and the remainder that [1 / x] is rounded from. *)
Lemma reciprocal_core (m : positive) (e : Z) :
  dig m + e <= 1022 ->
  SFdiv_core_binary prec emax 4503599627370496 (-52) (Z.pos m) e
  = ((4503599627370496 * 2 ^ dig m) / Z.pos m,
     -52 - dig m - e,
     new_location (Z.pos m) ((4503599627370496 * 2 ^ dig m) mod Z.pos m)).
Proof.
  intros B. pose proof (dig_pos m) as Dp.
  unfold SFdiv_core_binary. cbv zeta.
  change (Zdigits2 4503599627370496) with 53. rewrite (Zdigits2_pos m), fexp_spec.
  replace (Z.min (Z.max (53 + -52 - (dig m + e) - 53) (-1074)) (-52 - e))
    with (-52 - dig m - e) by lia.
  replace (-52 - e - (-52 - dig m - e)) with (dig m) by lia.
  unfold dig at 1. rewrite Z.shiftl_mul_pow2 by lia. fold (dig m).
  unfold Z.div, Z.modulo.
  destruct (Z.div_eucl (4503599627370496 * 2 ^ dig m) (Z.pos m)) as [q r].
  reflexivity.
Qed.

(** [1 / x] for a positive finite [x] below 2^1022: infinite, or a float of
    53 bits within half a unit of the quotient. *)
Lemma reciprocal (m : positive) (e : Z) :
  dig m + e <= 1022 ->
  SFdiv prec emax (S754_finite false 4503599627370496 (-52)) (S754_finite false m e)
  = S754_infinity false \/
  exists (Rm : positive) (k : Z),
    SFdiv prec emax (S754_finite false 4503599627370496 (-52)) (S754_finite false m e)
    = S754_finite false Rm (-52 - dig m - e + k) /\
    (k = 0 \/ k = 1) /\
    4503599627370496 <= Z.pos Rm /\
    2 * Z.abs (Z.pos Rm * 2 ^ k * Z.pos m - 4503599627370496 * 2 ^ dig m) <= Z.pos m.
Proof.
  intros B. pose proof (dig_pos m) as Dp. pose proof (dig_bounds m) as [Lo Hi].
  assert (T : 2 ^ dig m = 2 * 2 ^ (dig m - 1)).
  { replace (dig m) with (Z.succ (dig m - 1)) at 1 by lia. apply Z.pow_succ_r. lia. }
  pose proof (pow2_pos (dig m - 1) ltac:(lia)) as Tp.
  unfold SFdiv. rewrite (reciprocal_core m e B). cbn [xorb].
  set (A := 4503599627370496 * 2 ^ dig m) in *.
  pose proof (Z.div_mod A (Z.pos m) ltac:(lia)) as DM.
  pose proof (Z.mod_pos_bound A (Z.pos m) ltac:(lia)) as MB.
  set (q := A / Z.pos m) in *. set (r := A mod Z.pos m) in *.
  set (e1 := -52 - dig m - e) in *.
  assert (Q1 : 4503599627370496 <= q).
  { apply Z.div_le_lower_bound; subst A; lia. }
  assert (Q2 : q <= 9007199254740992).
  { apply Z.div_le_upper_bound; subst A; lia. }
  destruct q as [|qp|qp]; try lia.
  destruct (Z.eq_dec (Z.pos qp) 9007199254740992) as [Top|NTop].
  - (* the quotient is 2^53: [x] is a power of two *)
    assert (R0 : new_location (Z.pos m) r = loc_Exact).
    { assert (r = 0) by (subst A; nia).
      unfold new_location, new_location_even, new_location_odd.
      replace r with 0 by lia. now destruct (Z.even (Z.pos m)). }
    rewrite R0, Top.
    rewrite (binary_round_aux_53 false 9007199254740992 e1 (e1 + 1) loc_Exact _
               4503599627370496%positive (shr_fexp_54 e1 ltac:(lia)) eq_refl)
      by lia.
    destruct (Z.leb (e1 + 1) 971); [right | now left].
    exists 4503599627370496%positive, 1. split; [reflexivity|]. split; [now right|].
    split; [lia|]. change (2 ^ 1) with 2. subst A. lia.
  - assert (S1 : shr_fexp prec emax (Z.pos qp) e1 (new_location (Z.pos m) r)
                 = (shr_record_of_loc (Z.pos qp) (new_location (Z.pos m) r), e1))
      by (apply shr_fexp_53; lia).
    destruct (round_new_location (Z.pos qp) (Z.pos m) r ltac:(lia) MB) as [[Rn Hr]|[Rn Hr]].
    + rewrite (binary_round_aux_53 false _ e1 e1 _ _ qp S1) by
        (try rewrite record_of_loc_m, loc_of_record_of_loc; (exact Rn || lia)).
      destruct (Z.leb e1 971); [right | now left].
      exists qp, 0. split; [f_equal; lia|]. split; [now left|]. split; [lia|].
      change (2 ^ 0) with 1. lia.
    + destruct (Z.eq_dec (Z.pos qp + 1) 9007199254740992) as [Up|NUp].
      * rewrite (binary_round_aux_54 false _ e1 e1 _ _ S1) by
          (try rewrite record_of_loc_m, loc_of_record_of_loc; (congruence || lia)).
        destruct (Z.leb (e1 + 1) 971); [right | now left].
        exists 4503599627370496%positive, 1. split; [reflexivity|]. split; [now right|].
        split; [lia|]. change (2 ^ 1) with 2. lia.
      * rewrite (binary_round_aux_53 false _ e1 e1 _ _ (qp + 1)%positive S1) by
          (try rewrite record_of_loc_m, loc_of_record_of_loc; (rewrite Rn; lia) || lia).
        destruct (Z.leb e1 971); [right | now left].
        exists (qp + 1)%positive, 0. split; [f_equal; lia|]. split; [now left|].
        split; [lia|]. change (2 ^ 0) with 1. lia.
Qed.


(** The reciprocal times [x]: 1 or the float below 1. *)
Lemma reciprocal_times (m Rm : positive) (e k : Z) :
  (k = 0 \/ k = 1) ->
  4503599627370496 <= Z.pos Rm ->
  2 * Z.abs (Z.pos Rm * 2 ^ k * Z.pos m - 4503599627370496 * 2 ^ dig m) <= Z.pos m ->
  SFmul prec emax (S754_finite false Rm (-52 - dig m - e + k)) (S754_finite false m e)
  = S754_finite false 4503599627370496 (-52) \/
  SFmul prec emax (S754_finite false Rm (-52 - dig m - e + k)) (S754_finite false m e)
  = S754_finite false 9007199254740991 (-53).
Proof.
  intros Hk HR Near. pose proof (dig_pos m) as Dp. pose proof (dig_bounds m) as [Lo Hi].
  assert (T : 2 ^ dig m = 2 * 2 ^ (dig m - 1)).
  { replace (dig m) with (Z.succ (dig m - 1)) at 1 by lia. apply Z.pow_succ_r. lia. }
  pose proof (pow2_pos (dig m - 1) ltac:(lia)) as Tp.
  cbn [SFmul xorb].
  assert (P : Z.pos (Rm * m) = Z.pos Rm * Z.pos m) by apply Pos2Z.inj_mul.
  destruct Hk as [-> | ->].
  - change (2 ^ 0) with 1 in Near.
    replace (-52 - dig m - e + 0 + e) with (-52 - dig m) by lia.
    destruct (Z_le_gt_dec (4503599627370496 * 2 ^ dig m) (Z.pos (Rm * m))) as [Ge|Lt].
    + left. apply round_above_one; lia.
    + replace (-52 - dig m) with (-53 - (dig m - 1)) by lia.
      destruct (round_below_one (Rm * m) (dig m - 1)) as [H|H]; [lia | lia | now right | now left].
  - change (2 ^ 1) with 2 in Near.
    replace (-52 - dig m - e + 1 + e) with (-52 - (dig m - 1)) by lia.
    left. apply round_above_one; [lia | | lia].
    rewrite P. apply Z.mul_le_mono_nonneg; lia.
Qed.

(** ** How large a rounded quotient can be *)

Lemma Zdigits2_bound M : 0 <= M -> 0 <= Zdigits2 M /\ M < 2 ^ Zdigits2 M.
Proof.
  intros H. destruct M as [|p|p]; [cbn; lia | | lia].
  rewrite Zdigits2_pos. pose proof (dig_pos p). pose proof (dig_bounds p). lia.
Qed.

Lemma shr_any mrs e n :
  0 <= shr_m mrs ->
  shr_m (fst (shr mrs e n)) = shr_m mrs / 2 ^ Z.max n 0 /\
  snd (shr mrs e n) = e + Z.max n 0.
Proof.
  intros H. destruct (Z_le_gt_dec n 0) as [L|G].
  - rewrite shr_nop by assumption. rewrite Z.max_r by assumption.
    cbn [fst snd]. rewrite Z.div_1_r. split; [reflexivity | lia].
  - rewrite Z.max_l by lia. apply shr_m_spec; lia.
Qed.

Lemma round_nearest_even_nonneg m l : 0 <= m -> 0 <= round_nearest_even m l.
Proof. intros H. destruct (round_nearest_even_cases m l) as [-> | ->]; lia. Qed.

Lemma binary_round_aux_bound s M E l s' m' e' :
  0 <= M ->
  binary_round_aux prec emax s M E l = S754_finite s' m' e' ->
  dig m' + e' <= Z.max (Zdigits2 M + E) (-1074) + 1.
Proof.
  intros HM. unfold binary_round_aux, shr_fexp.
  pose proof (shr_any (shr_record_of_loc M l) E (fexp prec emax (Zdigits2 M + E) - E)) as S1.
  destruct (shr (shr_record_of_loc M l) E (fexp prec emax (Zdigits2 M + E) - E))
    as [mrs1 e1].
  rewrite record_of_loc_m in S1. cbn [fst snd] in S1. destruct (S1 HM) as [M1 E1]. clear S1.
  set (N1 := Z.max (fexp prec emax (Zdigits2 M + E) - E) 0) in *.
  assert (HN1 : 0 <= N1) by (subst N1; lia).
  pose proof (pow2_pos N1 HN1) as P1.
  assert (H1 : 0 <= shr_m mrs1) by (rewrite M1; apply Z.div_pos; lia).
  set (m2 := round_nearest_even (shr_m mrs1) (loc_of_shr_record mrs1)) in *.
  assert (H2 : 0 <= m2) by (apply round_nearest_even_nonneg; assumption).
  assert (U2 : m2 <= shr_m mrs1 + 1)
    by (subst m2; destruct (round_nearest_even_cases (shr_m mrs1) (loc_of_shr_record mrs1))
          as [-> | ->]; lia).
  pose proof (shr_any (shr_record_of_loc m2 loc_Exact) e1
                (fexp prec emax (Zdigits2 m2 + e1) - e1)) as S2.
  destruct (shr (shr_record_of_loc m2 loc_Exact) e1 (fexp prec emax (Zdigits2 m2 + e1) - e1))
    as [mrs2 e2].
  rewrite record_of_loc_m in S2. cbn [fst snd] in S2. destruct (S2 H2) as [M2 E2]. clear S2.
  set (N2 := Z.max (fexp prec emax (Zdigits2 m2 + e1) - e1) 0) in *.
  assert (HN2 : 0 <= N2) by (subst N2; lia).
  pose proof (pow2_pos N2 HN2) as P2.
  destruct (shr_m mrs2) as [|m3|m3] eqn:M3; try discriminate.
  destruct (Z.leb e2 (emax - prec)); [|discriminate].
  intros [= <- <- <-].
  pose proof (dig_pos m3) as D3. pose proof (dig_bounds m3) as [L3 _].
  pose proof (Zdigits2_bound M HM) as [DM0 DM].
  (* the mantissas, scaled back *)
  assert (A1 : shr_m mrs1 * 2 ^ N1 <= M).
  { rewrite M1, Z.mul_comm. apply Z.mul_div_le. lia. }
  assert (A2 : Z.pos m3 * 2 ^ N2 <= m2).
  { rewrite M2, Z.mul_comm. apply Z.mul_div_le. lia. }
  set (K := Z.max (Zdigits2 M) N1).
  assert (B : 2 ^ (dig m3 - 1) * 2 ^ N2 * 2 ^ N1 < 2 ^ (K + 1)).
  { assert (2 ^ (dig m3 - 1) * 2 ^ N2 <= shr_m mrs1 + 1).
    { apply Z.le_trans with (Z.pos m3 * 2 ^ N2); [|lia].
      apply Z.mul_le_mono_nonneg_r; lia. }
    assert (2 ^ (dig m3 - 1) * 2 ^ N2 * 2 ^ N1 <= (shr_m mrs1 + 1) * 2 ^ N1)
      by (apply Z.mul_le_mono_nonneg_r; lia).
    assert (2 ^ Zdigits2 M <= 2 ^ K) by (apply Z.pow_le_mono_r; subst K; lia).
    assert (2 ^ N1 <= 2 ^ K) by (apply Z.pow_le_mono_r; subst K; lia).
    replace (K + 1) with (Z.succ K) by lia.
    rewrite Z.pow_succ_r by (subst K; lia). lia. }
  rewrite <- !Z.pow_add_r in B by lia.
  apply Z.pow_lt_mono_r_iff in B; [|lia|subst K; lia].
  subst K N1 N2. rewrite ?fexp_spec in *. lia.
Qed.

(** [d / 1000] stays below 2^1016. *)
Lemma div_1000_bound sd md ed s m e :
  dig md + ed <= 1024 ->
  SFdiv prec emax (S754_finite sd md ed) (S754_finite false 8796093022208000 (-43))
  = S754_finite s m e ->
  dig m + e <= 1022.
Proof.
  intros B. unfold SFdiv.
  destruct (SFdiv_core_binary prec emax (Z.pos md) ed 8796093022208000 (-43))
    as [[q e'] l] eqn:C.
  intros R.
  unfold SFdiv_core_binary in C. cbv zeta in C.
  change (Zdigits2 8796093022208000) with 53 in C. rewrite (Zdigits2_pos md), fexp_spec in C.
  set (e0 := Z.min (Z.max (dig md + ed - (53 + -43) - 53) (-1074)) (ed - -43)) in *.
  set (sh := ed - -43 - e0) in *.
  assert (Hs : 0 <= sh) by (subst sh e0; lia).
  pose proof (dig_pos md) as Dp. pose proof (dig_bounds md) as [_ Hi].
  pose proof (pow2_pos sh Hs) as Ps.
  assert (Mq : match sh with
               | 0 => Z.pos md
               | Z.pos _ => Z.shiftl (Z.pos md) sh
               | Z.neg _ => 0
               end = Z.pos md * 2 ^ sh).
  { destruct sh as [|p|p] eqn:Es; [cbn; lia | | lia].
    apply Z.shiftl_mul_pow2. lia. }
  rewrite Mq in C.
  pose proof (Z.div_mod (Z.pos md * 2 ^ sh) 8796093022208000 ltac:(lia)) as DM.
  pose proof (Z.mod_pos_bound (Z.pos md * 2 ^ sh) 8796093022208000 ltac:(lia)) as MB.
  unfold Z.div, Z.modulo in DM, MB.
  destruct (Z.div_eucl (Z.pos md * 2 ^ sh) 8796093022208000) as [q0 r0].
  injection C as <- <- <-.
  assert (Hq : 0 <= q0) by nia.
  pose proof (binary_round_aux_bound _ _ _ _ _ _ _ Hq R) as Bd.
  assert (Dq : Zdigits2 q0 + e0 <= 1015).
  { destruct q0 as [|qp|qp]; [cbn; subst e0; lia | | lia].
    rewrite Zdigits2_pos. pose proof (dig_bounds qp) as [Lq _]. pose proof (dig_pos qp).
    assert (U : Z.pos md * 2 ^ sh < 2 ^ (dig md + sh)).
    { rewrite Z.pow_add_r by lia. apply Z.mul_lt_mono_pos_r; lia. }
    assert (V : 2 ^ (dig qp - 1) * 2 ^ 52 < 2 ^ (dig md + sh)).
    { change (2 ^ 52) with 4503599627370496. nia. }
    rewrite <- Z.pow_add_r in V by lia.
    apply Z.pow_lt_mono_r_iff in V; [|lia|lia].
    subst sh e0. lia. }
  lia.
Qed.


(** ** The identity on floats *)

Lemma binary_round_aux_sign s M E l :
  match binary_round_aux prec emax s M E l with
  | S754_zero s' | S754_infinity s' | S754_finite s' _ _ => s' = s
  | S754_nan => True
  end.
Proof.
  unfold binary_round_aux.
  destruct (shr_fexp prec emax M E l) as [mrs1 e1].
  destruct (shr_fexp prec emax _ e1 loc_Exact) as [mrs2 e2].
  destruct (shr_m mrs2); [reflexivity | | exact I].
  now destruct (Z.leb e2 (emax - prec)).
Qed.

Lemma valid_binary_digits s m e :
  SpecFloat.valid_binary prec emax (S754_finite s m e) = true -> dig m + e <= 1024.
Proof.
  cbn [SpecFloat.valid_binary]. unfold bounded, canonical_mantissa.
  rewrite andb_true_iff, Z.eqb_eq, Z.leb_le, fexp_spec. fold (dig m).
  change (emax - prec) with 971. lia.
Qed.

(** For every float [d]: when the rate [1 / (d / 1000)] is a positive finite
    number, the rate times [d / 1000] is 1 or the float just below 1. *)
Lemma reciprocal_identity (d : float) :
  PrimFloat.ltb 0 (1 / (d / 1000)) = true ->
  PrimFloat.ltb (1 / (d / 1000)) infinity = true ->
  (1 / (d / 1000) * (d / 1000) = 1 \/
   1 / (d / 1000) * (d / 1000) = 0x1.fffffffffffffp-1)%float.
Proof.
  set (x := (d / 1000)%float). set (rate := (1 / x)%float).
  intros Pos Fin. rewrite ltb_spec in Pos, Fin.
  change (Prim2SF 0) with (S754_zero false) in Pos.
  change (Prim2SF infinity) with (S754_infinity false) in Fin.
  pose proof (div_spec 1 x) as R. fold rate in R.
  change (Prim2SF 1) with (S754_finite false 4503599627370496 (-52)) in R.
  pose proof (div_spec d 1000) as X. fold x in X.
  change (Prim2SF 1000) with (S754_finite false 8796093022208000 (-43)) in X.
  pose proof (Prim2SF_valid d) as Vd.
  pose proof (mul_spec rate x) as M.
  unfold SF64div in R, X. unfold SF64mul in M.
  destruct (Prim2SF x) as [sx|sx| |sx m e] eqn:EX.
  - rewrite R in Pos, Fin. now destruct sx.
  - rewrite R in Pos. now destruct sx.
  - rewrite R in Pos. discriminate Pos.
  - destruct sx.
    { exfalso. rewrite R in Pos. cbn [SFdiv xorb] in Pos.
      destruct (SFdiv_core_binary prec emax 4503599627370496 (-52) (Z.pos m) e) as [[q e'] l].
      pose proof (binary_round_aux_sign true q e' l) as Sg.
      destruct (binary_round_aux prec emax true q e' l) as [s'|s'| |s' m' e'0];
        try discriminate Pos; subst s'; discriminate Pos. }
    assert (B : dig m + e <= 1022).
    { destruct (Prim2SF d) as [sd|sd| |sd md ed]; try discriminate X.
      apply (div_1000_bound sd md ed false m e); [|now symmetry].
      now apply (valid_binary_digits sd). }
    destruct (reciprocal m e B) as [Inf|(Rm & k & Eq & Hk & HR & Near)].
    + rewrite R, Inf in Fin. discriminate Fin.
    + rewrite R, Eq in M.
      destruct (reciprocal_times m Rm e k Hk HR Near) as [One|Below]; [left | right];
        apply Prim2SF_inj; rewrite M; [rewrite One | rewrite Below]; reflexivity.
Qed.

End ReciprocalFacts.

(* ================================================================== *)
(** * Properties of the header parser *)
(* ================================================================== *)

Module HeaderFacts.
Import Py PyLib FRET Props Samples.

(** ** The rate identity on whole milliseconds *)

Lemma all_from_sound f count : forall start,
  all_from f start count = true ->
  forall k, (start <= k < start + Z.of_nat count)%Z -> f k = true.
Proof.
  induction count as [|c IH]; intros start H k Hk; [lia|].
  cbn [all_from] in H. destruct (f start) eqn:F; [|discriminate].
  destruct (Z.eq_dec k start) as [->|N]; [exact F|].
  apply (IH (start + 1)%Z H). lia.
Qed.

Section Scan.

Variable py_float : string -> option float.
Variable py_int : string -> option Z.

Ltac simp_locals :=
  cbn [files_raw addftolist acquisition_date sample_rate n_frames] in *.

Ltac split_ifs :=
  repeat (simp_locals;
          match goal with
          | |- context [if ?b then _ else _] => destruct b eqn:?
          | |- context [match ?o with Some _ => _ | None => _ end] => destruct o eqn:?
          end).

(** What one turn of the loop leaves alone. *)
Lemma scan_line_keeps v line v' :
  scan_line py_float py_int v line = Ok v' ->
  (contains "acquisition_date" line = false -> acquisition_date v' = acquisition_date v) /\
  (contains "sample_time" line = false -> sample_rate v' = sample_rate v) /\
  (contains "page_frames" line = false -> n_frames v' = n_frames v) /\
  (contains "Data-File-List" line = false -> addftolist v' = addftolist v) /\
  (addftolist v = false -> files_raw v' = files_raw v).
Proof.
  destruct v as [fr aft ad sr nf].
  unfold scan_line, float_div, bind.
  split_ifs; intros E; try discriminate E; injection E as <-; simp_locals;
    repeat split; intros; congruence.
Qed.

(** The loop raises nothing but the errors of its two numeric fields. *)
Lemma scan_line_raises v line e :
  scan_line py_float py_int v line = Raise e ->
  e = ValueError_float \/ e = ValueError_int \/ e = ZeroDivisionError.
Proof.
  destruct v as [fr aft ad sr nf].
  unfold scan_line, float_div, bind.
  split_ifs; intros E; try discriminate E; injection E as <-; auto.
Qed.

(** A [sample_time] line whose text is not a number stops the loop. *)
Lemma scan_line_bad_sample_time v line :
  contains "sample_time" line = true ->
  py_float (sample_time_text line) = None ->
  scan_line py_float py_int v line = Raise ValueError_float.
Proof.
  intros C P. unfold scan_line. rewrite C, P. reflexivity.
Qed.

(** A [sample_time] line whose text reads as [d]. *)
Lemma scan_line_sample_time v line d v' :
  contains "sample_time" line = true ->
  py_float (sample_time_text line) = Some d ->
  scan_line py_float py_int v line = Ok v' ->
  PrimFloat.eqb (PrimFloat.div d 1000) PrimFloat.zero = false /\
  sample_rate v' = Some (PrimFloat.div 1 (PrimFloat.div d 1000)).
Proof.
  intros C P. unfold scan_line, float_div, bind. rewrite C, P.
  destruct (PrimFloat.eqb (PrimFloat.div d 1000) PrimFloat.zero) eqn:Z0;
    [discriminate|].
  split_ifs; intros E; try discriminate E; injection E as <-; simp_locals; auto.
Qed.

Lemma scan_app pre post : forall v,
  scan py_float py_int v (pre ++ post) =
  match scan py_float py_int v pre with
  | Ok v' => scan py_float py_int v' post
  | Raise e => Raise e
  end.
Proof.
  induction pre as [|line pre IH]; intros v; [reflexivity|].
  cbn [app scan]. destruct (scan_line py_float py_int v line); [apply IH | reflexivity].
Qed.

Lemma scan_raises lines : forall v e,
  scan py_float py_int v lines = Raise e ->
  e = ValueError_float \/ e = ValueError_int \/ e = ZeroDivisionError.
Proof.
  induction lines as [|line rest IH]; intros v e; [discriminate|].
  cbn [scan]. destruct (scan_line py_float py_int v line) eqn:E.
  - apply IH.
  - intros [= <-]. now apply scan_line_raises in E.
Qed.

Lemma absent_cons key line rest :
  absent key (line :: rest) -> contains key line = false /\ absent key rest.
Proof.
  intros A. split; [apply A; now left | intros l I; apply A; now right].
Qed.

Lemma scan_without_sentinel lines : forall v v',
  absent "Data-File-List" lines -> addftolist v = false ->
  scan py_float py_int v lines = Ok v' -> files_raw v' = files_raw v /\ addftolist v' = false.
Proof.
  induction lines as [|line rest IH]; intros v v' A F.
  - intros [= <-]. auto.
  - cbn [scan]. destruct (scan_line py_float py_int v line) as [v1|] eqn:E; [|discriminate].
    apply absent_cons in A. destruct A as [A1 A2].
    destruct (scan_line_keeps _ _ _ E) as (_ & _ & _ & K4 & K5).
    intros S. destruct (IH v1 v' A2) as [I1 I2]; [rewrite K4; auto | exact S |].
    split; [rewrite I1; auto | exact I2].
Qed.

Lemma scan_without_date lines : forall v v',
  absent "acquisition_date" lines ->
  scan py_float py_int v lines = Ok v' -> acquisition_date v' = acquisition_date v.
Proof.
  induction lines as [|line rest IH]; intros v v' A.
  - now intros [= <-].
  - cbn [scan]. destruct (scan_line py_float py_int v line) as [v1|] eqn:E; [|discriminate].
    apply absent_cons in A. destruct A as [A1 A2].
    destruct (scan_line_keeps _ _ _ E) as (K1 & _).
    intros S. rewrite (IH v1 v' A2 S). auto.
Qed.

Lemma scan_without_sample_time lines : forall v v',
  absent "sample_time" lines ->
  scan py_float py_int v lines = Ok v' -> sample_rate v' = sample_rate v.
Proof.
  induction lines as [|line rest IH]; intros v v' A.
  - now intros [= <-].
  - cbn [scan]. destruct (scan_line py_float py_int v line) as [v1|] eqn:E; [|discriminate].
    apply absent_cons in A. destruct A as [A1 A2].
    destruct (scan_line_keeps _ _ _ E) as (_ & K2 & _).
    intros S. rewrite (IH v1 v' A2 S). auto.
Qed.

Lemma scan_without_page_frames lines : forall v v',
  absent "page_frames" lines ->
  scan py_float py_int v lines = Ok v' -> n_frames v' = n_frames v.
Proof.
  induction lines as [|line rest IH]; intros v v' A.
  - now intros [= <-].
  - cbn [scan]. destruct (scan_line py_float py_int v line) as [v1|] eqn:E; [|discriminate].
    apply absent_cons in A. destruct A as [A1 A2].
    destruct (scan_line_keeps _ _ _ E) as (_ & _ & K3 & _).
    intros S. rewrite (IH v1 v' A2 S). auto.
Qed.

(** After the loop: an empty file list or an unbound name is a FormatError. *)
Lemma finish_incomplete v :
  files_raw v = [] \/ acquisition_date v = None \/ sample_rate v = None \/ n_frames v = None ->
  exists e, finish v = Raise e /\ kind_of e = Some FormatError.
Proof.
  unfold finish.
  destruct (files_raw v), (acquisition_date v), (sample_rate v), (n_frames v);
    intros [H | [H | [H | H]]]; try discriminate H; eexists; split; reflexivity.
Qed.

Lemma finish_ok v rsm files date rate n :
  finish v = Ok (rsm, files, date, rate, n) ->
  files_raw v = rsm :: files /\ acquisition_date v = Some date /\
  sample_rate v = Some rate /\ n_frames v = Some n.
Proof.
  unfold finish.
  destruct (files_raw v), (acquisition_date v), (sample_rate v), (n_frames v);
    intros E; try discriminate E. injection E as -> -> -> -> ->. auto.
Qed.

(** C6, as the code has it.  [read_trial_meta] fails whenever the sentinel
    line never appears or a required field is absent, and whenever a
    [sample_time] field is not a number.  The pass over the lines is one
    top-to-bottom pass, so the error is that of the first numeric field that
    fails, if one does (ParseError for a field that is not a number,
    ZeroDivisionError for a zero duration); when the pass completes, a
    missing sentinel or field is a FormatError. *)
Theorem read_trial_meta_failures (text : string) :
  (absent "Data-File-List" (readlines text) \/
   absent "acquisition_date" (readlines text) \/
   absent "sample_time" (readlines text) \/
   absent "page_frames" (readlines text) ->
   exists e,
     read_trial_meta_text py_float py_int text = Raise e /\
     (kind_of e = Some FormatError \/
      scan py_float py_int initial_locals (readlines text) = Raise e /\
      (e = ValueError_float \/ e = ValueError_int \/ e = ZeroDivisionError)))
  /\
  (forall pre line post,
     readlines text = pre ++ line :: post ->
     contains "sample_time" line = true ->
     py_float (sample_time_text line) = None ->
     exists e,
       read_trial_meta_text py_float py_int text = Raise e /\
       (e = ValueError_float /\ kind_of e = Some ParseError \/
        scan py_float py_int initial_locals pre = Raise e)).
Proof.
  split.
  - intros Absent. unfold read_trial_meta_text, bind.
    destruct (scan py_float py_int initial_locals (readlines text)) as [v|e] eqn:S.
    + destruct (finish_incomplete v) as (e & F & K).
      { destruct Absent as [A | [A | [A | A]]].
        * left. now destruct (scan_without_sentinel _ initial_locals _ A eq_refl S).
        * right; left. now rewrite (scan_without_date _ _ _ A S).
        * right; right; left. now rewrite (scan_without_sample_time _ _ _ A S).
        * right; right; right. now rewrite (scan_without_page_frames _ _ _ A S). }
      exists e. auto.
    + exists e. split; [reflexivity|]. right. split; [reflexivity|].
      now apply scan_raises in S.
  - intros pre line post R C P. unfold read_trial_meta_text, bind.
    rewrite R, scan_app.
    destruct (scan py_float py_int initial_locals pre) as [v|e].
    + cbn [scan]. rewrite (scan_line_bad_sample_time v line C P).
      exists ValueError_float. split; [reflexivity|]. left. split; reflexivity.
    + exists e. split; [reflexivity|]. now right.
Qed.

(** C5, as the code has it.  For a header that [read_trial_meta] accepts and
    whose last [sample_time] field reads as [d] milliseconds, the sample rate
    returned is the binary64 quotient [1 / (d / 1000)], and [d / 1000] is not
    zero; whenever that rate is a positive finite number, the rate times the
    duration in seconds is 1 to within 2^-53. *)
Theorem sample_rate_is_reciprocal
    (text : string) (pre : list string) (line : string) (post : list string)
    (d : float) (rsm : string) (files : list string) (date : string)
    (rate : float) (n : Z) :
  readlines text = pre ++ line :: post ->
  contains "sample_time" line = true ->
  absent "sample_time" post ->
  py_float (sample_time_text line) = Some d ->
  read_trial_meta_text py_float py_int text = Ok (rsm, files, date, rate, n) ->
  rate = PrimFloat.div 1 (PrimFloat.div d 1000) /\
  PrimFloat.eqb (PrimFloat.div d 1000) PrimFloat.zero = false /\
  (PrimFloat.ltb 0 rate = true -> PrimFloat.ltb rate infinity = true ->
   within_tolerance (PrimFloat.mul rate (PrimFloat.div d 1000)) = true).
Proof.
  intros R C A P. unfold read_trial_meta_text, bind. rewrite R, scan_app.
  destruct (scan py_float py_int initial_locals pre) as [v1|]; [|discriminate].
  cbn [scan].
  destruct (scan_line py_float py_int v1 line) as [v2|] eqn:E2; [|discriminate].
  destruct (scan py_float py_int v2 post) as [v3|] eqn:E3; [|discriminate].
  intros F. apply finish_ok in F. destruct F as (_ & _ & Fr & _).
  rewrite (scan_without_sample_time _ _ _ A E3) in Fr.
  destruct (scan_line_sample_time _ _ _ _ C P E2) as [NZ Rate].
  rewrite Rate in Fr. injection Fr as <-.
  split; [reflexivity|]. split; [exact NZ|].
  intros Pos Fin.
  destruct (ReciprocalFacts.reciprocal_identity d Pos Fin) as [-> | ->];
    vm_compute; reflexivity.
Qed.

End Scan.

(** ** The header claims at sample headers *)

Lemma absent_forallb key lines :
  forallb (fun line => negb (contains key line)) lines = true -> absent key lines.
Proof.
  intros H line I. rewrite forallb_forall in H.
  apply H in I. now apply negb_true_iff in I.
Qed.

(** C6 as stated fails at two headers without the sentinel line: with a zero
    sample time the error is ZeroDivisionError, with a sample time that is
    not a number it is the ParseError of that field; neither is a FormatError. *)
Lemma missing_sentinel_is_not_always_FormatError :
  (absent "Data-File-List" (readlines (header_without_sentinel "0")) /\
   read_trial_meta_text float_of_string int_of_string (header_without_sentinel "0")
   = Raise ZeroDivisionError /\
   kind_of ZeroDivisionError <> Some FormatError) /\
  (absent "Data-File-List" (readlines (header_without_sentinel "ten")) /\
   read_trial_meta_text float_of_string int_of_string (header_without_sentinel "ten")
   = Raise ValueError_float /\
   kind_of ValueError_float <> Some FormatError).
Proof.
  split; (split; [apply absent_forallb; vm_compute; reflexivity|]);
    (split; [vm_compute; reflexivity | discriminate]).
Qed.

(** The amended C6 at a header without the sentinel line and at a header
    whose sample time is not a number. *)
Lemma read_trial_meta_failures_at_samples :
  (exists e,
     read_trial_meta_text float_of_string int_of_string (header_without_sentinel "10")
     = Raise e /\ kind_of e = Some FormatError) /\
  read_trial_meta_text float_of_string int_of_string (header_with_sample_time "ten")
  = Raise ValueError_float.
Proof.
  split.
  - destruct (read_trial_meta_failures float_of_string int_of_string
                (header_without_sentinel "10")) as [Missing _].
    destruct Missing as (e & E & [K | [S _]]).
    + left. apply absent_forallb. vm_compute. reflexivity.
    + exists e. split; [exact E | exact K].
    + vm_compute in S. discriminate S.
  - destruct (read_trial_meta_failures float_of_string int_of_string
                (header_with_sample_time "ten")) as [_ Bad].
    destruct (Bad (firstn 1 (readlines (header_with_sample_time "ten")))
                  (nth 1 (readlines (header_with_sample_time "ten")) EmptyString)
                  (skipn 2 (readlines (header_with_sample_time "ten"))))
      as (e & E & [[-> _] | S]).
    + vm_compute. reflexivity.
    + vm_compute. reflexivity.
    + vm_compute. reflexivity.
    + exact E.
    + vm_compute in S. discriminate S.
Defined.

(** C5 as stated fails at a sample time of 1e-310 msec: the number is
    positive, the header is accepted, the rate is infinite and so is the rate
    times the duration. *)
Lemma rate_times_duration_overflows :
  exists d,
    float_of_string "1e-310" = Some d /\
    PrimFloat.ltb 0 d = true /\
    read_trial_meta_text float_of_string int_of_string (header_with_sample_time "1e-310")
    = Ok ("s-1_A.rsm", ["s-1_A(0).rsd"], "2019/07/10 12:30:00", infinity, 5%Z)%string /\
    PrimFloat.div 1 (PrimFloat.div d 1000) = infinity /\
    PrimFloat.mul infinity (PrimFloat.div d 1000) = infinity /\
    within_tolerance (PrimFloat.mul infinity (PrimFloat.div d 1000)) = false.
Proof.
  eexists. split; [vm_compute; reflexivity|].
  repeat split; vm_compute; reflexivity.
Qed.

(** An infinite sample time gives a rate of zero, and the rate times the
    duration is not a number. *)
Lemma rate_of_an_infinite_sample_time :
  PrimFloat.div 1 (PrimFloat.div infinity 1000) = 0%float /\
  within_tolerance (PrimFloat.mul (PrimFloat.div 1 (PrimFloat.div infinity 1000))
                                  (PrimFloat.div infinity 1000)) = false.
Proof. split; vm_compute; reflexivity. Qed.

(** The amended C5 at a sample time of 10 msec: 100 Hz exactly. *)
Lemma sample_rate_is_reciprocal_at_10_msec :
  exists rsm files date n,
    read_trial_meta_text float_of_string int_of_string (header_with_sample_time "10")
    = Ok (rsm, files, date, 100%float, n) /\
    within_tolerance (PrimFloat.mul 100 (PrimFloat.div 10 1000)) = true.
Proof.
  assert (E : read_trial_meta_text float_of_string int_of_string (header_with_sample_time "10")
              = Ok ("s-1_A.rsm", ["s-1_A(0).rsd"], "2019/07/10 12:30:00", 100%float, 5%Z)%string)
    by (vm_compute; reflexivity).
  destruct (sample_rate_is_reciprocal float_of_string int_of_string
              (header_with_sample_time "10")
              (firstn 1 (readlines (header_with_sample_time "10")))
              (nth 1 (readlines (header_with_sample_time "10")) EmptyString)
              (skipn 2 (readlines (header_with_sample_time "10")))
              10%float _ _ _ _ _
              ltac:(vm_compute; reflexivity) ltac:(vm_compute; reflexivity)
              ltac:(apply absent_forallb; vm_compute; reflexivity)
              ltac:(vm_compute; reflexivity) E) as (_ & _ & Tol).
  do 4 eexists. split; [exact E|].
  apply Tol; vm_compute; reflexivity.
Defined.

(** ** The end-to-end scenario *)

Lemma files_loop_single d n fraw content :
  open_rb d fraw = Ok content ->
  files_loop d n [fraw] = gen_seq (fst (decode_file n content)) gen_return.
Proof.
  intros O. cbn [files_loop]. rewrite O.
  now destruct (decode_file n content).
Qed.

(** The scenario's header reads as 100.0 Hz and 5 declared frames, and a raw
    file of [m] whole frames decodes to [m] frames, each 100x100. *)
Lemma scenario_frames (raw : list Byte.byte) (m : nat) :
  Z.of_nat (length raw) = (25600 * Z.of_nat m)%Z -> (Z.of_nat m <= 39062)%Z ->
  read_trial_meta float_of_string int_of_string (scenario_dir raw) "s-1_A.rsh"
  = Ok ("s-1_A.rsm", ["s-1_A(0).rsd"], "2019/07/10 12:30:00", 100%float, 5%Z)%string /\
  exists frames,
    yields (data_gen float_of_string int_of_string (scenario_dir raw) "s" "A" "1") frames /\
    length frames = m /\
    Forall shape_100x100 frames.
Proof.
  intros L Hm.
  assert (M : read_trial_meta float_of_string int_of_string (scenario_dir raw) "s-1_A.rsh"
              = Ok ("s-1_A.rsm", ["s-1_A(0).rsd"], "2019/07/10 12:30:00", 100%float, 5%Z)%string)
    by (vm_compute; reflexivity).
  split; [exact M|].
  assert (L' : length raw = 2 * (128 * 100 * m)) by lia.
  destruct (DecoderFacts.decode_buffer_whole_frames 5 raw m L') as (words & _ & Lw & _ & E).
  eexists. split; [|split].
  - unfold yields, data_gen.
    change ("s" ++ "-" ++ "1" ++ "_" ++ "A" ++ ".rsh")%string with "s-1_A.rsh"%string.
    rewrite M.
    rewrite (files_loop_single (scenario_dir raw) 5 "s-1_A(0).rsd" raw eq_refl).
    unfold decode_file.
    rewrite DecoderFacts.f_read_whole by (unfold READ_MAX; lia).
    rewrite E. unfold gen_seq. cbn [fst snd gen_return].
    rewrite app_nil_r. reflexivity.
  - rewrite length_map, length_seq. reflexivity.
  - apply Forall_forall. intros fr I. apply in_map_iff in I.
    destruct I as (ifr & <- & _). apply DecoderFacts.frame_shape.
Qed.

Lemma scenario_file_length : Z.of_nat (length scenario_file) = 256000%Z.
Proof. unfold scenario_file. rewrite repeat_length. lia. Qed.

(** C2 as stated fails: a frame is 12,800 samples, so the 128,000 samples
    (256,000 bytes) of the scenario's raw file are 10 frames, not 5. *)
Lemma scenario_file_yields_10_frames_not_5 :
  Z.of_nat (length scenario_file) = 256000%Z /\
  exists frames,
    yields (data_gen float_of_string int_of_string (scenario_dir scenario_file)
                     "s" "A" "1") frames /\
    length frames = 10 /\ length frames <> 5.
Proof.
  split; [exact scenario_file_length|].
  destruct (scenario_frames scenario_file 10) as (_ & frames & Y & Len & _).
  - rewrite scenario_file_length. reflexivity.
  - lia.
  - exists frames. split; [exact Y|]. split; [exact Len|]. rewrite Len. discriminate.
Qed.

(** C2, as the code has it.  The header declares [sample_time = 10 msec] and
    [page_frames = 5] and lists the bitmap and one raw file.  The parsed
    sample rate is 100.0 Hz; a raw file of 128,000 samples (256,000 bytes)
    yields exactly 10 frames, and one of 64,000 samples (128,000 bytes)
    exactly 5, each frame 100x100. *)
Theorem scenario_rate_and_frame_count (raw : list Byte.byte) (m : nat) :
  Z.of_nat (length raw) = 256000%Z /\ m = 10 \/
  Z.of_nat (length raw) = 128000%Z /\ m = 5 ->
  (exists rsm files date n,
     read_trial_meta float_of_string int_of_string (scenario_dir raw) "s-1_A.rsh"
     = Ok (rsm, files, date, 100%float, n)) /\
  exists frames,
    yields (data_gen float_of_string int_of_string (scenario_dir raw) "s" "A" "1") frames /\
    length frames = m /\
    Forall shape_100x100 frames.
Proof.
  intros H.
  destruct (scenario_frames raw m) as (M & frames & Y & Len & Sh).
  - destruct H as [[L ->] | [L ->]]; rewrite L; reflexivity.
  - destruct H as [[_ ->] | [_ ->]]; lia.
  - split; [do 4 eexists; exact M|].
    exists frames. auto.
Qed.

(** The amended C2 at a raw file of 256,000 bytes. *)
Lemma scenario_rate_and_frame_count_at_sample_file :
  Z.of_nat (length scenario_file) = 256000%Z /\
  exists frames,
    yields (data_gen float_of_string int_of_string (scenario_dir scenario_file)
                     "s" "A" "1") frames /\
    length frames = 10 /\
    Forall shape_100x100 frames.
Proof.
  split; [exact scenario_file_length|].
  exact (proj2 (scenario_rate_and_frame_count scenario_file 10
                  (or_introl (conj scenario_file_length eq_refl)))).
Defined.

End HeaderFacts.

(* ================================================================== *)
(** * Properties of the orchestrator *)
(* ================================================================== *)

Module OrchestratorFacts.
Import Py PyLib FRET Props Samples.

Lemma split_nonempty sep s : exists piece pieces, split sep s = piece :: pieces.
Proof.
  induction s as [|c s IH]; cbn [split]; [now eauto|].
  destruct (Ascii.eqb c sep); [now eauto|].
  destruct IH as (p & ps & ->). eauto.
Qed.

Lemma getitem_split_0 sep s : exists piece, getitem (split sep s) 0 = Ok piece.
Proof. destruct (split_nonempty sep s) as (p & ps & ->). now exists p. Qed.

(** ** The relative start time *)

Lemma timedelta_seconds_range delta : (0 <= timedelta_seconds delta < 86400)%Z.
Proof. unfold timedelta_seconds. apply Z.mod_pos_bound. lia. Qed.

Definition nonneg_float_of_int (s : Z) : bool :=
  match float_of_int s with
  | Ok x => PrimFloat.leb 0 x
  | Raise _ => false
  end.

Lemma seconds_of_a_day_checked :
  all_from nonneg_float_of_int 0 (Z.to_nat 86400) = true.
Proof. vm_compute. reflexivity. Qed.

(** [.seconds] of a timedelta lies in [0, 86400), whatever the sign of the
    difference: the float made of it is never below zero. *)
Lemma relative_start_time_nonneg delta :
  exists x, float_of_int (timedelta_seconds delta) = Ok x /\ PrimFloat.leb 0 x = true.
Proof.
  pose proof (timedelta_seconds_range delta) as R.
  pose proof (HeaderFacts.all_from_sound _ _ _ seconds_of_a_day_checked
                (timedelta_seconds delta) ltac:(lia)) as H.
  unfold nonneg_float_of_int in H.
  destruct (float_of_int (timedelta_seconds delta)) as [x|]; [|discriminate].
  now exists x.
Qed.

(** The assertion "Starting time is negative" cannot fail: whatever the trial's
    and the session's start times, the relative start time is a float that is
    not below zero, and the assertion on it passes. *)
Theorem start_time_assertion_never_fails (absolute_start_time : Z) (f : NWBFile)
    (msg : string) (w : world) :
  exists relative_start_time,
    float_of_int (timedelta_seconds (absolute_start_time - wall (session_start_time f)))
    = Ok relative_start_time /\
    assert_ (PrimFloat.leb 0 relative_start_time) msg w = (Ok tt, w).
Proof.
  destruct (relative_start_time_nonneg (absolute_start_time - wall (session_start_time f)))
    as (x & E & P).
  exists x. split; [exact E|].
  unfold assert_. rewrite P. reflexivity.
Qed.

(** ** The trial loop *)

Lemma for_each_stops {A} (body : A -> st unit) pre a post w w1 e w2 :
  for_each pre body w = (Ok tt, w1) ->
  body a w1 = (Raise e, w2) ->
  for_each (pre ++ a :: post) body w = (Raise e, w2).
Proof.
  revert w. induction pre as [|x pre IH]; intros w.
  - cbn [for_each app ret]. intros [= <-] B. unfold st_bind. now rewrite B.
  - cbn [for_each app]. unfold st_bind.
    destruct (body x w) as [[[]|e'] w']; [|discriminate].
    apply IH.
Qed.

Section Orchestrator.

Variable py_float : string -> option float.
Variable py_int : string -> option Z.
Variable strptime : string -> option Z.

(** A trial whose two channels disagree: the assertion fails before anything
    of the trial is built, and the file is as it was. *)
Lemma convert_trial_mismatch d metadata fname_prefix device ocd oca add_trials tr w
    rsmA filesA dateA rateA nA rsmB filesB dateB rateB nB t :
  read_trial_meta py_float py_int d (fname_prefix ++ "-" ++ tr ++ "_A.rsh")%string
  = Ok (rsmA, filesA, dateA, rateA, nA) ->
  read_trial_meta py_float py_int d (fname_prefix ++ "-" ++ tr ++ "_B.rsh")%string
  = Ok (rsmB, filesB, dateB, rateB, nB) ->
  strptime dateA = Some t ->
  String.eqb dateA dateB = false \/ PrimFloat.eqb rateA rateB = false \/ Z.eqb nA nB = false ->
  exists msg,
    convert_trial py_float py_int strptime d metadata fname_prefix device ocd oca
                  add_trials tr w
    = (Raise (AssertionError msg), w).
Proof.
  intros EA EB ET Mis.
  destruct (relative_start_time_nonneg (t - wall (session_start_time (nwbfile w))))
    as (x & EX & _).
  unfold convert_trial, st_bind, lift, lift_option, get_nwbfile, assert_, ret, raise.
  rewrite EA, EB, ET, EX.
  destruct (String.eqb dateA dateB); [|now eauto].
  destruct (PrimFloat.eqb rateA rateB); [|now eauto].
  destruct (Z.eqb nA nB); [|now eauto].
  destruct Mis as [M | [M | M]]; discriminate M.
Qed.

(** A trial whose headers parse while the date of channel A is not in the
    format: [strptime] raises before the assertions are reached, and the file
    is as it was. *)
Lemma convert_trial_bad_date d metadata fname_prefix device ocd oca add_trials tr w
    rsmA filesA dateA rateA nA rsmB filesB dateB rateB nB :
  read_trial_meta py_float py_int d (fname_prefix ++ "-" ++ tr ++ "_A.rsh")%string
  = Ok (rsmA, filesA, dateA, rateA, nA) ->
  read_trial_meta py_float py_int d (fname_prefix ++ "-" ++ tr ++ "_B.rsh")%string
  = Ok (rsmB, filesB, dateB, rateB, nB) ->
  strptime dateA = None ->
  convert_trial py_float py_int strptime d metadata fname_prefix device ocd oca
                add_trials tr w
  = (Raise ValueError_strptime, w).
Proof.
  intros EA EB ET.
  unfold convert_trial, st_bind, lift, lift_option.
  rewrite EA, EB, ET. reflexivity.
Qed.

(** The loop stops at the first trial whose two headers parse and disagree,
    before anything of that trial is built: with the AssertionError of the
    failed check, a ConsistencyError, when the date of channel A is in the
    format, and with the ValueError of [strptime], which runs before the
    checks, when it is not.  Either way the file holds what the earlier trials
    added and nothing of that trial or of the later ones. *)
Theorem channel_mismatch_stops_the_loop d metadata fname_prefix device ocd oca add_trials
    (earlier : list string) (tr : string) (later : list string) (w w1 : world)
    rsmA filesA dateA rateA nA rsmB filesB dateB rateB nB :
  for_each earlier
    (convert_trial py_float py_int strptime d metadata fname_prefix device ocd oca add_trials) w
  = (Ok tt, w1) ->
  read_trial_meta py_float py_int d (fname_prefix ++ "-" ++ tr ++ "_A.rsh")%string
  = Ok (rsmA, filesA, dateA, rateA, nA) ->
  read_trial_meta py_float py_int d (fname_prefix ++ "-" ++ tr ++ "_B.rsh")%string
  = Ok (rsmB, filesB, dateB, rateB, nB) ->
  String.eqb dateA dateB = false \/ PrimFloat.eqb rateA rateB = false \/ Z.eqb nA nB = false ->
  exists e,
    for_each (earlier ++ tr :: later)
      (convert_trial py_float py_int strptime d metadata fname_prefix device ocd oca add_trials) w
    = (Raise e, w1) /\
    match strptime dateA with
    | Some _ => exists msg, e = AssertionError msg /\ kind_of e = Some ConsistencyError
    | None => e = ValueError_strptime
    end.
Proof.
  intros Before EA EB Mis.
  destruct (strptime dateA) as [t|] eqn:ET.
  - destruct (convert_trial_mismatch d metadata fname_prefix device ocd oca add_trials tr w1
                rsmA filesA dateA rateA nA rsmB filesB dateB rateB nB t EA EB ET Mis)
      as (msg & E).
    exists (AssertionError msg). split.
    + now apply for_each_stops with (w1 := w1).
    + exists msg. split; reflexivity.
  - exists ValueError_strptime. split; [|reflexivity].
    apply for_each_stops with (w1 := w1); [exact Before|].
    now apply (convert_trial_bad_date d metadata fname_prefix device ocd oca add_trials tr w1
                 rsmA filesA dateA rateA nA rsmB filesB dateB rateB nB).
Qed.

(** C9.  When the start time read from the first session-level header is not
    the start time of the output file, [run_conversion] prints its two-line
    warning and returns: the file is what it was (no device, no acquisition,
    no trial added) and nothing is raised. *)
Theorem session_start_mismatch_aborts (d : directory) (metadata : Metadata) (w : world)
    (first : string) (others : list string) (header : string) (headers : list string)
    (rsm : string) (files : list string) (date : string) (rate : float) (n t : Z) :
  filter (endswith ".rsh") (listdir d) = first :: others ->
  sorted (filter is_session_header (listdir d)) = header :: headers ->
  read_trial_meta py_float py_int d header = Ok (rsm, files, date, rate, n) ->
  strptime date = Some t ->
  aware_eqb (localize_EST t) (session_start_time (nwbfile w)) = false ->
  run_conversion py_float py_int strptime d metadata w
  = (Ok tt,
     mk_world (nwbfile w)
       (stdout w ++
        ["Session start time in current nwbfile does not match the start time from rsd files.";
         "Ophys data conversion aborted."]%string)).
Proof.
  intros Glob Headers Meta Date Differ.
  destruct (getitem_split_0 "-" first) as (prefix & Prefix).
  unfold run_conversion. rewrite Glob, Headers.
  unfold st_bind, lift, lift_option, get_nwbfile, print.
  rewrite Prefix. cbn [getitem nth_error]. rewrite Meta, Date, Differ.
  cbn [negb nwbfile stdout]. rewrite <- app_assoc. reflexivity.
Qed.

End Orchestrator.

(** ** The orchestrator at the sample session *)

(** C9 at the two-trial session and an output file that starts at 12:00:00
    while the first header, that of trial 10, says 12:08:00. *)
Lemma session_start_mismatch_aborts_at_sample :
  run_conversion float_of_string int_of_string strptime two_trials_dir sample_metadata
                 (mk_world (nwbfile_starting "12:00:00") [])
  = (Ok tt,
     mk_world (nwbfile_starting "12:00:00")
       ["Session start time in current nwbfile does not match the start time from rsd files.";
        "Ophys data conversion aborted."]%string).
Proof.
  apply (session_start_mismatch_aborts float_of_string int_of_string strptime
           two_trials_dir sample_metadata (mk_world (nwbfile_starting "12:00:00") [])
           "s-2.rsh" (skipn 1 (filter (endswith ".rsh") (listdir two_trials_dir)))
           "s-10.rsh" ["s-2.rsh"%string]
           "s-10.rsm" ["s-10(0).rsd"%string] "2019/07/10 12:08:00" 100%float 1%Z
           63698357280000000%Z);
    vm_compute; reflexivity.
Defined.

(** A trial of one raw file of [m] whole frames: its generator yields [m]
    frames, each 100x100. *)
Lemma data_gen_single_file py_float py_int d fname_prefix channel trial
    rsm fraw date rate n raw (m : nat) :
  read_trial_meta py_float py_int d
    (fname_prefix ++ "-" ++ trial ++ "_" ++ channel ++ ".rsh")%string
  = Ok (rsm, [fraw], date, rate, n) ->
  open_rb d fraw = Ok raw ->
  Z.of_nat (length raw) = (25600 * Z.of_nat m)%Z -> (Z.of_nat m <= 39062)%Z ->
  exists frames,
    yields (data_gen py_float py_int d fname_prefix channel trial) frames /\
    length frames = m /\ Forall shape_100x100 frames.
Proof.
  intros M O L Hm.
  assert (L' : length raw = 2 * (128 * 100 * m)) by lia.
  destruct (DecoderFacts.decode_buffer_whole_frames n raw m L') as (words & _ & Lw & _ & E).
  eexists. split; [|split].
  - unfold yields, data_gen. rewrite M.
    rewrite (HeaderFacts.files_loop_single d n fraw raw O).
    unfold decode_file.
    rewrite DecoderFacts.f_read_whole by (unfold READ_MAX; lia).
    rewrite E. unfold gen_seq. cbn [fst snd gen_return].
    rewrite app_nil_r. reflexivity.
  - rewrite length_map, length_seq. reflexivity.
  - apply Forall_forall. intros fr I. apply in_map_iff in I.
    destruct I as (ifr & <- & _). apply DecoderFacts.frame_shape.
Qed.

(** C8 at a trial that starts before the session start.  In the two-trial
    session the first header in sorted order is that of trial 10, recorded
    480 s after trial 2.  The conversion raises nothing: trial 2 is stored
    with a starting time of 85,920 s (86,400 - 480) and its frames are handed
    to the writer. *)
Theorem trial_before_session_start_is_converted :
  (exists t2,
     strptime "2019/07/10 12:00:00" = Some t2 /\
     (t2 - wall (session_start_time (nwbfile_starting "12:08:00")) = -480 * 1000000)%Z) /\
  fst sample_run = Ok tt /\
  starting_times (nwbfile (snd sample_run))
  = [("FRET_10"%string, 0%float); ("FRET_2"%string, 85920%float)] /\
  exists frames,
    donor_data "FRET_2" (nwbfile (snd sample_run)) = Some (frames, None) /\
    length frames = 1.
Proof.
  split.
  { exists 63698356800000000%Z. split; vm_compute; reflexivity. }
  split; [lazy; reflexivity|]. split; [lazy; reflexivity|].
  assert (D : donor_data "FRET_2" (nwbfile (snd sample_run))
              = Some (data_gen float_of_string int_of_string two_trials_dir "s" "A" "2")).
  { change (donor_data "FRET_2" (nwbfile (snd sample_run)))
      with (Some (data_gen float_of_string int_of_string two_trials_dir "s" "A" "2")).
    reflexivity. }
  destruct (data_gen_single_file float_of_string int_of_string two_trials_dir "s" "A" "2"
              "s-2_A.rsm" "s-2_A(0).rsd" "2019/07/10 12:00:00" 100%float 1%Z ramp_buffer 1)
    as (frames & Y & Len & _).
  - vm_compute. reflexivity.
  - reflexivity.
  - rewrite DecoderFacts.ramp_buffer_length. lia.
  - lia.
  - exists frames. rewrite D, Y. split; [reflexivity | exact Len].
Qed.

(** The mismatch theorem at the two-trial session read with a header of
    channel B that declares another sample time for trial 2. *)
Lemma channel_mismatch_stops_the_loop_at_sample :
  exists e,
    for_each ["10"; "2"]%string
      (convert_trial float_of_string int_of_string strptime mismatched_dir sample_metadata
                     "s" (mk_Device "camera")
                     (mk_OpticalChannel "donor channel" "donor emission" 480)
                     (mk_OpticalChannel "acceptor channel" "acceptor emission" 530) true)
      (mk_world (nwbfile_starting "12:00:00") [])
    = (Raise e, after_trial_10) /\
    match strptime "2019/07/10 12:00:00" with
    | Some _ => exists msg, e = AssertionError msg /\ kind_of e = Some ConsistencyError
    | None => e = ValueError_strptime
    end.
Proof.
  apply (channel_mismatch_stops_the_loop float_of_string int_of_string strptime
           mismatched_dir sample_metadata "s" (mk_Device "camera")
           (mk_OpticalChannel "donor channel" "donor emission" 480)
           (mk_OpticalChannel "acceptor channel" "acceptor emission" 530) true
           ["10"%string] "2" [] (mk_world (nwbfile_starting "12:00:00") []) after_trial_10
           "s-2_A.rsm" ["s-2_A(0).rsd"%string] "2019/07/10 12:00:00" 100%float 1%Z
           "s-2_B.rsm" ["s-2_B(0).rsd"%string] "2019/07/10 12:00:00" 50%float 1%Z).
  - match goal with |- ?run = ?out => change run with out end. reflexivity.
  - vm_compute. reflexivity.
  - vm_compute. reflexivity.
  - right; left. vm_compute. reflexivity.
Defined.

End OrchestratorFacts.

(* ================================================================== *)
(** * More on the decoder: what a frame stream can and cannot be *)
(* ================================================================== *)

Module StreamFacts.
Import Py PyLib FRET Props Samples.

(** ** Every yielded frame is well formed *)

Lemma item_neg_astype_int16 a i j : in_int16 (item (neg_int16 (astype_int16 a)) i j).
Proof. rewrite DecoderFacts.item_neg_astype. apply DecoderFacts.wrap16_range. Qed.

Lemma rows_neg_astype_int16 a lo hi :
  Forall (Forall in_int16) (rows (neg_int16 (astype_int16 a)) lo hi).
Proof.
  unfold rows. apply Forall_forall. intros row I.
  apply in_map_iff in I. destruct I as (i & <- & _).
  apply Forall_forall. intros x I.
  apply in_map_iff in I. destruct I as (j & <- & _).
  apply item_neg_astype_int16.
Qed.

(** A frame of [decode_frame], whatever the array it is cut from. *)
Lemma decode_frame_well_formed words_reshaped ifr fr ex :
  decode_frame words_reshaped ifr = Ok (fr, ex) ->
  shape_100x100 fr /\ Forall (Forall in_int16) fr.
Proof.
  unfold decode_frame, bind, reshape_F.
  destruct (length (column words_reshaped ifr) =? 128 * 100); [|discriminate].
  intros E. injection E as <- <-. split.
  - split.
    + rewrite DecoderFacts.rows_length. reflexivity.
    + intros r Hr. rewrite DecoderFacts.rows_row_length; [reflexivity | cbn; lia].
  - apply rows_neg_astype_int16.
Qed.

Definition well_formed (fr : frame) : Prop :=
  shape_100x100 fr /\ Forall (Forall in_int16) fr.

Lemma frames_loop_well_formed words_reshaped ifrs :
  Forall well_formed (fst (frames_loop words_reshaped ifrs)).
Proof.
  induction ifrs as [|ifr rest IH]; cbn [frames_loop]; [constructor|].
  destruct (decode_frame words_reshaped ifr) as [[fr ex]|e] eqn:E; [|constructor].
  cbn [gen_yield fst]. constructor; [|exact IH].
  exact (decode_frame_well_formed _ _ _ _ E).
Qed.

Lemma decode_buffer_well_formed n byte :
  Forall well_formed (fst (fst (decode_buffer n byte))).
Proof.
  unfold decode_buffer.
  destruct (struct_unpack_h (length byte / 2) byte) as [words|e]; [|constructor].
  generalize (reshape_F words (128 * 100) (Z.to_nat (Z.of_nat (length words) / 12800))).
  intros [words_reshaped|e]; [|constructor].
  apply frames_loop_well_formed.
Qed.

Lemma gen_seq_frames {A} (P : A -> Prop) (g k : gen A) :
  Forall P (fst g) -> Forall P (fst k) -> Forall P (fst (gen_seq g k)).
Proof.
  intros G K. unfold gen_seq. destruct (snd g); [exact G|].
  cbn [fst]. apply Forall_app. now split.
Qed.

Lemma files_loop_well_formed d files : forall n,
  Forall well_formed (fst (files_loop d n files)).
Proof.
  induction files as [|fraw rest IH]; intros n; cbn [files_loop]; [constructor|].
  destruct (open_rb d fraw) as [content|e]; [|constructor].
  pose proof (decode_buffer_well_formed n (f_read READ_MAX content)) as W.
  unfold decode_file. destruct (decode_buffer n (f_read READ_MAX content)) as [g n'].
  apply gen_seq_frames; [exact W | apply IH].
Qed.

(** Whatever the directory holds, every frame [data_gen] yields is 100 rows
    of 100 samples and every sample is an int16 value: no header and no raw
    file, however malformed, makes the generator yield anything else. *)
Theorem data_gen_frames_are_well_formed
    (py_float : string -> option float) (py_int : string -> option Z)
    (d : directory) (fname_prefix channel trial : string) :
  Forall (fun fr => shape_100x100 fr /\ Forall (Forall in_int16) fr)
         (fst (data_gen py_float py_int d fname_prefix channel trial)).
Proof.
  unfold data_gen.
  destruct (read_trial_meta py_float py_int d _) as [[[[[rsm files] date] rate] n]|e];
    [|constructor].
  apply files_loop_well_formed.
Qed.

(** ** A buffer decodes all or nothing *)

Lemma half_of_even (l : nat) : (Z.of_nat l mod 2 = 0)%Z -> l = 2 * (l / 2).
Proof.
  intros H. pose proof (Nat.div_mod_eq l 2) as D.
  assert (M : l mod 2 = 0).
  { apply Nat2Z.inj. rewrite Nat2Z.inj_mod. exact H. }
  lia.
Qed.

Lemma half_of_odd (l : nat) : (Z.of_nat l mod 2 = 1)%Z -> l <> 2 * (l / 2).
Proof.
  intros H. pose proof (Nat.div_mod_eq l 2) as D.
  assert (M : l mod 2 = 1).
  { apply Nat2Z.inj. rewrite Nat2Z.inj_mod. exact H. }
  lia.
Qed.

(** Whole frames come out only of a buffer whose length is a multiple of
    25,600 bytes.  An odd length is refused by [struct.unpack]; an even length
    that is no multiple of 25,600 is refused by the reshape; in both cases
    before a first frame: a buffer that raises has yielded nothing. *)
Theorem decode_buffer_all_or_nothing (n_frames : Z) (byte : list Byte.byte) :
  ((Z.of_nat (length byte) mod 2 = 1)%Z ->
     decode_buffer n_frames byte = (gen_raise struct_error, n_frames)) /\
  ((Z.of_nat (length byte) mod 2 = 0)%Z -> (Z.of_nat (length byte) mod 25600 <> 0)%Z ->
     fst (decode_buffer n_frames byte) = gen_raise ValueError_reshape) /\
  ((Z.of_nat (length byte) mod 25600 = 0)%Z ->
     exists frames,
       yields (fst (decode_buffer n_frames byte)) frames /\
       Z.of_nat (length frames) = (Z.of_nat (length byte) / 25600)%Z) /\
  (forall frames e, fst (decode_buffer n_frames byte) = (frames, Some e) -> frames = []).
Proof.
  assert (Odd : (Z.of_nat (length byte) mod 2 = 1)%Z ->
                decode_buffer n_frames byte = (gen_raise struct_error, n_frames)).
  { intros H. unfold decode_buffer.
    rewrite DecoderFacts.struct_unpack_h_wrong_size; [reflexivity|].
    now apply half_of_odd. }
  assert (Indivisible :
            (Z.of_nat (length byte) mod 2 = 0)%Z -> (Z.of_nat (length byte) mod 25600 <> 0)%Z ->
            fst (decode_buffer n_frames byte) = gen_raise ValueError_reshape).
  { intros H2 H. pose proof (half_of_even _ H2) as L.
    rewrite (DecoderFacts.decode_buffer_indivisible n_frames byte _ L); [reflexivity|].
    intros K. apply H.
    pose proof (Z.div_mod (Z.of_nat (length byte / 2)) 12800 ltac:(lia)) as D.
    replace (Z.of_nat (length byte)) with (25600 * (Z.of_nat (length byte / 2) / 12800))%Z by lia.
    rewrite Z.mul_comm. apply Z.mod_mul. lia. }
  assert (Whole : (Z.of_nat (length byte) mod 25600 = 0)%Z ->
                  exists frames,
                    yields (fst (decode_buffer n_frames byte)) frames /\
                    Z.of_nat (length frames) = (Z.of_nat (length byte) / 25600)%Z).
  { intros H. destruct (DecoderFacts.multiple_of_25600 _ H) as (m & L & Hm).
    destruct (DecoderFacts.decode_buffer_whole_frames n_frames byte m L) as (words & _ & _ & _ & E).
    eexists. rewrite E. split; [reflexivity|].
    rewrite length_map, length_seq, Hm. rewrite Z.div_div by lia. reflexivity. }
  split; [exact Odd|]. split; [exact Indivisible|]. split; [exact Whole|].
  intros frames e E.
  destruct (Z.eq_dec (Z.of_nat (length byte) mod 25600) 0) as [W|NW].
  - destruct (Whole W) as (fs & Y & _). unfold yields in Y. rewrite Y in E. discriminate E.
  - destruct (Z.eq_dec (Z.of_nat (length byte) mod 2) 0) as [Ev|Od].
    + rewrite (Indivisible Ev NW) in E. now injection E as <- _.
    + assert (O1 : (Z.of_nat (length byte) mod 2 = 1)%Z).
      { pose proof (Z.mod_pos_bound (Z.of_nat (length byte)) 2 ltac:(lia)). lia. }
      rewrite (Odd O1) in E. now injection E as <- _.
Qed.

(** ** Files are decoded one after another *)

Lemma gen_seq_return_l {A} (k : gen A) : gen_seq gen_return k = k.
Proof. now destruct k. Qed.

Lemma gen_seq_assoc {A} (g h k : gen A) :
  gen_seq g (gen_seq h k) = gen_seq (gen_seq g h) k.
Proof.
  unfold gen_seq. destruct g as [gs [e|]]; cbn [fst snd]; [reflexivity|].
  destruct h as [hs [e|]]; cbn [fst snd]; [reflexivity|].
  now rewrite app_assoc.
Qed.

Lemma files_loop_app d fs1 fs2 : forall n,
  files_loop d n (fs1 ++ fs2) = gen_seq (files_loop d n fs1) (files_loop d n fs2).
Proof.
  induction fs1 as [|fraw rest IH]; intros n.
  - cbn [app files_loop]. now rewrite gen_seq_return_l.
  - cbn [app files_loop]. destruct (open_rb d fraw) as [content|e]; [|reflexivity].
    destruct (decode_file n content) as [g n'].
    rewrite IH, (DecoderFacts.files_loop_frames_indep d fs2 n' n).
    apply gen_seq_assoc.
Qed.

(** The file loop of [data_gen] takes the files in list order: the frames of
    a list [fs1 ++ fs2] are those of [fs1] followed by those of [fs2], and
    when a file of [fs1] raises, the stream ends there, the frames yielded
    before stay yielded and no file of [fs2] is read. *)
Theorem frames_come_in_file_order (d : directory) (n_frames : Z)
    (fs1 fs2 : list string) (frames1 : list frame) :
  (files_loop d n_frames fs1 = (frames1, None) ->
   files_loop d n_frames (fs1 ++ fs2)
   = (frames1 ++ fst (files_loop d n_frames fs2), snd (files_loop d n_frames fs2))) /\
  (forall e d',
     files_loop d n_frames fs1 = (frames1, Some e) ->
     (forall f, In f fs1 -> lookup d' f = lookup d f) ->
     files_loop d' n_frames (fs1 ++ fs2) = (frames1, Some e)).
Proof.
  split.
  - intros E. rewrite files_loop_app, E. reflexivity.
  - intros e d' E Same. rewrite files_loop_app.
    rewrite (DecoderFacts.files_loop_same_files d' d fs1 Same), E. reflexivity.
Qed.

Lemma files_loop_whole_files d files : forall n,
  Forall (whole_file d) files ->
  exists frames,
    files_loop d n files = (frames, None) /\
    Z.of_nat (length frames) = fold_right Z.add 0%Z (map (frames_in d) files).
Proof.
  induction files as [|fraw rest IH]; intros n W.
  - exists []. split; reflexivity.
  - inversion W as [|? ? (content & L & M & B) W']; subst.
    destruct (IH (Z.of_nat (length content) / 12800 / 2)%Z W') as (frames & E & Len).
    destruct (DecoderFacts.multiple_of_25600 _ M) as (m & Lc & Hm).
    destruct (DecoderFacts.decode_buffer_whole_frames n content m Lc) as (words & _ & _ & _ & D).
    cbn [files_loop]. unfold open_rb. rewrite L. unfold decode_file.
    rewrite DecoderFacts.f_read_whole by exact B. rewrite D.
    rewrite (DecoderFacts.files_loop_frames_indep d rest (Z.of_nat m)
               (Z.of_nat (length content) / 12800 / 2)%Z), E.
    unfold gen_seq. cbn [fst snd].
    eexists. split; [reflexivity|].
    rewrite length_app, length_map, length_seq. cbn [map fold_right].
    unfold frames_in at 1. rewrite L, <- Len, Nat2Z.inj_add, Hm.
    rewrite Z.div_div by lia. reflexivity.
Qed.

(** A trial whose raw files are all whole frames yields the frames of all of
    them, as many as the files hold together, and stops without raising. *)
Theorem data_gen_yields_every_frame_of_every_file
    (py_float : string -> option float) (py_int : string -> option Z)
    (d : directory) (fname_prefix channel trial rsm date : string)
    (files : list string) (rate : float) (n : Z) :
  read_trial_meta py_float py_int d
    (fname_prefix ++ "-" ++ trial ++ "_" ++ channel ++ ".rsh")%string
  = Ok (rsm, files, date, rate, n) ->
  Forall (whole_file d) files ->
  exists frames,
    yields (data_gen py_float py_int d fname_prefix channel trial) frames /\
    Z.of_nat (length frames) = fold_right Z.add 0%Z (map (frames_in d) files).
Proof.
  intros M W. unfold yields, data_gen. rewrite M.
  now apply files_loop_whole_files.
Qed.

(** A trial whose header lists a file name that is not in the directory: the
    frames of the files listed before it are yielded, then opening the file
    raises; the files listed after it play no part. *)
Theorem data_gen_stops_at_a_missing_file
    (py_float : string -> option float) (py_int : string -> option Z)
    (d : directory) (fname_prefix channel trial rsm date : string)
    (before : list string) (missing : string) (after : list string)
    (rate : float) (n : Z) :
  read_trial_meta py_float py_int d
    (fname_prefix ++ "-" ++ trial ++ "_" ++ channel ++ ".rsh")%string
  = Ok (rsm, before ++ missing :: after, date, rate, n) ->
  Forall (whole_file d) before ->
  plain_name missing = true ->
  lookup d missing = None ->
  exists frames,
    data_gen py_float py_int d fname_prefix channel trial
    = (frames, Some (FileNotFoundError missing)) /\
    Z.of_nat (length frames) = fold_right Z.add 0%Z (map (frames_in d) before).
Proof.
  intros M W _ Miss. unfold data_gen. rewrite M.
  destruct (files_loop_whole_files d before n W) as (frames & E & Len).
  exists frames. split; [|exact Len].
  rewrite files_loop_app, E. cbn [files_loop]. unfold open_rb. rewrite Miss.
  unfold gen_seq, gen_raise. cbn [fst snd]. now rewrite app_nil_r.
Qed.

(** ** The stream at sample inputs *)

Lemma ramp_buffer_whole d f : lookup d f = Some ramp_buffer -> whole_file d f.
Proof.
  intros L. exists ramp_buffer. split; [exact L|].
  rewrite DecoderFacts.ramp_buffer_length.
  replace (Z.of_nat (2 * (128 * 100 * 1))) with 25600%Z by lia.
  split; [reflexivity | unfold READ_MAX; lia].
Qed.

(** [decode_buffer_all_or_nothing] at buffers of 1, 2 and 0 bytes. *)
Lemma decode_buffer_all_or_nothing_at_short_buffers :
  decode_buffer 5 [Byte.x00] = (gen_raise struct_error, 5%Z) /\
  fst (decode_buffer 5 [Byte.x00; Byte.x00]) = gen_raise ValueError_reshape /\
  exists frames,
    yields (fst (decode_buffer 5 [])) frames /\
    Z.of_nat (length frames) = (Z.of_nat (length (@nil Byte.byte)) / 25600)%Z.
Proof.
  split; [|split].
  - apply (proj1 (decode_buffer_all_or_nothing 5 [Byte.x00])). reflexivity.
  - apply (proj1 (proj2 (decode_buffer_all_or_nothing 5 [Byte.x00; Byte.x00])));
      [reflexivity | discriminate].
  - apply (proj1 (proj2 (proj2 (decode_buffer_all_or_nothing 5 [])))). reflexivity.
Defined.

(** [frames_come_in_file_order] at the trial of three raw files, and at a
    list that begins with a file that is not there. *)
Lemma frames_come_in_file_order_at_three_files :
  files_loop three_files_dir 3
    (["s-1_A(0).rsd"%string] ++ ["s-1_A(1).rsd"%string; "s-1_A(2).rsd"%string])%list
  = (fst (files_loop three_files_dir 3 ["s-1_A(0).rsd"%string])
       ++ fst (files_loop three_files_dir 3 ["s-1_A(1).rsd"; "s-1_A(2).rsd"]%string),
     snd (files_loop three_files_dir 3 ["s-1_A(1).rsd"; "s-1_A(2).rsd"]%string)) /\
  files_loop missing_file_dir 3 (["s-1_A(1).rsd"%string] ++ ["s-1_A(2).rsd"%string])%list
  = ([], Some (FileNotFoundError "s-1_A(1).rsd")).
Proof.
  split.
  - apply (proj1 (frames_come_in_file_order three_files_dir 3 ["s-1_A(0).rsd"%string]
                    ["s-1_A(1).rsd"; "s-1_A(2).rsd"]%string
                    (fst (files_loop three_files_dir 3 ["s-1_A(0).rsd"%string])))).
    destruct (files_loop_whole_files three_files_dir ["s-1_A(0).rsd"%string] 3) as (frames & E & _).
    + apply Forall_cons; [|apply Forall_nil]. apply ramp_buffer_whole. reflexivity.
    + rewrite E. reflexivity.
  - apply (proj2 (frames_come_in_file_order missing_file_dir 3 ["s-1_A(1).rsd"%string]
                    ["s-1_A(2).rsd"%string] [])
             (FileNotFoundError "s-1_A(1).rsd") missing_file_dir).
    + reflexivity.
    + intros f _. reflexivity.
Defined.

(** [data_gen_yields_every_frame_of_every_file] at the trial of three raw
    files. *)
Lemma data_gen_yields_every_frame_at_three_files :
  exists frames,
    yields (data_gen float_of_string int_of_string three_files_dir "s" "A" "1") frames /\
    Z.of_nat (length frames)
    = fold_right Z.add 0%Z
        (map (frames_in three_files_dir)
             ["s-1_A(0).rsd"; "s-1_A(1).rsd"; "s-1_A(2).rsd"]%string).
Proof.
  apply (data_gen_yields_every_frame_of_every_file float_of_string int_of_string
           three_files_dir "s" "A" "1" "s-1_A.rsm" "2019/07/10 12:30:00"
           ["s-1_A(0).rsd"; "s-1_A(1).rsd"; "s-1_A(2).rsd"]%string 100%float 3%Z).
  - vm_compute. reflexivity.
  - repeat (apply Forall_cons; [apply ramp_buffer_whole; reflexivity|]). apply Forall_nil.
Defined.

(** [data_gen_stops_at_a_missing_file] at the same trial without its second
    raw file. *)
Lemma data_gen_stops_at_a_missing_file_at_sample :
  exists frames,
    data_gen float_of_string int_of_string missing_file_dir "s" "A" "1"
    = (frames, Some (FileNotFoundError "s-1_A(1).rsd")) /\
    Z.of_nat (length frames)
    = fold_right Z.add 0%Z (map (frames_in missing_file_dir) ["s-1_A(0).rsd"%string]).
Proof.
  apply (data_gen_stops_at_a_missing_file float_of_string int_of_string
           missing_file_dir "s" "A" "1" "s-1_A.rsm" "2019/07/10 12:30:00"
           ["s-1_A(0).rsd"%string] "s-1_A(1).rsd" ["s-1_A(2).rsd"%string] 100%float 3%Z).
  - vm_compute. reflexivity.
  - apply Forall_cons; [apply ramp_buffer_whole; reflexivity | apply Forall_nil].
  - reflexivity.
  - reflexivity.
Defined.

End StreamFacts.

(* ================================================================== *)
(** * More on the header parser: what it returns *)
(* ================================================================== *)

Module FileListFacts.
Import Py PyLib FRET Props Samples.

Section Returned.

Variable py_float : string -> option float.
Variable py_int : string -> option Z.

Ltac simp_locals :=
  cbn [files_raw addftolist acquisition_date sample_rate n_frames] in *.

Ltac split_ifs :=
  repeat (simp_locals;
          match goal with
          | |- context [if ?b then _ else _] => destruct b eqn:?
          | |- context [match ?o with Some _ => _ | None => _ end] => destruct o eqn:?
          end).

(** One turn of the loop at the sentinel line and after it. *)
Lemma scan_line_sentinel v line v' :
  contains "Data-File-List" line = true ->
  scan_line py_float py_int v line = Ok v' -> addftolist v' = true.
Proof.
  destruct v as [fr aft ad sr nf]. intros C.
  unfold scan_line, float_div, bind. rewrite C.
  split_ifs; intros E; try discriminate E; injection E as <-; reflexivity.
Qed.

Lemma scan_line_collects v line v' :
  addftolist v = true ->
  scan_line py_float py_int v line = Ok v' ->
  files_raw v' = (files_raw v ++ [strip line])%list /\ addftolist v' = true.
Proof.
  destruct v as [fr aft ad sr nf]. cbn [addftolist]. intros ->.
  unfold scan_line, float_div, bind.
  split_ifs; intros E; try discriminate E; injection E as <-;
    simp_locals; try congruence; auto.
Qed.

Lemma scan_collects lines : forall v v',
  addftolist v = true ->
  scan py_float py_int v lines = Ok v' ->
  files_raw v' = (files_raw v ++ map strip lines)%list.
Proof.
  induction lines as [|line rest IH]; intros v v' A.
  - intros [= <-]. now rewrite app_nil_r.
  - cbn [scan]. destruct (scan_line py_float py_int v line) as [v1|] eqn:E; [|discriminate].
    destruct (scan_line_collects _ _ _ A E) as [F A1].
    intros S. rewrite (IH v1 v' A1 S), F, <- app_assoc. reflexivity.
Qed.

(** What a field line leaves in the variable it assigns. *)
Lemma scan_line_date v line v' :
  contains "acquisition_date" line = true ->
  scan_line py_float py_int v line = Ok v' ->
  acquisition_date v' = Some (acquisition_date_text line).
Proof.
  destruct v as [fr aft ad sr nf]. intros C.
  unfold scan_line, float_div, bind. rewrite C.
  split_ifs; intros E; try discriminate E; injection E as <-; reflexivity.
Qed.

Lemma scan_line_page_frames v line v' :
  contains "page_frames" line = true ->
  scan_line py_float py_int v line = Ok v' ->
  exists n, py_int (page_frames_text line) = Some n /\ n_frames v' = Some n.
Proof.
  destruct v as [fr aft ad sr nf]. intros C.
  unfold scan_line, float_div, bind. rewrite C.
  split_ifs; intros E; try discriminate E; injection E as <-; simp_locals; eauto.
Qed.

(** The text of an accepted header, cut at one of its lines. *)
Lemma read_at_line text pre line post meta :
  readlines text = (pre ++ line :: post)%list ->
  read_trial_meta_text py_float py_int text = Ok meta ->
  exists v1 v2 v3,
    scan py_float py_int initial_locals pre = Ok v1 /\
    scan_line py_float py_int v1 line = Ok v2 /\
    scan py_float py_int v2 post = Ok v3 /\
    finish v3 = Ok meta.
Proof.
  intros R. unfold read_trial_meta_text, bind. rewrite R, HeaderFacts.scan_app.
  destruct (scan py_float py_int initial_locals pre) as [v1|] eqn:S1; [|discriminate].
  cbn [scan].
  destruct (scan_line py_float py_int v1 line) as [v2|] eqn:S2; [|discriminate].
  destruct (scan py_float py_int v2 post) as [v3|] eqn:S3; [|discriminate].
  intros F. exists v1, v2, v3. auto.
Qed.

(** The file names an accepted header returns are the lines that follow its
    first sentinel line, every one of them, stripped: the first is the bitmap
    file, the others are the raw files in order.  Nothing is filtered: a blank
    line gives an empty name, and a field line or a second sentinel line after
    the first is taken as a file name too. *)
Theorem file_list_is_every_line_after_the_sentinel
    (text : string) (pre : list string) (sentinel : string) (post : list string)
    (rsm : string) (files : list string) (date : string) (rate : float) (n : Z) :
  readlines text = (pre ++ sentinel :: post)%list ->
  absent "Data-File-List" pre ->
  contains "Data-File-List" sentinel = true ->
  read_trial_meta_text py_float py_int text = Ok (rsm, files, date, rate, n) ->
  rsm :: files = map strip post.
Proof.
  intros R A C M.
  destruct (read_at_line _ _ _ _ _ R M) as (v1 & v2 & v3 & S1 & S2 & S3 & F).
  destruct (HeaderFacts.scan_without_sentinel py_float py_int pre initial_locals v1 A eq_refl S1)
    as [F1 A1].
  destruct (HeaderFacts.scan_line_keeps py_float py_int _ _ _ S2) as (_ & _ & _ & _ & K).
  pose proof (scan_line_sentinel _ _ _ C S2) as A2.
  pose proof (scan_collects _ _ _ A2 S3) as F3.
  apply HeaderFacts.finish_ok in F. destruct F as (Ff & _).
  rewrite Ff in F3. rewrite F3, (K A1), F1. reflexivity.
Qed.

(** A header may give a field more than once: the date and the frame count
    returned are those of the last line that mentions each, wherever that
    line stands, before the sentinel or after it. *)
Theorem last_field_line_wins
    (text : string) (rsm : string) (files : list string) (date : string)
    (rate : float) (n : Z) :
  read_trial_meta_text py_float py_int text = Ok (rsm, files, date, rate, n) ->
  (forall pre line post,
     readlines text = (pre ++ line :: post)%list ->
     contains "acquisition_date" line = true ->
     absent "acquisition_date" post ->
     date = acquisition_date_text line) /\
  (forall pre line post,
     readlines text = (pre ++ line :: post)%list ->
     contains "page_frames" line = true ->
     absent "page_frames" post ->
     py_int (page_frames_text line) = Some n).
Proof.
  intros M. split; intros pre line post R C A.
  - destruct (read_at_line _ _ _ _ _ R M) as (v1 & v2 & v3 & _ & S2 & S3 & F).
    apply HeaderFacts.finish_ok in F. destruct F as (_ & Fd & _).
    rewrite (HeaderFacts.scan_without_date py_float py_int _ _ _ A S3) in Fd.
    rewrite (scan_line_date _ _ _ C S2) in Fd. now injection Fd.
  - destruct (read_at_line _ _ _ _ _ R M) as (v1 & v2 & v3 & _ & S2 & S3 & F).
    apply HeaderFacts.finish_ok in F. destruct F as (_ & _ & _ & Fn).
    rewrite (HeaderFacts.scan_without_page_frames py_float py_int _ _ _ A S3) in Fn.
    destruct (scan_line_page_frames _ _ _ C S2) as (n' & P & N).
    rewrite N in Fn. injection Fn as <-. exact P.
Qed.

End Returned.

(** ** The header with repeated fields *)

Lemma header_with_repeats_read :
  read_trial_meta_text float_of_string int_of_string header_with_repeats
  = Ok ("s-1_A.rsm"%string,
        ["s-1_A(0).rsd"; "page_frames = 7"; "acquisition_date = 2019/07/11 08:00:00"]%string,
        "2019/07/11 08:00:00"%string, 100%float, 7%Z).
Proof. vm_compute. reflexivity. Qed.

(** [file_list_is_every_line_after_the_sentinel] at the header with repeated
    fields: the two field lines that follow the file names are file names
    too. *)
Lemma file_list_is_every_line_after_the_sentinel_at_repeats :
  ["s-1_A.rsm"; "s-1_A(0).rsd"; "page_frames = 7";
   "acquisition_date = 2019/07/11 08:00:00"]%string
  = map strip [("s-1_A.rsm" ++ nl)%string; ("s-1_A(0).rsd" ++ nl)%string;
               ("page_frames = 7" ++ nl)%string;
               ("acquisition_date = 2019/07/11 08:00:00" ++ nl)%string].
Proof.
  apply (file_list_is_every_line_after_the_sentinel float_of_string int_of_string
           header_with_repeats
           [("acquisition_date = 2019/07/10 12:30:00" ++ nl)%string;
            ("page_frames = 5" ++ nl)%string; ("sample_time = 10 msec" ++ nl)%string]
           ("Data-File-List" ++ nl)%string
           [("s-1_A.rsm" ++ nl)%string; ("s-1_A(0).rsd" ++ nl)%string;
            ("page_frames = 7" ++ nl)%string;
            ("acquisition_date = 2019/07/11 08:00:00" ++ nl)%string]
           "s-1_A.rsm"
           ["s-1_A(0).rsd"; "page_frames = 7"; "acquisition_date = 2019/07/11 08:00:00"]%string
           "2019/07/11 08:00:00" 100%float 7%Z).
  - vm_compute. reflexivity.
  - apply HeaderFacts.absent_forallb. vm_compute. reflexivity.
  - vm_compute. reflexivity.
  - exact header_with_repeats_read.
Defined.

(** [last_field_line_wins] at the same header: the date and the frame count
    are those of its last two lines. *)
Lemma last_field_line_wins_at_repeats :
  "2019/07/11 08:00:00"%string
  = acquisition_date_text ("acquisition_date = 2019/07/11 08:00:00" ++ nl)%string /\
  int_of_string (page_frames_text ("page_frames = 7" ++ nl)%string) = Some 7%Z.
Proof.
  split.
  - apply (proj1 (last_field_line_wins float_of_string int_of_string header_with_repeats
                    _ _ _ _ _ header_with_repeats_read)
             [("acquisition_date = 2019/07/10 12:30:00" ++ nl)%string;
              ("page_frames = 5" ++ nl)%string; ("sample_time = 10 msec" ++ nl)%string;
              ("Data-File-List" ++ nl)%string;
              ("s-1_A.rsm" ++ nl)%string; ("s-1_A(0).rsd" ++ nl)%string;
              ("page_frames = 7" ++ nl)%string]
             ("acquisition_date = 2019/07/11 08:00:00" ++ nl)%string []).
    + vm_compute. reflexivity.
    + vm_compute. reflexivity.
    + intros line [].
  - apply (proj2 (last_field_line_wins float_of_string int_of_string header_with_repeats
                    _ _ _ _ _ header_with_repeats_read)
             [("acquisition_date = 2019/07/10 12:30:00" ++ nl)%string;
              ("page_frames = 5" ++ nl)%string; ("sample_time = 10 msec" ++ nl)%string;
              ("Data-File-List" ++ nl)%string;
              ("s-1_A.rsm" ++ nl)%string; ("s-1_A(0).rsd" ++ nl)%string]
             ("page_frames = 7" ++ nl)%string
             [("acquisition_date = 2019/07/11 08:00:00" ++ nl)%string]).
    + vm_compute. reflexivity.
    + vm_compute. reflexivity.
    + apply HeaderFacts.absent_forallb. vm_compute. reflexivity.
Defined.

End FileListFacts.

(* ================================================================== *)
(** * More on the orchestrator: what it keeps and what it adds *)
(* ================================================================== *)

Module ConversionFacts.
Import Py PyLib FRET FRETMetadata Props Samples.

(** ** Invariants of the effects *)

(** [I] holds after [m] whenever it holds before, however [m] ends. *)
Definition invariant {A} (I : world -> Prop) (m : st A) : Prop :=
  forall w, I w -> I (snd (m w)).

Lemma inv_bind {A B} I (m : st A) (k : A -> st B) :
  invariant I m -> (forall a, invariant I (k a)) -> invariant I (st_bind m k).
Proof.
  intros Hm Hk w Hw. unfold st_bind. specialize (Hm w Hw).
  destruct (m w) as [[a|e] w']; cbn [snd] in *; [now apply Hk | exact Hm].
Qed.

Lemma inv_pure {A} I (m : st A) : (forall w, snd (m w) = w) -> invariant I m.
Proof. intros H w Hw. now rewrite H. Qed.

Lemma inv_for_each {A} I (body : A -> st unit) l :
  (forall a, invariant I (body a)) -> invariant I (for_each l body).
Proof.
  intros Hb. induction l as [|a l IH]; cbn [for_each].
  - now apply inv_pure.
  - apply inv_bind; [apply Hb | intros _; exact IH].
Qed.

Lemma assert_pure cond msg w : snd (assert_ cond msg w) = w.
Proof. now destruct cond. Qed.

Lemma keeps_refl f : keeps f f.
Proof. repeat split; exists []; now rewrite app_nil_r. Qed.

Lemma keeps_trans f g h : keeps f g -> keeps g h -> keeps f h.
Proof.
  intros (S1 & (d1 & D1) & (a1 & A1)) (S2 & (d2 & D2) & (a2 & A2)).
  split; [congruence|]. split.
  - exists (d1 ++ d2). now rewrite D2, D1, app_assoc.
  - exists (a1 ++ a2). now rewrite A2, A1, app_assoc.
Qed.

Lemma inv_keeps_print f0 s : invariant (fun w => keeps f0 (nwbfile w)) (print s).
Proof. intros w H. exact H. Qed.

Lemma inv_keeps_add_device f0 dev :
  invariant (fun w => keeps f0 (nwbfile w)) (add_device dev).
Proof.
  intros w H. unfold add_device.
  destruct (existsb _ _); cbn [snd nwbfile]; [exact H|].
  apply (keeps_trans _ _ _ H). split; [reflexivity|]. split.
  - now exists [dev].
  - exists []. cbn [acquisition]. now rewrite app_nil_r.
Qed.

Lemma inv_keeps_add_acquisition f0 g :
  invariant (fun w => keeps f0 (nwbfile w)) (add_acquisition g).
Proof.
  intros w H. unfold add_acquisition.
  destruct (existsb _ _); cbn [snd nwbfile]; [exact H|].
  apply (keeps_trans _ _ _ H). split; [reflexivity|]. split.
  - exists []. cbn [devices]. now rewrite app_nil_r.
  - now exists [acq_FRET g].
Qed.

Lemma inv_keeps_add_trial f0 a b :
  invariant (fun w => keeps f0 (nwbfile w)) (add_trial a b).
Proof.
  intros w H. unfold add_trial. cbn [snd nwbfile].
  apply (keeps_trans _ _ _ H). split; [reflexivity|].
  split; exists []; cbn [devices acquisition]; now rewrite app_nil_r.
Qed.

Lemma inv_trials_print rows s :
  invariant (fun w => trials (nwbfile w) = Some rows) (print s).
Proof. intros w H. exact H. Qed.

Lemma inv_trials_add_device rows dev :
  invariant (fun w => trials (nwbfile w) = Some rows) (add_device dev).
Proof. intros w H. unfold add_device. now destruct (existsb _ _). Qed.

Lemma inv_trials_add_acquisition rows g :
  invariant (fun w => trials (nwbfile w) = Some rows) (add_acquisition g).
Proof. intros w H. unfold add_acquisition. now destruct (existsb _ _). Qed.

Lemma inv_devices_print D s :
  invariant (fun w => devices (nwbfile w) = D) (print s).
Proof. intros w H. exact H. Qed.

Lemma inv_devices_add_acquisition D g :
  invariant (fun w => devices (nwbfile w) = D) (add_acquisition g).
Proof. intros w H. unfold add_acquisition. now destruct (existsb _ _). Qed.

Lemma inv_devices_add_trial D a b :
  invariant (fun w => devices (nwbfile w) = D) (add_trial a b).
Proof. intros w H. exact H. Qed.

Lemma inv_get {A} I (k : NWBFile -> st A) :
  (forall nwb, invariant I (k nwb)) -> invariant I (st_bind get_nwbfile k).
Proof. intros H. apply inv_bind; [now apply inv_pure | exact H]. Qed.

(** The steps of a proof of an invariant, along the code. *)
Ltac inv_step :=
  first
    [ apply inv_bind; [| intros ?]
    | apply inv_for_each; intros ?
    | apply inv_keeps_print | apply inv_keeps_add_device
    | apply inv_keeps_add_acquisition | apply inv_keeps_add_trial
    | apply inv_trials_print | apply inv_trials_add_device
    | apply inv_trials_add_acquisition
    | apply inv_devices_print | apply inv_devices_add_acquisition
    | apply inv_devices_add_trial
    | apply inv_pure; intros ?; first [ reflexivity | apply assert_pure ]
    | match goal with
      | |- invariant _ (match ?x with _ => _ end) => destruct x
      | |- invariant _ (if ?x then _ else _) => destruct x
      end ].

Section Conversion.

Variable py_float : string -> option float.
Variable py_int : string -> option Z.
Variable strptime : string -> option Z.

Lemma convert_trial_keeps f0 d metadata fname_prefix device ocd oca add_trials tr :
  invariant (fun w => keeps f0 (nwbfile w))
    (convert_trial py_float py_int strptime d metadata fname_prefix device ocd oca
                   add_trials tr).
Proof. unfold convert_trial. repeat inv_step. Qed.

Lemma convert_trial_keeps_trials rows d metadata fname_prefix device ocd oca tr :
  invariant (fun w => trials (nwbfile w) = Some rows)
    (convert_trial py_float py_int strptime d metadata fname_prefix device ocd oca
                   false tr).
Proof. unfold convert_trial. repeat inv_step. Qed.

Lemma convert_trial_keeps_devices D d metadata fname_prefix device ocd oca add_trials tr :
  invariant (fun w => devices (nwbfile w) = D)
    (convert_trial py_float py_int strptime d metadata fname_prefix device ocd oca
                   add_trials tr).
Proof. unfold convert_trial. repeat inv_step. Qed.

(** ** What a converted trial is *)

Lemma convert_trial_ok d metadata fname_prefix ocd oca add_trials tr w w' :
  convert_trial py_float py_int strptime d metadata fname_prefix
                (mk_Device (md_device_name metadata)) ocd oca add_trials tr w
  = (Ok tt, w') ->
  exists g,
    converted py_float py_int d metadata fname_prefix tr g /\
    acquisition (nwbfile w') = acquisition (nwbfile w) ++ [acq_FRET g] /\
    (if add_trials
     then exists stop,
         trials (nwbfile w')
         = Some (match trials (nwbfile w) with Some rows => rows | None => [] end
                 ++ [(fs_starting_time (fret_donor g), stop)])
     else trials (nwbfile w') = trials (nwbfile w)).
Proof.
  unfold convert_trial, st_bind, lift, lift_option, get_nwbfile.
  destruct (read_trial_meta py_float py_int d _) as [[[[[rsmA filesA] dateA] rateA] nA]|] eqn:EA;
    [|discriminate].
  destruct (read_trial_meta py_float py_int d (fname_prefix ++ "-" ++ tr ++ "_B.rsh"))
    as [[[[[rsmB filesB] dateB] rateB] nB]|] eqn:EB; [|discriminate].
  destruct (strptime dateA) as [t|]; [|discriminate].
  destruct (float_of_int _) as [start|] eqn:ES; [|discriminate].
  unfold assert_, ret, raise.
  destruct (String.eqb dateA dateB); [|discriminate].
  destruct (PrimFloat.eqb rateA rateB) eqn:ER; [|discriminate].
  destruct (Z.eqb nA nB); [|discriminate].
  destruct (PrimFloat.leb 0 start) eqn:EL; [|discriminate].
  unfold add_acquisition. destruct (existsb _ _); [discriminate|].
  destruct add_trials.
  - destruct (float_of_int nA) as [frames|]; [|discriminate].
    unfold float_div. destruct (PrimFloat.eqb rateA PrimFloat.zero); [discriminate|].
    unfold add_trial. cbn [nwbfile stdout acquisition trials devices session_start_time].
    intros [= <-]. eexists. split; [|split]; cycle 1.
    + reflexivity.
    + cbn. eexists. reflexivity.
    + unfold converted. cbn. repeat split; eauto 8.
  - intros [= <-]. eexists. split; [|split]; cycle 1.
    + reflexivity.
    + reflexivity.
    + unfold converted. cbn. repeat split; eauto 8.
Qed.

Lemma for_each_convert_ok d metadata fname_prefix ocd oca add_trials trs : forall w w',
  for_each trs
    (convert_trial py_float py_int strptime d metadata fname_prefix
                   (mk_Device (md_device_name metadata)) ocd oca add_trials) w
  = (Ok tt, w') ->
  exists groups,
    Forall2 (converted py_float py_int d metadata fname_prefix) trs groups /\
    acquisition (nwbfile w') = acquisition (nwbfile w) ++ map acq_FRET groups /\
    (if add_trials
     then exists rows,
         trial_rows (nwbfile w') = trial_rows (nwbfile w) ++ rows /\
         map fst rows = map (fun g => fs_starting_time (fret_donor g)) groups
     else trials (nwbfile w') = trials (nwbfile w)).
Proof.
  induction trs as [|tr rest IH]; intros w w'.
  - cbn [for_each ret]. intros [= <-]. exists []. split; [constructor|].
    split; [now rewrite app_nil_r|].
    destruct add_trials; [|reflexivity].
    exists []. split; [|reflexivity]. now rewrite app_nil_r.
  - cbn [for_each]. unfold st_bind at 1.
    destruct (convert_trial _ _ _ _ _ _ _ _ _ _ tr w) as [[[]|] w1] eqn:E1; [|discriminate].
    intros E. destruct (convert_trial_ok _ _ _ _ _ _ _ _ _ E1) as (g & C & A1 & T1).
    destruct (IH w1 w' E) as (groups & Cs & A & T).
    exists (g :: groups). split; [now constructor|]. split.
    + rewrite A, A1, <- app_assoc. reflexivity.
    + destruct add_trials; [|congruence].
      destruct T1 as (stop & T1). destruct T as (rows & T & M).
      exists ((fs_starting_time (fret_donor g), stop) :: rows). split.
      * rewrite T. unfold trial_rows at 1. rewrite T1, <- app_assoc. reflexivity.
      * cbn [map fst]. now rewrite M.
Qed.

(** ** [run_conversion] as a whole *)

(** Whatever the directory holds and however the conversion ends, with a
    result, with the warning of an abort or with an exception half-way
    through the trials, the file it was given still starts with what
    it held: the session start time is the same, and the devices and the
    acquisition objects that were there are there, in place, before anything
    the conversion added. *)
Theorem run_conversion_only_appends d metadata w :
  keeps (nwbfile w)
        (nwbfile (snd (run_conversion py_float py_int strptime d metadata w))).
Proof.
  assert (H : invariant (fun w' => keeps (nwbfile w) (nwbfile w'))
                (run_conversion py_float py_int strptime d metadata)).
  { unfold run_conversion. cbv zeta. repeat inv_step. }
  apply H, keeps_refl.
Qed.

(** A file that already has a trials table keeps it as it is: the conversion
    adds no row and changes none, whether it ends with a result or with an
    exception. *)
Theorem existing_trials_table_is_left_alone d metadata w rows :
  trials (nwbfile w) = Some rows ->
  trials (nwbfile (snd (run_conversion py_float py_int strptime d metadata w))) = Some rows.
Proof.
  revert w.
  change (invariant (fun w => trials (nwbfile w) = Some rows)
            (run_conversion py_float py_int strptime d metadata)).
  unfold run_conversion. cbv zeta.
  apply inv_bind; [repeat inv_step|intros fname_prefix].
  apply inv_bind; [repeat inv_step|intros header].
  apply inv_bind; [repeat inv_step|intros meta].
  destruct meta as [[[[? ?] date] ?] ?].
  apply inv_bind; [repeat inv_step|intros t].
  apply inv_get. intros nwb. destruct (negb _); [repeat inv_step|].
  apply inv_bind; [inv_step|intros _].
  intros w H. unfold st_bind at 1. unfold get_nwbfile. rewrite H.
  unfold st_bind at 1. unfold st_bind at 1. unfold print, ret.
  match goal with
  | |- trials (nwbfile (snd (?m ?w1))) = _ =>
      assert (I : invariant (fun w => trials (nwbfile w) = Some rows) m)
  end.
  { repeat inv_step. }
  apply I. exact H.
Qed.

Lemma bind_ok {A B} (m : st A) (k : A -> st B) w b w' :
  st_bind m k w = (Ok b, w') ->
  exists a w1, m w = (Ok a, w1) /\ k a w1 = (Ok b, w').
Proof. unfold st_bind. destruct (m w) as [[a|e] w1]; [eauto | discriminate]. Qed.

Lemma lift_ok {A} (r : result A) w a w1 : lift r w = (Ok a, w1) -> r = Ok a /\ w1 = w.
Proof. unfold lift. now intros [= -> ->]. Qed.

Lemma add_device_ok dev w w1 :
  add_device dev w = (Ok tt, w1) ->
  session_start_time (nwbfile w1) = session_start_time (nwbfile w) /\
  devices (nwbfile w1) = devices (nwbfile w) ++ [dev] /\
  acquisition (nwbfile w1) = acquisition (nwbfile w) /\
  trials (nwbfile w1) = trials (nwbfile w).
Proof.
  unfold add_device. destruct (existsb _ _); [discriminate|].
  intros [= <-]. now cbn.
Qed.

Lemma run_conversion_returns d metadata w w' :
  run_conversion py_float py_int strptime d metadata w = (Ok tt, w') ->
  (exists header rsm files date rate n t,
     getitem (sorted (filter is_session_header (listdir d))) 0 = Ok header /\
     read_trial_meta py_float py_int d header = Ok (rsm, files, date, rate, n) /\
     strptime date = Some t /\
     if aware_eqb (localize_EST t) (session_start_time (nwbfile w))
     then completed py_float py_int d metadata w w'
     else aborted w w').
Proof.
  unfold run_conversion. cbv zeta. intros R.
  apply bind_ok in R. destruct R as (prefix & w1 & P & R).
  destruct (filter (endswith ".rsh") (listdir d)) as [|first others] eqn:G;
    [discriminate P|].
  apply lift_ok in P. destruct P as (P & ->).
  apply bind_ok in R. destruct R as (header & w1 & H & R).
  apply lift_ok in H. destruct H as (H & ->).
  apply bind_ok in R. destruct R as (meta & w1 & M & R).
  apply lift_ok in M. destruct M as (M & ->).
  destruct meta as [[[[rsm files] date] rate] n].
  apply bind_ok in R. destruct R as (t & w1 & T & R).
  unfold lift_option in T. destruct (strptime date) as [t'|] eqn:ET; [|discriminate T].
  injection T as <- <-.
  apply bind_ok in R. destruct R as (nwb & w1 & N & R).
  unfold get_nwbfile in N. injection N as <- <-.
  exists header, rsm, files, date, rate, n, t'. repeat (split; [assumption|]).
  destruct (aware_eqb (localize_EST t') (session_start_time (nwbfile w))); cbn [negb] in R.
  - apply bind_ok in R. destruct R as ([] & w1 & D & R).
    apply add_device_ok in D. destruct D as (DS & DD & DA & DT).
    apply bind_ok in R. destruct R as (nwb & w2 & N & R).
    unfold get_nwbfile in N. injection N as <- <-.
    apply bind_ok in R. destruct R as (add_trials & w2 & AT & R).
    apply bind_ok in R. destruct R as (numbers & w3 & TN & R).
    apply lift_ok in TN. destruct TN as (TN & ->).
    assert (F : nwbfile w2 = nwbfile w1 /\
                add_trials = match trials (nwbfile w1) with Some _ => false | None => true end).
    { destruct (trials (nwbfile w1)).
      - apply bind_ok in AT. destruct AT as ([] & w3 & P1 & P2).
        unfold print in P1. unfold ret in P2. injection P1 as <-. now injection P2 as <- <-.
      - unfold ret in AT. now injection AT as <- <-. }
    destruct F as (F & ->).
    match type of R with
    | for_each _ ?body _ = _ =>
        assert (Dv : devices (nwbfile (snd (for_each numbers body w2)))
                     = devices (nwbfile w2))
          by (apply (inv_for_each (fun x => devices (nwbfile x) = devices (nwbfile w2)));
              [intros tr; apply convert_trial_keeps_devices | reflexivity]);
        assert (St : keeps (nwbfile w2) (nwbfile (snd (for_each numbers body w2))))
          by (apply (inv_for_each (fun x => keeps (nwbfile w2) (nwbfile x)));
              [intros tr; apply convert_trial_keeps | apply keeps_refl])
    end.
    destruct St as (St & _).
    rewrite R in Dv, St. cbn [snd] in Dv, St.
    apply for_each_convert_ok in R. destruct R as (groups & Cs & A & Tr).
    exists first, others, prefix, numbers, groups.
    rewrite F in *. rewrite DT in Tr.
    repeat (split; [congruence|]).
    destruct (trials (nwbfile w)) as [rows|] eqn:E; [congruence|].
    destruct Tr as (rows & Tr & Mp). rewrite Tr.
    unfold trial_rows at 1. rewrite DT. exact Mp.
  - apply bind_ok in R. destruct R as ([] & w1 & P1 & R).
    unfold print in P1, R. injection P1 as <-. injection R as <-.
    split; cbn [nwbfile stdout]; [reflexivity|]. now rewrite <- app_assoc.
Qed.

(** When [run_conversion] returns, it has read the session header that comes
    first in sorted order and compared its date, as an EST time, with the
    start of the file.  If they differ, the two lines of the warning are
    printed and the file is what it was.  If they are the same, the file has
    one more device, and one FRET group more per session header, in the
    sorted order of the headers, each named after its trial and holding the
    two channels of that trial; a file that had no trials table has one row
    per group, starting when the group starts, and a file that had one has
    it unchanged. *)
Theorem run_conversion_aborts_or_completes d metadata w w' :
  run_conversion py_float py_int strptime d metadata w = (Ok tt, w') ->
  exists header rsm files date rate n t,
    getitem (sorted (filter is_session_header (listdir d))) 0 = Ok header /\
    read_trial_meta py_float py_int d header = Ok (rsm, files, date, rate, n) /\
    strptime date = Some t /\
    if aware_eqb (localize_EST t) (session_start_time (nwbfile w))
    then completed py_float py_int d metadata w w'
    else aborted w w'.
Proof. apply run_conversion_returns. Qed.

(** ** [get_metadata] and [run_conversion] *)

(** [t.isoformat()], taken as given. *)
Variable isoformat : aware -> string.

(** In a directory with a [*.rsh] file, what makes [get_metadata] raise makes
    [run_conversion] raise the same exception, with the output file and the
    printed lines as they were: no session header (IndexError), a first
    header that cannot be read, or a date that is not in the format. *)
Theorem run_conversion_fails_where_get_metadata_fails d metadata w e :
  filter (endswith ".rsh") (listdir d) <> [] ->
  get_metadata py_float py_int strptime isoformat d = Raise e ->
  run_conversion py_float py_int strptime d metadata w = (Raise e, w).
Proof.
  intros G. unfold get_metadata, run_conversion, bind. cbv zeta.
  destruct (filter (endswith ".rsh") (listdir d)) as [|first others]; [congruence|].
  destruct (OrchestratorFacts.getitem_split_0 "-" first) as (prefix & P).
  unfold st_bind, lift, lift_option. rewrite P.
  destruct (getitem (sorted _) 0) as [header|]; [|now intros [= ->]].
  destruct (read_trial_meta py_float py_int d header) as [[[[[? ?] date] ?] ?]|];
    [|now intros [= ->]].
  destruct (strptime date); [discriminate | now intros [= ->]].
Qed.

(** The session start time [get_metadata] reports is the one
    [run_conversion] accepts: the text is the ISO form of a time such that, in
    a file that starts at that time, a conversion that returns has not
    aborted but added the device and the trials' FRET groups. *)
Theorem get_metadata_start_time_is_accepted d metadata iso :
  get_metadata py_float py_int strptime isoformat d = Ok iso ->
  exists t : aware,
    iso = isoformat t /\
    forall w w',
      session_start_time (nwbfile w) = t ->
      run_conversion py_float py_int strptime d metadata w = (Ok tt, w') ->
      completed py_float py_int d metadata w w'.
Proof.
  unfold get_metadata, bind. cbv zeta.
  destruct (getitem (sorted _) 0) as [header|] eqn:H; [|discriminate].
  destruct (read_trial_meta py_float py_int d header) as [[[[[rsm files] date] rate] n]|] eqn:M;
    [|discriminate].
  destruct (strptime date) as [t|] eqn:T; [|discriminate].
  intros [= <-]. exists (localize_EST t). split; [reflexivity|].
  intros w w' S R.
  destruct (run_conversion_returns _ _ _ _ R)
    as (header' & rsm' & files' & date' & rate' & n' & t' & H' & M' & T' & C).
  rewrite H in H'. injection H' as <-.
  rewrite M in M'. injection M' as <- <- <- <- <-.
  rewrite T in T'. injection T' as <-.
  rewrite S in C. unfold aware_eqb in C. now rewrite Z.eqb_refl in C.
Qed.

End Conversion.

Local Open Scope string_scope.

(** ** File names *)

Lemma contains_char_cons c s tail :
  contains (String c EmptyString) (String s tail) = false ->
  Ascii.eqb s c = false /\ contains (String c EmptyString) tail = false.
Proof.
  cbn [contains String.prefix].
  destruct (Ascii.ascii_dec c s) as [->|N].
  - destruct tail; discriminate.
  - intros H. split; [|exact H].
    apply Ascii.eqb_neq. congruence.
Qed.

Lemma split_piece sep s rest :
  contains (String sep EmptyString) s = false ->
  split sep (s ++ String sep rest) = s :: split sep rest.
Proof.
  induction s as [|c s IH]; intros C.
  - cbn [String.append split]. now rewrite Ascii.eqb_refl.
  - apply contains_char_cons in C. destruct C as (N & C).
    cbn [String.append split]. rewrite N, (IH C). reflexivity.
Qed.

Lemma split_whole sep s :
  contains (String sep EmptyString) s = false -> split sep s = [s].
Proof.
  induction s as [|c s IH]; intros C; [reflexivity|].
  apply contains_char_cons in C. destruct C as (N & C).
  cbn [split]. rewrite N, (IH C). reflexivity.
Qed.

Lemma contains_char_app c s ext :
  contains (String c EmptyString) s = false ->
  contains (String c EmptyString) ext = false ->
  contains (String c EmptyString) (s ++ ext) = false.
Proof.
  induction s as [|a s IH]; intros C E; [exact E|].
  apply contains_char_cons in C. destruct C as (N & C).
  cbn [String.append contains String.prefix].
  destruct (Ascii.ascii_dec c a) as [->|_]; [now rewrite Ascii.eqb_refl in N|].
  now apply IH.
Qed.

Lemma replace_extension n :
  contains "." n = false -> replace ".rsh" "" (n ++ ".rsh") = n.
Proof.
  unfold replace. induction n as [|c n IH]; intros C; [reflexivity|].
  apply contains_char_cons in C. destruct C as (N & C).
  cbn [String.append replace_from String.prefix].
  destruct (Ascii.ascii_dec "." c) as [<-|_]; [now rewrite Ascii.eqb_refl in N|].
  now rewrite (IH C).
Qed.

(** The two name computations of [run_conversion].  On a name
    [prefix-trial.rsh], with no hyphen in the prefix and neither hyphen nor dot
    in the trial number, [split('-')[0]] gives back the prefix and
    [split('-')[1].replace('.rsh', '')] gives back the trial number; a name
    without a hyphen has no piece 1: IndexError. *)
Theorem header_name_gives_prefix_and_trial :
  (forall prefix trial,
     contains "-" prefix = false ->
     contains "-" trial = false -> contains "." trial = false ->
     getitem (split "-" (prefix ++ "-" ++ trial ++ ".rsh")) 0 = Ok prefix /\
     trial_number (prefix ++ "-" ++ trial ++ ".rsh") = Ok trial) /\
  (forall f, contains "-" f = false -> trial_number f = Raise IndexError).
Proof.
  split.
  - intros prefix trial P T D.
    assert (E : split "-" (prefix ++ "-" ++ trial ++ ".rsh")
                = [prefix; trial ++ ".rsh"]).
    { change (prefix ++ "-" ++ trial ++ ".rsh")
        with (prefix ++ String "-" (trial ++ ".rsh")).
      rewrite (split_piece _ _ _ P).
      now rewrite (split_whole "-" (trial ++ ".rsh")
                     (contains_char_app "-" trial ".rsh" T eq_refl)). }
    unfold trial_number. rewrite E. cbn [getitem nth_error bind].
    now rewrite (replace_extension _ D).
  - intros f C. unfold trial_number. now rewrite (split_whole _ _ C).
Qed.

(** ** The conversion at the sample session *)

(** [existing_trials_table_is_left_alone] at the two-trial session and a file
    with a trials table of one row. *)
Lemma existing_trials_table_is_left_alone_at_sample :
  trials (nwbfile (snd (run_conversion float_of_string int_of_string strptime
                          two_trials_dir sample_metadata
                          (mk_world nwbfile_with_trials []))))
  = Some [(0%float, 1%float)].
Proof.
  apply (existing_trials_table_is_left_alone float_of_string int_of_string strptime
           two_trials_dir sample_metadata (mk_world nwbfile_with_trials [])
           [(0%float, 1%float)]).
  reflexivity.
Defined.

Lemma sample_run_returns :
  run_conversion float_of_string int_of_string strptime two_trials_dir sample_metadata
                 (mk_world (nwbfile_starting "12:08:00") [])
  = (Ok tt, snd sample_run).
Proof.
  assert (F : fst sample_run = Ok tt) by (lazy; reflexivity).
  pose proof (surjective_pairing sample_run) as E.
  rewrite F in E. exact E.
Qed.

(** [run_conversion_aborts_or_completes] at the two-trial session and a file
    that starts when the session does. *)
Lemma run_conversion_aborts_or_completes_at_sample :
  exists header rsm files date rate n t,
    getitem (sorted (filter is_session_header (listdir two_trials_dir))) 0 = Ok header /\
    read_trial_meta float_of_string int_of_string two_trials_dir header
    = Ok (rsm, files, date, rate, n) /\
    strptime date = Some t /\
    if aware_eqb (localize_EST t)
                 (session_start_time (nwbfile (mk_world (nwbfile_starting "12:08:00") [])))
    then completed float_of_string int_of_string two_trials_dir sample_metadata
                   (mk_world (nwbfile_starting "12:08:00") []) (snd sample_run)
    else aborted (mk_world (nwbfile_starting "12:08:00") []) (snd sample_run).
Proof.
  exact (run_conversion_aborts_or_completes float_of_string int_of_string strptime
           two_trials_dir sample_metadata (mk_world (nwbfile_starting "12:08:00") [])
           (snd sample_run) sample_run_returns).
Defined.

(** [run_conversion_fails_where_get_metadata_fails] at a directory that has
    the header of a channel and no session header. *)
Lemma run_conversion_fails_where_get_metadata_fails_at_sample :
  run_conversion float_of_string int_of_string strptime (dir_declares "5") sample_metadata
                 (mk_world (nwbfile_starting "12:08:00") [])
  = (Raise IndexError, mk_world (nwbfile_starting "12:08:00") []).
Proof.
  apply (run_conversion_fails_where_get_metadata_fails float_of_string int_of_string
           strptime isoformat (dir_declares "5") sample_metadata
           (mk_world (nwbfile_starting "12:08:00") []) IndexError).
  - vm_compute. discriminate.
  - vm_compute. reflexivity.
Defined.

(** [get_metadata_start_time_is_accepted] at the two-trial session, whose
    first header in sorted order is that of trial 10, recorded at 12:08:00. *)
Lemma get_metadata_start_time_is_accepted_at_sample :
  exists t : aware,
    "2019-07-10T12:08:00-05:00"%string = isoformat t /\
    forall w w',
      session_start_time (nwbfile w) = t ->
      run_conversion float_of_string int_of_string strptime two_trials_dir sample_metadata w
      = (Ok tt, w') ->
      completed float_of_string int_of_string two_trials_dir sample_metadata w w'.
Proof.
  apply (get_metadata_start_time_is_accepted float_of_string int_of_string strptime
           isoformat two_trials_dir sample_metadata "2019-07-10T12:08:00-05:00").
  vm_compute. reflexivity.
Defined.

(** [header_name_gives_prefix_and_trial] at the names of the sample
    session. *)
Lemma header_name_gives_prefix_and_trial_at_sample :
  (getitem (split "-" ("s" ++ "-" ++ "10" ++ ".rsh")) 0 = Ok "s"%string /\
   trial_number ("s" ++ "-" ++ "10" ++ ".rsh") = Ok "10"%string) /\
  trial_number "s10.rsh" = Raise IndexError.
Proof.
  split.
  - apply (proj1 header_name_gives_prefix_and_trial "s" "10"); reflexivity.
  - apply (proj2 header_name_gives_prefix_and_trial "s10.rsh"). reflexivity.
Defined.

End ConversionFacts.
